(** * CraftLauncher: a shallow embedding of the launcher core

    The development follows the JavaScript sources file by file:
    [utils.js] (module [Utils]), [versions.js] (module [VersionManager]),
    [downloader.js] (module [DownloadManager]), [auth.js] and
    [launcher.js] (modules [AuthManager] and [GameLauncher]).

    Conventions of the embedding.
    - A JavaScript string is a [string]: a sequence of code units, here
      restricted to the range 0..255.  Where a function only reads
      [charCodeAt], a second definition over [list Z] covers every code unit.
    - A JavaScript number that the program only ever uses as an integer is
      a [Z]; all the sums and products of the modelled functions stay far
      below 2^53, where doubles are exact.  The 32-bit operators ([<<],
      [&]) are written with their wrap-around.
    - [Math.random], [Date.now] and the timers of the simulated transfers
      are ambient nondeterminism: they are streams of draws carried by the
      state and consumed in program order.
    - An [async] function that throws rejects its promise; both are
      [Thrown] in the outcome type. *)

From Stdlib Require Import ZArith List String Ascii Lia Bool.
From stdpp Require Import gmap strings.
Import ListNotations.

Open Scope string_scope.
Open Scope list_scope.
Open Scope Z_scope.

(* ===================================================================== *)
(** ** JavaScript primitives used by the sources *)
(* ===================================================================== *)

Module JS.

(** [ToInt32]: wrap an integer into the signed 32-bit range. *)
Definition toInt32 (z : Z) : Z := (z + 2^31) mod 2^32 - 2^31.

(** [a << n] on numbers: both the operand and the result are 32-bit. *)
Definition shl (a n : Z) : Z := toInt32 (Z.shiftl (toInt32 a) (n mod 32)).

(** [a & b] on numbers. *)
Definition band (a b : Z) : Z := Z.land (toInt32 a) (toInt32 b).

(** [s.charCodeAt(i)] for the code unit [c] found at index [i]. *)
Definition charCode (c : ascii) : Z := Z.of_N (N_of_ascii c).

Definition codeUnits (s : string) : list Z :=
  map charCode (list_ascii_of_string s).

(** The digit characters of [Number.prototype.toString(radix)]. *)
Definition digitChar (d : Z) : ascii :=
  if d <? 10 then ascii_of_N (Z.to_N (48 + d))
  else ascii_of_N (Z.to_N (87 + d)).

Fixpoint digitsAux (fuel : nat) (radix n : Z) (acc : string) : string :=
  match fuel with
  | O => acc
  | S fuel' =>
      let acc' := String (digitChar (n mod radix)) acc in
      if n / radix =? 0 then acc' else digitsAux fuel' radix (n / radix) acc'
  end.

(** Digits of a non-negative integer; [log2 n + 1] rounds always suffice
    for a radix of at least 2. *)
Definition digits (radix n : Z) : string :=
  digitsAux (S (Z.to_nat (Z.log2 n))) radix n "".

(** [n.toString(radix)] for an integer [n]: a minus sign for negative
    numbers, then the digits of the magnitude.  (In radix 10 this is the
    notation of integers below 10^21 in magnitude; the sources print
    nothing larger.) *)
Definition numberToString (radix n : Z) : string :=
  if n <? 0 then String "-" (digits radix (- n)) else digits radix n.

(** Template-literal interpolation and [toString()] of an integer. *)
Definition str (n : Z) : string := numberToString 10 n.

(** [Number.isSafeInteger(n)]: the integers that doubles hold exactly and
    print digit by digit. *)
Definition isSafeInteger (n : Z) : Prop := - 2 ^ 53 < n < 2 ^ 53.

Definition isHexDigit (c : ascii) : bool :=
  let k := charCode c in
  ((48 <=? k) && (k <=? 57)) || ((97 <=? k) && (k <=? 102)).

(** [s.startsWith(p)]. *)
Fixpoint startsWith (p s : string) : bool :=
  match p, s with
  | EmptyString, _ => true
  | String a p', String b s' => Ascii.eqb a b && startsWith p' s'
  | String _ _, EmptyString => false
  end.

(** [s.slice(n)] for [0 <= n]. *)
Fixpoint dropStr (n : nat) (s : string) : string :=
  match n, s with
  | O, _ => s
  | S n', String _ s' => dropStr n' s'
  | S _, EmptyString => EmptyString
  end.

(** The first occurrence of [search] in [s], as the text before it and
    the text after it ([s.indexOf(search)] and the two slices around the
    match); [None] when [search] does not occur. *)
Fixpoint cutAtFirst (search s : string) : option (string * string) :=
  if startsWith search s then Some ("", dropStr (String.length search) s)
  else match s with
       | EmptyString => None
       | String c s' =>
           match cutAtFirst search s' with
           | Some (before, after) => Some (String c before, after)
           | None => None
           end
       end.

Definition includes (s search : string) : bool :=
  match cutAtFirst search s with Some _ => true | None => false end.

(** [GetSubstitution] for a string pattern (no capture groups): in the
    replacement text, [$$] stands for a dollar sign, [$&] for the matched
    text, [$`] for the text before the match and [$'] for the text
    after it; every other character, a lone dollar sign included, stands
    for itself. *)
Fixpoint getSubstitution (matched before after replacement : string) : string :=
  match replacement with
  | EmptyString => EmptyString
  | String "$" (String "$" r) =>
      String "$" (getSubstitution matched before after r)
  | String "$" (String "&" r) =>
      matched +:+ getSubstitution matched before after r
  | String "$" (String "`" r) =>
      before +:+ getSubstitution matched before after r
  | String "$" (String "'" r) =>
      after +:+ getSubstitution matched before after r
  | String c r => String c (getSubstitution matched before after r)
  end.

(** [s.replace(search, replacement)] with a string pattern: only the
    first occurrence of [search] is replaced. *)
Definition replace (s search replacement : string) : string :=
  match cutAtFirst search s with
  | None => s
  | Some (before, after) =>
      before +:+ getSubstitution search before after replacement +:+ after
  end.

(** [s.replace(/c/g, d)] for a one-character pattern [c] and a
    replacement [d] without dollar signs. *)
Fixpoint replaceAllChar (c : ascii) (d : string) (s : string) : string :=
  match s with
  | EmptyString => EmptyString
  | String a s' =>
      if Ascii.eqb a c then d +:+ replaceAllChar c d s'
      else String a (replaceAllChar c d s')
  end.

(** [s.split(sep)] for a one-character separator: the pieces between
    the separators, empty pieces included; the empty string gives one
    empty piece. *)
Fixpoint split (sep : ascii) (s : string) : list string :=
  match s with
  | EmptyString => [EmptyString]
  | String c s' =>
      if Ascii.eqb c sep then EmptyString :: split sep s'
      else match split sep s' with
           | piece :: rest => String c piece :: rest
           | [] => [String c EmptyString]
           end
  end.

(** White space and line terminators among the code units 0..255: what
    [trim] strips. *)
Definition isWhiteSpace (c : ascii) : bool :=
  let k := charCode c in
  ((9 <=? k) && (k <=? 13)) || (k =? 32) || (k =? 160).

Fixpoint trimStart (s : string) : string :=
  match s with
  | EmptyString => EmptyString
  | String c s' => if isWhiteSpace c then trimStart s' else s
  end.

Fixpoint revStr (s acc : string) : string :=
  match s with
  | EmptyString => acc
  | String c s' => revStr s' (String c acc)
  end.

Definition trim (s : string) : string :=
  revStr (trimStart (revStr (trimStart s) "")) "".

(** Truthiness of a string: every string but the empty one. *)
Definition truthy (s : string) : bool :=
  match s with EmptyString => false | String _ _ => true end.

(** [Array.prototype.join] with a separator. *)
Fixpoint join (sep : string) (l : list string) : string :=
  match l with
  | [] => ""
  | [x] => x
  | x :: rest => x +:+ sep +:+ join sep rest
  end.

(** [table[key] || fallback] for a table of numbers written as an object
    literal, as a number: the own property when there is one and it is
    not zero.  Keys that name members inherited from [Object.prototype]
    ([objectPrototypeKeys]) are outside this reading: the object answers
    them with a function, not a number; [lookupOrAny] below covers every
    key. *)
Definition lookupOr (table : gmap string Z) (key : string) (fallback : Z) : Z :=
  match table !! key with
  | Some v => if v =? 0 then fallback else v
  | None => fallback
  end.

Definition objectPrototypeKeys : list string :=
  [ "constructor"; "hasOwnProperty"; "isPrototypeOf"; "propertyIsEnumerable";
    "toLocaleString"; "toString"; "valueOf"; "__proto__";
    "__defineGetter__"; "__defineSetter__";
    "__lookupGetter__"; "__lookupSetter__" ].

Definition plainKey (key : string) : Prop := ~ In key objectPrototypeKeys.

(** What a table of numbers written as an object literal can answer: a
    number, or the member of [Object.prototype] that it inherits under
    the key (a function; under [__proto__] the prototype itself). *)
Inductive Value : Type :=
| Num (n : Z)
| Member (key : string).

Definition inherited (key : string) : bool :=
  existsb (String.eqb key) objectPrototypeKeys.

(** [table[key] || fallback] for every key: the own property when there
    is one and it is not zero; else the inherited member when the key
    names one (functions and objects are truthy, so [||] keeps it); else
    the fallback. *)
Definition lookupOrAny (table : gmap string Z) (key : string) (fallback : Z) : Value :=
  match table !! key with
  | Some v => Num (if v =? 0 then fallback else v)
  | None => if inherited key then Member key else Num fallback
  end.

(** The result of [total + v] for a number [total]: a number when [v] is
    one.  When [v] is a function or an object, [+] turns both sides into
    strings and concatenates them: [Text total key] is the string made of
    the decimal digits of [total] followed by the text of the member of
    [Object.prototype] named [key]. *)
Inductive Sum : Type :=
| Total (n : Z)
| Text (total : Z) (key : string).

Definition plus (total : Z) (v : Value) : Sum :=
  match v with
  | Num n => Total (total + n)
  | Member key => Text total key
  end.

(** [ToUint32], the conversion behind [x >>> 0]. *)
Definition toUint32 (z : Z) : Z := z mod 2^32.

(** [s.lastIndexOf(c)] for a one-character [c]: the index of its last
    occurrence, or -1. *)
Fixpoint lastIndexOf (s : string) (c : ascii) : Z :=
  match s with
  | EmptyString => -1
  | String a s' =>
      let later := lastIndexOf s' c in
      if 0 <=? later then later + 1
      else if Ascii.eqb a c then 0 else -1
  end.

(** [s.slice(start)]: from [start] to the end; a negative [start] counts
    from the end, and a [start] at or beyond the length gives the empty
    string. *)
Definition slice (s : string) (start : Z) : string :=
  let len := Z.of_nat (String.length s) in
  if start <? 0 then dropStr (Z.to_nat (Z.max 0 (len + start))) s
  else if len <=? start then EmptyString
  else dropStr (Z.to_nat start) s.

(** [s.padStart(targetLength, pad)] for a one-character [pad]. *)
Fixpoint padding (n : nat) (pad : ascii) (s : string) : string :=
  match n with
  | O => s
  | S n' => String pad (padding n' pad s)
  end.

Definition padStart (targetLength : nat) (pad : ascii) (s : string) : string :=
  padding (targetLength - String.length s) pad s.

End JS.

(* ===================================================================== *)
(** ** Outcomes and the state-and-exception monad *)
(* ===================================================================== *)

(** A call either returns a value or throws [new Error(message)]. *)
Inductive outcome (A : Type) : Type :=
| Returned (a : A)
| Thrown (message : string).
Arguments Returned {A} a.
Arguments Thrown {A} message.

(* ===================================================================== *)
(** ** utils.js *)
(* ===================================================================== *)

Module Utils.

(** One round of the loop of [hashString]:
    [hash = ((hash << 5) - hash) + char; hash = hash & hash]. *)
Definition hashStep (hash char : Z) : Z :=
  let hash := (JS.shl hash 5 - hash) + char in
  JS.band hash hash.

(** [hashString] on the code units of its argument. *)
Definition hashCodes (codes : list Z) : Z :=
  match codes with
  | [] => 0
  | _ => Z.abs (fold_left hashStep codes 0)
  end.

Definition hashString (s : string) : Z := hashCodes (JS.codeUnits s).


(** One event of a run of [retry]: a call of [fn] with what it did, or a
    completed [wait]. *)
Inductive RetryEvent (A : Type) : Type :=
| Called (result : outcome A)
| Waited (delay : Z).
Arguments Called {A} result.
Arguments Waited {A} delay.

Section Retry.
Context {S A : Type}.

(** [fn] is a thunk with effects: from a state it returns or throws and
    leaves a new state. *)
Variable fn : S -> outcome A * S.

(** The [for] loop of [retry], with the events of the run in order.
    [remaining] counts the rounds for which the loop condition
    [attempt <= maxAttempts] still holds, so the loop is left normally
    exactly when it reaches zero; the function then returns [undefined],
    here [None]. *)
Fixpoint retryLoop (remaining : nat) (attempt maxAttempts baseDelay : Z) (s : S)
  : outcome (option A) * S * list (RetryEvent A) :=
  match remaining with
  | O => (Returned None, s, [])
  | Datatypes.S remaining' =>
      match fn s with
      | (Returned a, s') => (Returned (Some a), s', [Called (Returned a)])
      | (Thrown lastError, s') =>
          if attempt =? maxAttempts
          then (Thrown lastError, s', [Called (Thrown lastError)])
          else
            let delay := baseDelay * 2 ^ (attempt - 1) in
            let '(result, s'', events) :=
              retryLoop remaining' (attempt + 1) maxAttempts baseDelay s' in
            (result, s'', Called (Thrown lastError) :: Waited delay :: events)
      end
  end.

Definition retry (maxAttempts baseDelay : Z) (s : S)
  : outcome (option A) * S * list (RetryEvent A) :=
  retryLoop (Z.to_nat maxAttempts) 1 maxAttempts baseDelay s.

End Retry.

(** The calls and the waits of a trace, in order. *)
Definition calls {A} (trace : list (RetryEvent A)) : list (outcome A) :=
  flat_map (fun e => match e with Called r => [r] | Waited _ => [] end) trace.

Definition waits {A} (trace : list (RetryEvent A)) : list Z :=
  flat_map (fun e => match e with Called _ => [] | Waited d => [d] end) trace.

(** [formatDuration(seconds)] for a whole number of seconds.  [Math.floor]
    of a quotient of integers is the floor division; [%] is the remainder
    that takes the sign of the dividend. *)
Definition formatDuration (seconds : Z) : string :=
  let hours := seconds / 3600 in
  let minutes := Z.rem seconds 3600 / 60 in
  let secs := Z.rem seconds 60 in
  if 0 <? hours then
    JS.str hours +:+ "h " +:+ JS.str minutes +:+ "m " +:+ JS.str secs +:+ "s"
  else if 0 <? minutes then
    JS.str minutes +:+ "m " +:+ JS.str secs +:+ "s"
  else
    JS.str secs +:+ "s".

(** [filename.slice((filename.lastIndexOf('.') - 1 >>> 0) + 2)]. *)
Definition getFileExtension (filename : string) : string :=
  JS.slice filename (JS.toUint32 (JS.lastIndexOf filename "." - 1) + 2).

(** [map[m]] for the five characters that the pattern of [escapeHtml]
    matches (ampersand, less-than, greater-than, double quote, single
    quote), and the character itself for any other. *)
Definition escapeChar (c : ascii) : string :=
  if Ascii.eqb c "&" then "&amp;"
  else if Ascii.eqb c "<" then "&lt;"
  else if Ascii.eqb c ">" then "&gt;"
  else if Ascii.eqb c "034" then "&quot;"
  else if Ascii.eqb c "'" then "&#039;"
  else String c EmptyString.

(** [escapeHtml(text)]: a global [replace] that rewrites every match of
    the five-character class by its entity. *)
Fixpoint escapeHtml (text : string) : string :=
  match text with
  | EmptyString => EmptyString
  | String c rest => escapeChar c +:+ escapeHtml rest
  end.

(** [Array.from(bytes, byte => byte.toString(16).padStart(2, '0')).join('')]. *)
Definition byteToHex (byte : Z) : string :=
  JS.padStart 2 "0" (JS.numberToString 16 byte).

Definition bytesToHex (bytes : list Z) : string :=
  JS.join "" (map byteToHex bytes).

(** [generateUUID]: every [x] and [y] of the template is replaced, from
    left to right, by one hexadecimal digit.  [draws] gives the successive
    values of [Math.random() * 16 | 0], each between 0 and 15; an [x] takes
    the draw, a [y] takes [r & 0x3 | 0x8]. *)
Definition uuidTemplate : string := "xxxxxxxx-xxxx-4xxx-yxxx-xxxxxxxxxxxx".

Fixpoint fillTemplate (template : string) (draws : nat -> Z) : string :=
  match template with
  | EmptyString => EmptyString
  | String c rest =>
      if Ascii.eqb c "x" || Ascii.eqb c "y" then
        let r := draws O in
        let v := if Ascii.eqb c "x" then r else Z.lor (Z.land r 3) 8 in
        JS.numberToString 16 v +:+ fillTemplate rest (fun n => draws (S n))
      else String c (fillTemplate rest draws)
  end.

Definition generateUUIDFrom (draws : nat -> Z) : string :=
  fillTemplate uuidTemplate draws.

(** [[shuffled[i], shuffled[j]] = [shuffled[j], shuffled[i]]]: both
    elements are read, then position [i] and position [j] are written.
    Both indices are inside the array in every run of [shuffleArray];
    otherwise the list is left as it is. *)
Definition swap {A} (i j : nat) (shuffled : list A) : list A :=
  match shuffled !! i, shuffled !! j with
  | Some a, Some b => <[j := a]> (<[i := b]> shuffled)
  | _, _ => shuffled
  end.

(** The loop of [shuffleArray], from [i] down to 1.  [draws] gives the
    successive values of [Math.floor(Math.random() * (i + 1))]. *)
Fixpoint shuffleLoop {A} (i : nat) (draws : nat -> nat) (shuffled : list A) : list A :=
  match i with
  | O => shuffled
  | S i' => shuffleLoop i' (fun n => draws (S n)) (swap i (draws O) shuffled)
  end.

Definition shuffleArray {A} (array : list A) (draws : nat -> nat) : list A :=
  shuffleLoop (length array - 1) draws array.

(** [array[Math.floor(Math.random() * array.length)]]; [None] is
    [undefined]. *)
Definition getRandomElement {A} (array : list A) (draw : nat) : option A :=
  array !! draw.

(** [/^[a-zA-Z0-9_]{3,16}$/.test(username)]. *)
Definition isWordChar (c : ascii) : bool :=
  let k := JS.charCode c in
  ((97 <=? k) && (k <=? 122)) || ((65 <=? k) && (k <=? 90))
  || ((48 <=? k) && (k <=? 57)) || (k =? 95).

Definition isValidUsername (username : string) : bool :=
  forallb isWordChar (list_ascii_of_string username)
  && (3 <=? String.length username)%nat
  && (String.length username <=? 16)%nat.

End Utils.

(* ===================================================================== *)
(** ** The objects of the program *)
(* ===================================================================== *)

(** *** versions.js: catalog entries and version details *)

Record Version := {
  version_id : string;
  version_type : string;
  version_url : string;
  version_time : string;
  version_releaseTime : string;
  version_sha1 : string;
  version_complianceLevel : Z
}.

Record Artifact := {
  artifact_path : string;
  artifact_sha1 : string;
  artifact_size : Z;
  artifact_url : string
}.

(** [library.downloads] and [library.downloads.artifact] may be missing in
    a version file; the consumers test for both. *)
Record LibraryDownloads := { downloads_artifact : option Artifact }.

Record Library := {
  library_name : string;
  library_downloads : option LibraryDownloads
}.

Record ClientDownload := {
  client_sha1 : string;
  client_size : Z;
  client_url : string
}.

Record AssetIndex := {
  assetIndex_id : string;
  assetIndex_sha1 : string;
  assetIndex_size : Z;
  assetIndex_totalSize : Z;
  assetIndex_url : string
}.

Record JavaVersion := {
  javaVersion_component : string;
  javaVersion_majorVersion : Z
}.

(** An entry of [arguments.game] in the new format: a string, or a rule
    object that the launcher skips. *)
Inductive GameArgument :=
| ArgString (arg : string)
| ArgRule.

Record VersionDetails := {
  details_id : string;
  details_type : string;
  details_mainClass : string;
  details_minecraftArguments : string;
  details_arguments_game : option (list GameArgument);
  details_libraries : list Library;
  details_client : ClientDownload;
  details_assetIndex : AssetIndex;
  details_javaVersion : JavaVersion
}.

(** *** auth.js *)

Record User := {
  user_username : string;
  user_uuid : string;
  user_accessToken : string
}.

Record AuthManagerState := {
  currentUser : option User;
  authType : option string
}.

(** *** launcher.js *)

(** [gameSettings] with integers in its three number fields, as the
    constructor sets them and as [parseInt] reads them from a settings
    field that holds digits.  What [parseInt] makes of an emptied field,
    [NaN], and what a reload then finds in its place, [null], are not
    values of this record: the statements about settings are about
    integer settings. *)
Record GameSettings := {
  ramAllocation : Z;
  resolutionWidth : Z;
  resolutionHeight : Z;
  jvmArgs : string;
  closeLauncherAfterStart : bool
}.

Record GameProcess := {
  process_pid : Z;
  process_startTime : Z;
  process_version : string;
  process_user : string
}.

Record LaunchData := {
  launch_versionId : string;
  launch_modLoader : option string;
  launch_serverAddress : option string;
  launch_timestamp : Z;
  launch_username : string
}.

Record LaunchParameters := {
  params_mainClass : string;
  params_classpath : string;
  params_jvmArgs : list string;
  params_gameArgs : list string;
  params_workingDirectory : string;
  params_versionId : string;
  params_user : User;
  params_modLoader : option string
}.

Record GameLauncherState := {
  gameProcess : option GameProcess;
  launchHistory : list LaunchData;
  gameSettings : GameSettings
}.

(** *** downloader.js *)

Inductive DownloadStatus :=
| pending | downloading | completed | failed | cancelled | paused.

(** The download object.  Its [progress] and [speed] are floating-point
    figures derived from [downloaded], [size] and the clock; they are read
    by the progress display only and are left out. *)
Record Download := {
  download_id : string;
  download_url : string;
  download_filename : string;
  download_startTime : Z;
  download_size : Z;
  download_downloaded : Z;
  download_status : DownloadStatus;
  download_error : option string
}.

Record DownloadStats := {
  totalDownloaded : Z;
  totalFiles : Z
}.

Record HistoryEntry := {
  history_filename : string;
  history_size : Z;
  history_date : Z;
  history_status : DownloadStatus
}.

Record DownloadManagerState := {
  activeDownloads : gmap string Download;
  downloadStats : DownloadStats
}.

Record VersionManagerState := {
  versions : list Version;
  installedVersions : gset string
}.

(** *** The browser: storage, notifications, chance and time *)

(** [localStorage], one field per key the program uses; [None] is a key
    that was never written.  Writes are taken to succeed:
    [Utils.setLocalStorage] swallows a refused write and no caller reads
    its result. *)
Record LocalStorage := {
  craftlauncher_launch_history : option (list LaunchData);
  craftlauncher_download_history : option (list HistoryEntry);
  craftlauncher_installed_versions : option (list string);
  craftlauncher_download_stats : option DownloadStats
}.

(** What [Utils.showNotification(message, type)] put on the screen. *)
Record Notification := {
  notification_message : string;
  notification_type : string
}.

Definition Stream (A : Type) : Type := nat -> A.
Definition shead {A} (s : Stream A) : A := s O.
Definition stail {A} (s : Stream A) : Stream A := fun n => s (S n).

(** The course of one simulated transfer ([simulateDownload]): the size it
    draws, whether the failure timer armed with probability 5% fires
    before the last chunk arrives, and the bytes received by then. *)
Record Transfer := {
  transfer_size : Z;
  transfer_fails : bool;
  transfer_received : Z
}.

(** The course of one simulated launch ([simulateGameLaunch]): when the
    failure timer is armed, the number of progress steps shown before it
    fires (it fires within 4000 ms, before the step that starts the
    process); and the draw [Math.floor(Math.random() * 10000)] of the
    process id. *)
Record Launch := {
  launch_failsAfter : option nat;
  launch_pidDraw : Z
}.

Record Chance := {
  librarySizeDraws : Stream Z;   (* Math.floor(Math.random() * 1000000) *)
  uuids : Stream string;         (* Utils.generateUUID() *)
  transfers : Stream Transfer;
  launches : Stream Launch;
  clock : Stream Z               (* Date.now() *)
}.

(** [window] and what hangs from it.  [downloadLog] is a ghost field: it
    keeps every download object in the state in which [downloadFile]
    left it. *)
Record World := {
  authManager : AuthManagerState;
  versionManager : VersionManagerState;
  downloadManager : DownloadManagerState;
  gameLauncher : GameLauncherState;
  localStorage : LocalStorage;
  platform : string;             (* navigator.platform *)
  bodyOpacity : string;          (* document.body.style.opacity *)
  notifications : list Notification;
  chance : Chance;
  downloadLog : list Download
}.

(** Field updates. *)
Definition with_versionManager (f : VersionManagerState -> VersionManagerState) (w : World) : World :=
  {| authManager := authManager w; versionManager := f (versionManager w);
     downloadManager := downloadManager w; gameLauncher := gameLauncher w;
     localStorage := localStorage w; platform := platform w;
     bodyOpacity := bodyOpacity w; notifications := notifications w;
     chance := chance w; downloadLog := downloadLog w |}.

Definition with_downloadManager (f : DownloadManagerState -> DownloadManagerState) (w : World) : World :=
  {| authManager := authManager w; versionManager := versionManager w;
     downloadManager := f (downloadManager w); gameLauncher := gameLauncher w;
     localStorage := localStorage w; platform := platform w;
     bodyOpacity := bodyOpacity w; notifications := notifications w;
     chance := chance w; downloadLog := downloadLog w |}.

Definition with_gameLauncher (f : GameLauncherState -> GameLauncherState) (w : World) : World :=
  {| authManager := authManager w; versionManager := versionManager w;
     downloadManager := downloadManager w; gameLauncher := f (gameLauncher w);
     localStorage := localStorage w; platform := platform w;
     bodyOpacity := bodyOpacity w; notifications := notifications w;
     chance := chance w; downloadLog := downloadLog w |}.

Definition with_localStorage (f : LocalStorage -> LocalStorage) (w : World) : World :=
  {| authManager := authManager w; versionManager := versionManager w;
     downloadManager := downloadManager w; gameLauncher := gameLauncher w;
     localStorage := f (localStorage w); platform := platform w;
     bodyOpacity := bodyOpacity w; notifications := notifications w;
     chance := chance w; downloadLog := downloadLog w |}.

Definition with_bodyOpacity (o : string) (w : World) : World :=
  {| authManager := authManager w; versionManager := versionManager w;
     downloadManager := downloadManager w; gameLauncher := gameLauncher w;
     localStorage := localStorage w; platform := platform w;
     bodyOpacity := o; notifications := notifications w;
     chance := chance w; downloadLog := downloadLog w |}.

Definition with_notifications (f : list Notification -> list Notification) (w : World) : World :=
  {| authManager := authManager w; versionManager := versionManager w;
     downloadManager := downloadManager w; gameLauncher := gameLauncher w;
     localStorage := localStorage w; platform := platform w;
     bodyOpacity := bodyOpacity w; notifications := f (notifications w);
     chance := chance w; downloadLog := downloadLog w |}.

Definition with_chance (f : Chance -> Chance) (w : World) : World :=
  {| authManager := authManager w; versionManager := versionManager w;
     downloadManager := downloadManager w; gameLauncher := gameLauncher w;
     localStorage := localStorage w; platform := platform w;
     bodyOpacity := bodyOpacity w; notifications := notifications w;
     chance := f (chance w); downloadLog := downloadLog w |}.

Definition with_downloadLog (f : list Download -> list Download) (w : World) : World :=
  {| authManager := authManager w; versionManager := versionManager w;
     downloadManager := downloadManager w; gameLauncher := gameLauncher w;
     localStorage := localStorage w; platform := platform w;
     bodyOpacity := bodyOpacity w; notifications := notifications w;
     chance := chance w; downloadLog := f (downloadLog w) |}.

(** *** The monad of the program: state and exceptions *)

Definition M (A : Type) : Type := World -> outcome A * World.

Definition ret {A} (a : A) : M A := fun w => (Returned a, w).

Definition throw {A} (message : string) : M A := fun w => (Thrown message, w).

Definition bind {A B} (m : M A) (k : A -> M B) : M B :=
  fun w => match m w with
           | (Returned a, w') => k a w'
           | (Thrown e, w') => (Thrown e, w')
           end.

(** [try { body } catch (error) { handler(error.message) }]. *)
Definition tryCatch {A} (body : M A) (handler : string -> M A) : M A :=
  fun w => match body w with
           | (Returned a, w') => (Returned a, w')
           | (Thrown e, w') => handler e w'
           end.

(** [try { body } finally { cleanup }] for a cleanup that does not throw. *)
Definition tryFinally {A} (body : M A) (cleanup : World -> World) : M A :=
  fun w => let (r, w') := body w in (r, cleanup w').

Definition gets {A} (f : World -> A) : M A := fun w => (Returned (f w), w).

Definition modify (f : World -> World) : M unit := fun w => (Returned tt, f w).

Declare Scope monad_scope.
Delimit Scope monad_scope with M.
Notation "x <- m ;; k" := (bind m (fun x => k))
  (at level 100, m at next level, right associativity) : monad_scope.
Notation "m ;;; k" := (bind m (fun _ => k))
  (at level 100, right associativity) : monad_scope.
Open Scope monad_scope.

(** [for (const x of items) { body(x) }]. *)
Fixpoint forEachM {A} (body : A -> M unit) (items : list A) : M unit :=
  match items with
  | [] => ret tt
  | x :: rest => body x ;;; forEachM body rest
  end.

(** Reading the ambient streams. *)
Definition nextLibrarySizeDraw : M Z :=
  fun w => (Returned (shead (librarySizeDraws (chance w))),
            with_chance (fun c => {| librarySizeDraws := stail (librarySizeDraws c);
                                     uuids := uuids c; transfers := transfers c;
                                     launches := launches c; clock := clock c |}) w).

Definition nextTransfer : M Transfer :=
  fun w => (Returned (shead (transfers (chance w))),
            with_chance (fun c => {| librarySizeDraws := librarySizeDraws c;
                                     uuids := uuids c; transfers := stail (transfers c);
                                     launches := launches c; clock := clock c |}) w).

Definition nextLaunch : M Launch :=
  fun w => (Returned (shead (launches (chance w))),
            with_chance (fun c => {| librarySizeDraws := librarySizeDraws c;
                                     uuids := uuids c; transfers := transfers c;
                                     launches := stail (launches c); clock := clock c |}) w).

(** [Utils.generateUUID()]. *)
Definition generateUUID : M string :=
  fun w => (Returned (shead (uuids (chance w))),
            with_chance (fun c => {| librarySizeDraws := librarySizeDraws c;
                                     uuids := stail (uuids c); transfers := transfers c;
                                     launches := launches c; clock := clock c |}) w).

(** [Date.now()]. *)
Definition dateNow : M Z :=
  fun w => (Returned (shead (clock (chance w))),
            with_chance (fun c => {| librarySizeDraws := librarySizeDraws c;
                                     uuids := uuids c; transfers := transfers c;
                                     launches := launches c; clock := stail (clock c) |}) w).

(** [Utils.showNotification(message, type)]. *)
Definition showNotification (message type : string) : M unit :=
  modify (with_notifications
            (fun l => l ++ [{| notification_message := message;
                               notification_type := type |}])).

(* ===================================================================== *)
(** ** versions.js *)
(* ===================================================================== *)

Module VersionManager.

Definition mockVersion (id type time releaseTime sha1 : string) (level : Z) : Version :=
  {| version_id := id; version_type := type;
     version_url := "https://piston-meta.mojang.com/v1/packages/" +:+ id +:+ ".json";
     version_time := time; version_releaseTime := releaseTime;
     version_sha1 := sha1; version_complianceLevel := level |}.

Definition getMockVersions : list Version :=
  [ mockVersion "1.21.1" "release" "2024-08-08T11:22:58+00:00" "2024-08-08T11:10:48+00:00" "abc123" 1;
    mockVersion "1.21" "release" "2024-06-13T08:24:05+00:00" "2024-06-13T08:24:05+00:00" "def456" 1;
    mockVersion "24w21b" "snapshot" "2024-05-24T12:15:32+00:00" "2024-05-24T12:15:32+00:00" "ghi789" 1;
    mockVersion "1.20.6" "release" "2024-04-29T14:11:07+00:00" "2024-04-29T14:11:07+00:00" "jkl012" 1;
    mockVersion "1.20.4" "release" "2023-12-07T12:56:18+00:00" "2023-12-07T12:56:18+00:00" "mno345" 1;
    mockVersion "1.19.4" "release" "2023-03-14T12:56:18+00:00" "2023-03-14T12:56:18+00:00" "pqr678" 1;
    mockVersion "1.18.2" "release" "2022-02-28T10:21:28+00:00" "2022-02-28T10:21:28+00:00" "stu901" 1;
    mockVersion "1.16.5" "release" "2021-01-15T16:05:32+00:00" "2021-01-15T16:05:32+00:00" "vwx234" 0;
    mockVersion "1.12.2" "release" "2017-09-18T08:39:46+00:00" "2017-09-18T08:39:46+00:00" "yz0567" 0;
    mockVersion "1.8.9" "release" "2015-12-09T09:24:23+00:00" "2015-12-09T09:24:23+00:00" "abc890" 0 ].

(** [this.versions.find(version => version.id === id)]. *)
Definition getVersionById (vs : list Version) (id : string) : option Version :=
  find (fun version => String.eqb (version_id version) id) vs.

Definition isVersionInstalled (versionId : string) : M bool :=
  gets (fun w => bool_decide (versionId ∈ installedVersions (versionManager w))).

(** [this.installedVersions.add(versionId); this.saveInstalledVersions()]. *)
Definition markVersionInstalled (versionId : string) : M unit :=
  modify (with_versionManager
            (fun vm => {| versions := versions vm;
                          installedVersions := {[ versionId ]} ∪ installedVersions vm |})) ;;;
  modify (fun w =>
    with_localStorage
      (fun ls => {| craftlauncher_launch_history := craftlauncher_launch_history ls;
                    craftlauncher_download_history := craftlauncher_download_history ls;
                    craftlauncher_installed_versions :=
                      Some (elements (installedVersions (versionManager w)));
                    craftlauncher_download_stats := craftlauncher_download_stats ls |}) w).

Definition baseLibraries : list string :=
  [ "com.mojang:logging:1.0.0";
    "com.mojang:blocklist:1.0.10";
    "com.mojang:datafixerupper:6.0.8";
    "com.google.guava:guava:32.1.2-jre";
    "commons-io:commons-io:2.11.0";
    "commons-codec:commons-codec:1.15";
    "net.java.dev.jna:jna:5.12.1";
    "net.java.dev.jna:jna-platform:5.12.1";
    "org.lwjgl:lwjgl:3.3.1";
    "org.lwjgl:lwjgl-jemalloc:3.3.1";
    "org.lwjgl:lwjgl-openal:3.3.1";
    "org.lwjgl:lwjgl-opengl:3.3.1";
    "org.lwjgl:lwjgl-glfw:3.3.1";
    "org.lwjgl:lwjgl-stb:3.3.1" ].

(** The object built for one library; [draw] is the value of
    [Math.floor(Math.random() * 1000000)] at this library. *)
Definition mockLibrary (versionId lib : string) (draw : Z) : Library :=
  {| library_name := lib;
     library_downloads := Some {| downloads_artifact := Some
       {| artifact_path := JS.replaceAllChar ":" "/" lib +:+ ".jar";
          artifact_sha1 := JS.numberToString 16 (Utils.hashString (lib +:+ versionId));
          artifact_size := draw + 50000;
          artifact_url := "https://libraries.minecraft.net/"
                          +:+ JS.replaceAllChar ":" "/" lib +:+ ".jar" |} |} |}.

(** [libs.map(lib => ...)]: one draw per library, in order. *)
Fixpoint mapLibraries (versionId : string) (libs : list string) : M (list Library) :=
  match libs with
  | [] => ret []
  | lib :: rest =>
      draw <- nextLibrarySizeDraw ;;
      tl <- mapLibraries versionId rest ;;
      ret (mockLibrary versionId lib draw :: tl)
  end.

Definition getMockLibraries (versionId : string) : M (list Library) :=
  mapLibraries versionId baseLibraries.

Definition versionSizes : gmap string Z :=
  list_to_map
    [ ("1.21.1", 25678901); ("1.21", 25456789); ("1.20.6", 24123456);
      ("1.20.4", 23987654); ("1.19.4", 22345678); ("1.18.2", 21098765);
      ("1.16.5", 18765432); ("1.12.2", 15432109); ("1.8.9", 12345678) ].

Definition getVersionSize (versionId : string) : Z :=
  JS.lookupOr versionSizes versionId 20000000.

Definition getAssetIndex (versionId : string) : string :=
  if JS.startsWith "1.21" versionId then "8"
  else if JS.startsWith "1.20" versionId then "7"
  else if JS.startsWith "1.19" versionId then "6"
  else if JS.startsWith "1.18" versionId then "5"
  else if JS.startsWith "1.16" versionId then "4"
  else if JS.startsWith "1.12" versionId then "1.12"
  else if JS.startsWith "1.8" versionId then "1.8"
  else "legacy".

Definition getJavaVersion (versionId : string) : string :=
  if JS.startsWith "1.21" versionId || JS.startsWith "1.20" versionId
  then "java-runtime-delta"
  else if JS.startsWith "1.19" versionId || JS.startsWith "1.18" versionId
  then "java-runtime-beta"
  else if JS.startsWith "1.17" versionId || JS.startsWith "1.16" versionId
  then "java-runtime-alpha"
  else "jre-legacy".

Definition getJavaMajorVersion (versionId : string) : Z :=
  if JS.startsWith "1.21" versionId || JS.startsWith "1.20" versionId then 21
  else if JS.startsWith "1.19" versionId || JS.startsWith "1.18" versionId
          || JS.startsWith "1.17" versionId then 17
  else if JS.startsWith "1.16" versionId then 8
  else 8.

Definition minecraftArguments : string :=
  "--username ${auth_player_name} --version ${version_name} --gameDir ${game_directory} --assetsDir ${assets_root} --assetIndex ${assets_index_name} --uuid ${auth_uuid} --accessToken ${auth_access_token} --userType ${user_type} --versionType ${version_type}".

(** The object literal that [getVersionDetails] returns, given the
    catalog entry and the libraries generated for it. *)
Definition versionDetailsOf (version : Version) (libraries : list Library)
  : VersionDetails :=
  {| details_id := version_id version;
     details_type := version_type version;
     details_mainClass := "net.minecraft.client.main.Main";
     details_minecraftArguments := minecraftArguments;
     details_arguments_game := None;
     details_libraries := libraries;
     details_client :=
       {| client_sha1 := version_sha1 version;
          client_size := getVersionSize (version_id version);
          client_url := "https://piston-data.mojang.com/v1/objects/"
                        +:+ version_sha1 version +:+ "/client.jar" |};
     details_assetIndex :=
       {| assetIndex_id := getAssetIndex (version_id version);
          assetIndex_sha1 := "asset_" +:+ version_sha1 version;
          assetIndex_size := 123456;
          assetIndex_totalSize := 234567890;
          assetIndex_url := "https://piston-meta.mojang.com/v1/packages/assets/"
                            +:+ getAssetIndex (version_id version) +:+ ".json" |};
     details_javaVersion :=
       {| javaVersion_component := getJavaVersion (version_id version);
          javaVersion_majorVersion := getJavaMajorVersion (version_id version) |} |}.

Definition getVersionDetails (versionId : string) : M VersionDetails :=
  vs <- gets (fun w => versions (versionManager w)) ;;
  match getVersionById vs versionId with
  | None => throw ("Version " +:+ versionId +:+ " not found")
  | Some version =>
      libraries <- getMockLibraries (version_id version) ;;
      ret (versionDetailsOf version libraries)
  end.

Definition modLoaderSizes : gmap string Z :=
  list_to_map [ ("forge", 15000000); ("fabric", 5000000); ("optifine", 8000000) ].

(** [getModLoaderSize(modLoader)] for every name: a number, or for a
    name such as [constructor] the function that [sizes] inherits. *)
Definition getModLoaderSizeValue (modLoader : string) : JS.Value :=
  JS.lookupOrAny modLoaderSizes modLoader 0.

(** [getModLoaderSize(modLoader)] as a number: the value above for every
    name but those of [JS.objectPrototypeKeys]. *)
Definition getModLoaderSize (modLoader : string) : Z :=
  JS.lookupOr modLoaderSizes modLoader 0.

(** The size a library adds to a total: the consumers add
    [lib.downloads.artifact.size] under the guard
    [lib.downloads && lib.downloads.artifact]. *)
Definition addLibrarySize (totalSize : Z) (lib : Library) : Z :=
  match library_downloads lib with
  | Some d => match downloads_artifact d with
              | Some a => totalSize + artifact_size a
              | None => totalSize
              end
  | None => totalSize
  end.

(** [if (modLoader)]: [null] and the empty string are falsy. *)
Definition givenLoader (modLoader : option string) : option string :=
  match modLoader with
  | Some m => if JS.truthy m then Some m else None
  | None => None
  end.

(** [calculateDownloadSize(versionId, modLoader)].  The last addition,
    [totalSize += this.getModLoaderSize(modLoader)], is the one whose
    right side need not be a number. *)
Definition calculateDownloadSize (versionId : string) (modLoader : option string)
  : M JS.Sum :=
  versionDetails <- getVersionDetails versionId ;;
  let totalSize := client_size (details_client versionDetails) in
  let totalSize := fold_left addLibrarySize (details_libraries versionDetails) totalSize in
  let totalSize := totalSize + assetIndex_totalSize (details_assetIndex versionDetails) in
  let totalSize := match givenLoader modLoader with
                   | Some m => JS.plus totalSize (getModLoaderSizeValue m)
                   | None => JS.Total totalSize
                   end in
  ret totalSize.

(** *** Observations on version details, for the statements below *)

(** The artifacts of the libraries that have one, in order. *)
Definition libraryArtifacts (libraries : list Library) : list Artifact :=
  flat_map (fun lib => match library_downloads lib with
                       | Some d => match downloads_artifact d with
                                   | Some a => [a]
                                   | None => []
                                   end
                       | None => []
                       end) libraries.

Definition librarySizes (libraries : list Library) : list Z :=
  map artifact_size (libraryArtifacts libraries).


Definition sum (l : list Z) : Z := fold_right Z.add 0 l.

(** The libraries built from the draws of a stream, one draw each. *)
Fixpoint librariesFrom (versionId : string) (libs : list string) (draws : Stream Z)
  : list Library :=
  match libs with
  | [] => []
  | lib :: rest =>
      mockLibrary versionId lib (shead draws) :: librariesFrom versionId rest (stail draws)
  end.

(** The state after [n] draws of library sizes. *)
Fixpoint afterLibraryDraws (n : nat) (w : World) : World :=
  match n with
  | O => w
  | S n' => afterLibraryDraws n' (snd (nextLibrarySizeDraw w))
  end.



(** *** The rest of the version manager *)

(** [Utils.setLocalStorage('craftlauncher_installed_versions',
    Array.from(this.installedVersions))]. *)
Definition saveInstalledVersions : M unit :=
  modify (fun w =>
    with_localStorage
      (fun ls => {| craftlauncher_launch_history := craftlauncher_launch_history ls;
                    craftlauncher_download_history := craftlauncher_download_history ls;
                    craftlauncher_installed_versions :=
                      Some (elements (installedVersions (versionManager w)));
                    craftlauncher_download_stats := craftlauncher_download_stats ls |}) w).

(** [this.installedVersions.delete(versionId); this.saveInstalledVersions()]. *)
Definition markVersionUninstalled (versionId : string) : M unit :=
  modify (with_versionManager
            (fun vm => {| versions := versions vm;
                          installedVersions := installedVersions vm ∖ {[ versionId ]} |})) ;;;
  saveInstalledVersions.

(** [loadInstalledVersions]: the stored array, or [[]], made into a set. *)
Definition loadInstalledVersions : M unit :=
  modify (fun w =>
    with_versionManager
      (fun vm => {| versions := versions vm;
                    installedVersions :=
                      list_to_set
                        match craftlauncher_installed_versions (localStorage w) with
                        | Some installed => installed
                        | None => []
                        end |}) w).

Definition getAllVersions : M (list Version) :=
  gets (fun w => versions (versionManager w)).

Definition getVersionsByType (type : string) : M (list Version) :=
  gets (fun w =>
          if String.eqb type "all" then versions (versionManager w)
          else List.filter (fun version => String.eqb (version_type version) type)
                           (versions (versionManager w))).

(** [filteredVersions.length > 0 ? filteredVersions[0] : null]. *)
Definition getLatestVersion (type : string) : M (option Version) :=
  filteredVersions <- getVersionsByType type ;;
  ret (head filteredVersions).

Record VersionStats := {
  stats_total : nat;
  stats_installed : nat;
  stats_releases : nat;
  stats_snapshots : nat;
  stats_betas : nat;
  stats_alphas : nat
}.

Definition countType (type : string) (vs : list Version) : nat :=
  length (List.filter (fun v => String.eqb (version_type v) type) vs).

Definition getVersionStats : M VersionStats :=
  gets (fun w =>
          let vs := versions (versionManager w) in
          {| stats_total := length vs;
             stats_installed := size (installedVersions (versionManager w));
             stats_releases := countType "release" vs;
             stats_snapshots := countType "snapshot" vs;
             stats_betas := countType "beta" vs;
             stats_alphas := countType "alpha" vs |}).

Record ModLoader := {
  loader_name : string;
  loader_id : string;
  loader_versions : list string
}.

(** [table[versionId] || []] for a table of arrays (an array is truthy
    even when empty); as for [JS.lookupOr], keys inherited from
    [Object.prototype] are outside the model. *)
Definition lookupVersions (table : gmap string (list string)) (versionId : string)
  : list string :=
  match table !! versionId with
  | Some vs => vs
  | None => []
  end.

Definition forgeVersions : gmap string (list string) :=
  list_to_map
    [ ("1.21.1", ["51.0.33"; "51.0.32"; "51.0.31"]);
      ("1.21", ["51.0.22"; "51.0.21"]);
      ("1.20.6", ["50.1.0"]);
      ("1.20.4", ["49.1.0"; "49.0.50"]);
      ("1.19.4", ["45.2.0"; "45.1.0"]);
      ("1.18.2", ["40.2.0"; "40.1.0"]);
      ("1.16.5", ["36.2.39"; "36.2.35"]);
      ("1.12.2", ["14.23.5.2860"; "14.23.5.2859"]);
      ("1.8.9", ["11.15.1.2318"]) ].

Definition getForgeVersions (versionId : string) : list string :=
  lookupVersions forgeVersions versionId.

Definition getFabricVersions (versionId : string) : list string :=
  ["0.15.11"; "0.15.10"; "0.15.9"].

Definition optifineVersions : gmap string (list string) :=
  list_to_map
    [ ("1.21.1", ["HD_U_I8"; "HD_U_I7"]);
      ("1.21", ["HD_U_I6"]);
      ("1.20.6", ["HD_U_I5"]);
      ("1.20.4", ["HD_U_I4"; "HD_U_I3"]);
      ("1.19.4", ["HD_U_I1"]);
      ("1.18.2", ["HD_U_H9"; "HD_U_H8"]);
      ("1.16.5", ["HD_U_G8"; "HD_U_G7"]);
      ("1.12.2", ["HD_U_F5"]);
      ("1.8.9", ["HD_U_M5"]) ].

Definition getOptiFineVersions (versionId : string) : list string :=
  lookupVersions optifineVersions versionId.

Definition getModLoaders (versionId : string) : list ModLoader :=
  (if negb (JS.includes versionId "w") && negb (JS.includes versionId "pre")
      && negb (JS.includes versionId "rc")
   then [ {| loader_name := "Forge"; loader_id := "forge";
             loader_versions := getForgeVersions versionId |} ]
   else [])
  ++ [ {| loader_name := "Fabric"; loader_id := "fabric";
          loader_versions := getFabricVersions versionId |} ]
  ++ (if negb (JS.includes versionId "w") && negb (JS.includes versionId "pre")
      then [ {| loader_name := "OptiFine"; loader_id := "optifine";
                loader_versions := getOptiFineVersions versionId |} ]
      else []).

End VersionManager.

(** [history.unshift(entry); if (history.length > 50) history.splice(50)]:
    the statement pair that both [addToLaunchHistory] (launcher.js) and
    [addToHistory] (downloader.js) run on their list. *)
Definition unshiftBounded {A} (entry : A) (history : list A) : list A :=
  let history := entry :: history in
  if 50 <? Z.of_nat (length history) then take 50 history else history.

(* ===================================================================== *)
(** ** downloader.js *)
(* ===================================================================== *)

Module DownloadManager.

Definition setActiveDownload (download : Download) : M unit :=
  modify (with_downloadManager
            (fun dm => {| activeDownloads :=
                            <[download_id download := download]> (activeDownloads dm);
                          downloadStats := downloadStats dm |})).

Definition deleteActiveDownload (downloadId : string) (w : World) : World :=
  with_downloadManager
    (fun dm => {| activeDownloads := delete downloadId (activeDownloads dm);
                  downloadStats := downloadStats dm |}) w.

(** [this.downloadStats.totalFiles++;
     this.downloadStats.totalDownloaded += download.size;
     this.saveDownloadStats()]. *)
Definition countDownload (download : Download) : M unit :=
  modify (with_downloadManager
            (fun dm => {| activeDownloads := activeDownloads dm;
                          downloadStats :=
                            {| totalDownloaded := totalDownloaded (downloadStats dm)
                                                  + download_size download;
                               totalFiles := totalFiles (downloadStats dm) + 1 |} |})) ;;;
  modify (fun w =>
    with_localStorage
      (fun ls => {| craftlauncher_launch_history := craftlauncher_launch_history ls;
                    craftlauncher_download_history := craftlauncher_download_history ls;
                    craftlauncher_installed_versions := craftlauncher_installed_versions ls;
                    craftlauncher_download_stats := Some (downloadStats (downloadManager w)) |}) w).

(** [simulateDownload] works on the download object it is given: it
    draws the size, sets the status to [downloading] and adds the chunks
    as they arrive.  It returns the object as the transfer leaves it,
    and the message of the error when the promise is rejected.  A
    transfer that is not cut short receives every chunk, so [downloaded]
    reaches [size]; one that is cut short stops at the bytes received. *)
Definition simulateDownload (download : Download) : M (Download * option string) :=
  transfer <- nextTransfer ;;
  let settled (downloaded : Z) :=
    {| download_id := download_id download;
       download_url := download_url download;
       download_filename := download_filename download;
       download_startTime := download_startTime download;
       download_size := transfer_size transfer;
       download_downloaded := downloaded;
       download_status := downloading;
       download_error := None |} in
  if transfer_fails transfer then
    ret (settled (transfer_received transfer), Some "Download failed: Network error")
  else
    ret (settled (transfer_size transfer), None).

Definition withStatus (status : DownloadStatus) (error : option string)
           (download : Download) : Download :=
  {| download_id := download_id download;
     download_url := download_url download;
     download_filename := download_filename download;
     download_startTime := download_startTime download;
     download_size := download_size download;
     download_downloaded := download_downloaded download;
     download_status := status;
     download_error := error |}.

Definition logDownload (download : Download) : M unit :=
  modify (with_downloadLog (fun l => l ++ [download])).

(** [downloadFile(url, filename)].  The [try] block is the branch of a
    fulfilled transfer, the [catch] block the branch of a rejected one,
    and the [finally] block runs after either. *)
Definition downloadFile (url filename : string) : M Download :=
  downloadId <- generateUUID ;;
  startTime <- dateNow ;;
  let download :=
    {| download_id := downloadId; download_url := url;
       download_filename := filename;
       download_startTime := startTime; download_size := 0;
       download_downloaded := 0; download_status := pending;
       download_error := None |} in
  setActiveDownload download ;;;
  tryFinally
    (settled <- simulateDownload download ;;
     match snd settled with
     | None =>
         let download := withStatus completed None (fst settled) in
         countDownload download ;;;
         logDownload download ;;;
         ret download
     | Some message =>
         let download := withStatus failed (Some message) (fst settled) in
         logDownload download ;;;
         throw message
     end)
    (deleteActiveDownload downloadId).

(** [downloadAssets] and [downloadModLoader] only report progress: they
    count chunks of [floor(total / 200)] and [floor(total / 50)] bytes
    on a timer until the total is reached, and resolve.  For the totals
    234567890 bytes of assets and 15000000, 5000000, 8000000 or 0 bytes
    of loader the chunk is positive or the total is zero, so they
    resolve; they touch no state.  [downloadModLoader] stands for the
    call with a loader name that satisfies [JS.plainKey] only.  For a
    name of [JS.objectPrototypeKeys] the size is a function
    ([VersionManager.getModLoaderSizeValue]), every chunk is [NaN], the
    test [downloaded >= modLoaderSize] never holds and the promise stays
    pending, an outcome that [M] does not have: the statements that run
    [downloadVersion] up to this call assume a plain name. *)
Definition downloadAssets (assetIndex : AssetIndex) : M unit := ret tt.

Definition downloadModLoader (versionId modLoader : string) : M unit := ret tt.

(** The body of the loop over [versionDetails.libraries]. *)
Definition downloadLibrary (library : Library) : M unit :=
  match library_downloads library with
  | Some d =>
      match downloads_artifact d with
      | Some artifact =>
          downloadFile (artifact_url artifact) (artifact_path artifact) ;;;
          ret tt
      | None => ret tt
      end
  | None => ret tt
  end.

(** [downloadVersion(versionId, modLoader)], with the default
    [onProgress = null]: the progress figures are then computed and
    dropped. *)
Definition downloadVersion (versionId : string) (modLoader : option string) : M bool :=
  versionDetails <- VersionManager.getVersionDetails versionId ;;
  tryCatch
    (showNotification ("Downloading Minecraft " +:+ versionId +:+ "...") "info" ;;;
     downloadFile (client_url (details_client versionDetails))
                  (versionId +:+ ".jar") ;;;
     showNotification "Downloading libraries..." "info" ;;;
     forEachM downloadLibrary (details_libraries versionDetails) ;;;
     showNotification "Downloading game assets..." "info" ;;;
     downloadAssets (details_assetIndex versionDetails) ;;;
     match VersionManager.givenLoader modLoader with
     | Some m =>
         showNotification ("Downloading " +:+ m +:+ "...") "info" ;;;
         downloadModLoader versionId m
     | None => ret tt
     end ;;;
     VersionManager.markVersionInstalled versionId ;;;
     showNotification ("Minecraft " +:+ versionId +:+ " downloaded successfully!") "success" ;;;
     ret true)
    (fun message =>
       showNotification ("Download failed: " +:+ message) "error" ;;;
       throw message).

(** [getDownloadHistory()]: the stored list, or [[]]. *)
Definition getDownloadHistory : M (list HistoryEntry) :=
  gets (fun w => match craftlauncher_download_history (localStorage w) with
                 | Some history => history
                 | None => []
                 end).

Definition addToHistory (download : Download) : M unit :=
  history <- getDownloadHistory ;;
  date <- dateNow ;;
  let history :=
    unshiftBounded {| history_filename := download_filename download;
                      history_size := download_size download;
                      history_date := date;
                      history_status := download_status download |} history in
  modify (with_localStorage
            (fun ls => {| craftlauncher_launch_history := craftlauncher_launch_history ls;
                          craftlauncher_download_history := Some history;
                          craftlauncher_installed_versions := craftlauncher_installed_versions ls;
                          craftlauncher_download_stats := craftlauncher_download_stats ls |})).

(** *** The timers behind [downloadAssets] and [downloadModLoader] *)

(** Every tick of the interval adds [Math.floor(totalSize / parts)] to
    [downloaded], reports that chunk to [onProgress], and resolves the
    promise once [downloaded >= totalSize].  [ticks] bounds the ticks
    looked at: the result is the chunks reported up to the tick that
    resolves, or [None] when the promise is still pending after
    [ticks] ticks. *)
Fixpoint progressTimer (ticks : nat) (parts totalSize downloaded : Z)
  : option (list Z) :=
  match ticks with
  | O => None
  | S ticks' =>
      let chunkSize := totalSize / parts in
      let downloaded := downloaded + chunkSize in
      if totalSize <=? downloaded then Some [chunkSize]
      else option_map (cons chunkSize)
                      (progressTimer ticks' parts totalSize downloaded)
  end.

Definition downloadAssetsTimer (ticks : nat) (assetIndex : AssetIndex)
  : option (list Z) :=
  progressTimer ticks 200 (assetIndex_totalSize assetIndex) 0.

Definition downloadModLoaderTimer (ticks : nat) (modLoader : string)
  : option (list Z) :=
  progressTimer ticks 50 (VersionManager.getModLoaderSize modLoader) 0.

(** *** Downloads under way *)

Definition getActiveDownload (downloadId : string) : M (option Download) :=
  gets (fun w => activeDownloads (downloadManager w) !! downloadId).

(** [download.status = status] on the object stored under [downloadId]. *)
Definition setActiveStatus (downloadId : string) (status : DownloadStatus)
           (download : Download) : M unit :=
  modify (with_downloadManager
            (fun dm => {| activeDownloads :=
                            <[downloadId := withStatus status (download_error download)
                                                       download]>
                              (activeDownloads dm);
                          downloadStats := downloadStats dm |})).

(** [cancelDownload(downloadId)].  The status [cancelled] is written on
    the object just before it leaves the map, where nothing of the
    manager reaches it any more. *)
Definition cancelDownload (downloadId : string) : M unit :=
  download <- getActiveDownload downloadId ;;
  match download with
  | Some _ =>
      modify (deleteActiveDownload downloadId) ;;;
      showNotification "Download cancelled" "info"
  | None => ret tt
  end.

(** [cancelAllDownloads()]: every entry is marked [cancelled] and the map
    is cleared, so the marks are on objects that have left the map. *)
Definition cancelAllDownloads : M unit :=
  modify (with_downloadManager
            (fun dm => {| activeDownloads := ∅;
                          downloadStats := downloadStats dm |})) ;;;
  showNotification "All downloads cancelled" "info".

Definition pauseDownload (downloadId : string) : M unit :=
  download <- getActiveDownload downloadId ;;
  match download with
  | Some download =>
      match download_status download with
      | downloading =>
          setActiveStatus downloadId paused download ;;;
          showNotification "Download paused" "info"
      | _ => ret tt
      end
  | None => ret tt
  end.

Definition resumeDownload (downloadId : string) : M unit :=
  download <- getActiveDownload downloadId ;;
  match download with
  | Some download =>
      match download_status download with
      | paused =>
          setActiveStatus downloadId downloading download ;;;
          showNotification "Download resumed" "info"
      | _ => ret tt
      end
  | None => ret tt
  end.

(** [cleanupOldDownloads()]: the entries that started more than 24 hours
    before now are deleted. *)
Definition cleanupOldDownloads : M unit :=
  now <- dateNow ;;
  let cutoffTime := now - 24 * 60 * 60 * 1000 in
  modify (with_downloadManager
            (fun dm => {| activeDownloads :=
                            filter (fun entry => ~ download_startTime (snd entry) < cutoffTime)
                                   (activeDownloads dm);
                          downloadStats := downloadStats dm |})).

End DownloadManager.

(* ===================================================================== *)
(** ** auth.js *)
(* ===================================================================== *)

Module AuthManager.

Definition getCurrentUser : M (option User) :=
  gets (fun w => currentUser (authManager w)).

Definition getAuthType : M (option string) :=
  gets (fun w => authType (authManager w)).

(** [this.currentUser !== null && this.authType !== null]. *)
Definition isAuthenticated : M bool :=
  gets (fun w => match currentUser (authManager w), authType (authManager w) with
                 | Some _, Some _ => true
                 | _, _ => false
                 end).

(** [this.authType === 'microsoft' || this.authType === 'mojang']. *)
Definition hasPremiumFeatures : M bool :=
  gets (fun w => match authType (authManager w) with
                 | Some type => String.eqb type "microsoft" || String.eqb type "mojang"
                 | None => false
                 end).

Definition getAccountStatus : M string :=
  authenticated <- isAuthenticated ;;
  if negb authenticated then ret "Not authenticated"
  else
    authType <- getAuthType ;;
    match authType with
    | Some type =>
        if String.eqb type "offline" then ret "Offline Mode"
        else if String.eqb type "microsoft" then ret "Microsoft Account"
        else if String.eqb type "mojang" then ret "Mojang Account"
        else ret "Unknown"
    | None => ret "Unknown"
    end.

(** *** The saved session *)

(** What [saveAuth] stores under the key [craftlauncher_auth]. *)
Record AuthData := {
  auth_user : User;
  auth_type : string;
  auth_timestamp : Z
}.

(** The launcher together with that key of [localStorage]. *)
Record Session := {
  session_world : World;
  craftlauncher_auth : option AuthData
}.

Definition SessionM (A : Type) : Type := Session -> outcome A * Session.

(** A computation of the launcher, run inside a session. *)
Definition inWorld {A} (m : M A) : SessionM A :=
  fun s => let (r, w) := m (session_world s) in
           (r, {| session_world := w; craftlauncher_auth := craftlauncher_auth s |}).

Definition andThen {A B} (m : SessionM A) (k : A -> SessionM B) : SessionM B :=
  fun s => match m s with
           | (Returned a, s') => k a s'
           | (Thrown e, s') => (Thrown e, s')
           end.

Definition setAuth (user : option User) (type : option string) : M unit :=
  modify (fun w =>
    {| authManager := {| currentUser := user; authType := type |};
       versionManager := versionManager w;
       downloadManager := downloadManager w; gameLauncher := gameLauncher w;
       localStorage := localStorage w; platform := platform w;
       bodyOpacity := bodyOpacity w; notifications := notifications w;
       chance := chance w; downloadLog := downloadLog w |}).

Definition setSavedAuth (saved : option AuthData) : SessionM unit :=
  fun s => (Returned tt, {| session_world := session_world s;
                            craftlauncher_auth := saved |}).

(** [loadSavedAuth()], under [if (savedAuth && savedAuth.user &&
    savedAuth.type)]: a stored user is an object, and so truthy. *)
Definition loadSavedAuth : SessionM bool :=
  fun s => match craftlauncher_auth s with
           | Some savedAuth =>
               if JS.truthy (auth_type savedAuth)
               then andThen (inWorld (setAuth (Some (auth_user savedAuth))
                                              (Some (auth_type savedAuth))))
                            (fun _ s' => (Returned true, s')) s
               else (Returned false, s)
           | None => (Returned false, s)
           end.

Definition saveAuth (user : User) (type : string) : SessionM unit :=
  andThen (inWorld dateNow)
          (fun timestamp =>
             setSavedAuth (Some {| auth_user := user; auth_type := type;
                                   auth_timestamp := timestamp |})).

Definition clearAuth : SessionM unit :=
  andThen (inWorld (setAuth None None)) (fun _ => setSavedAuth None).

(** [authenticateOffline(username)].  Of the user object, the avatar and
    skin addresses, which nothing in the launch path reads, are left
    out. *)
Definition authenticateOffline (username : string) : SessionM User :=
  if negb (Utils.isValidUsername username)
  then inWorld (throw "Invalid username. Must be 3-16 characters, alphanumeric and underscores only.")
  else
    andThen (inWorld generateUUID) (fun uuid =>
    andThen (inWorld generateUUID) (fun token =>
      let user := {| user_username := username; user_uuid := uuid;
                     user_accessToken := "offline_" +:+ token |} in
      andThen (inWorld (setAuth (Some user) (Some "offline"))) (fun _ =>
      andThen (saveAuth user "offline") (fun _ =>
      andThen (inWorld (showNotification ("Welcome, " +:+ username +:+ "!") "success"))
              (fun _ s => (Returned user, s)))))).

Definition logout : SessionM unit :=
  andThen (inWorld getCurrentUser) (fun current =>
    let username := match current with
                    | Some user => user_username user
                    | None => "User"
                    end in
    andThen clearAuth (fun _ =>
    inWorld (showNotification ("Goodbye, " +:+ username +:+ "!") "info"))).

(** The page loaded anew: the constructor sets both fields to [null]
    and [init] calls [loadSavedAuth]. *)
Definition restart : SessionM bool :=
  andThen (inWorld (setAuth None None)) (fun _ => loadSavedAuth).

End AuthManager.

(* ===================================================================== *)
(** ** launcher.js *)
(* ===================================================================== *)

Module GameLauncher.

Definition getGameDirectory : string := ".minecraft".
Definition getAssetsDirectory : string := ".minecraft/assets".
Definition getLibrariesDirectory : string := ".minecraft/libraries".

(** [toLowerCase] on the code units 0..255. *)
Definition lowerChar (c : ascii) : ascii :=
  let k := JS.charCode c in
  if ((65 <=? k) && (k <=? 90))
     || ((192 <=? k) && (k <=? 222) && negb (k =? 215))
  then ascii_of_N (Z.to_N (k + 32)) else c.

Fixpoint toLowerCase (s : string) : string :=
  match s with
  | EmptyString => EmptyString
  | String c s' => String (lowerChar c) (toLowerCase s')
  end.

Definition getPathSeparator : M string :=
  gets (fun w => if JS.includes (toLowerCase (platform w)) "win" then ";" else ":").

(** The entries pushed on the classpath array, before the join. *)
Definition classpathEntries (versionDetails : VersionDetails) : list string :=
  ("versions/" +:+ details_id versionDetails +:+ "/" +:+ details_id versionDetails +:+ ".jar")
  :: flat_map (fun library =>
                 match library_downloads library with
                 | Some d => match downloads_artifact d with
                             | Some a => ["libraries/" +:+ artifact_path a]
                             | None => []
                             end
                 | None => []
                 end)
              (details_libraries versionDetails).

Definition buildClasspath (versionDetails : VersionDetails) (librariesDirectory : string)
  : M string :=
  separator <- getPathSeparator ;;
  ret (JS.join separator (classpathEntries versionDetails)).

(** The fixed system properties pushed last. *)
Definition systemProperties : list string :=
  [ "-Djava.library.path=natives";
    "-Dminecraft.launcher.brand=CraftLauncher";
    "-Dminecraft.launcher.version=1.0.0" ].

(** [this.gameSettings.jvmArgs.split(' ').filter(arg => arg.trim())],
    under the guard [if (this.gameSettings.jvmArgs)]. *)
Definition customJVMArguments (jvmArgs : string) : list string :=
  if JS.truthy jvmArgs
  then List.filter (fun arg => JS.truthy (JS.trim arg)) (JS.split " " jvmArgs)
  else [].

Definition jvmArgumentsOf (settings : GameSettings) : list string :=
  [ "-Xmx" +:+ JS.str (ramAllocation settings) +:+ "M";
    "-Xms" +:+ JS.str (Z.min 512 (ramAllocation settings)) +:+ "M" ]
  ++ customJVMArguments (jvmArgs settings)
  ++ systemProperties.

Definition buildJVMArguments : M (list string) :=
  gets (fun w => jvmArgumentsOf (gameSettings (gameLauncher w))).

(** [getUserType(user)]: the switch reads the manager's authentication
    type, not the user. *)
Definition getUserType (user : User) : M string :=
  authType <- AuthManager.getAuthType ;;
  match authType with
  | Some type =>
      if String.eqb type "microsoft" || String.eqb type "mojang"
      then ret "mojang"
      else ret "legacy"
  | None => ret "legacy"
  end.

Definition replaceArgumentVariables (arg : string) (user : User)
           (versionDetails : VersionDetails) (gameDirectory assetsDirectory : string)
  : M string :=
  userType <- getUserType user ;;
  let arg := JS.replace arg "${auth_player_name}" (user_username user) in
  let arg := JS.replace arg "${version_name}" (details_id versionDetails) in
  let arg := JS.replace arg "${game_directory}" gameDirectory in
  let arg := JS.replace arg "${assets_root}" assetsDirectory in
  let arg := JS.replace arg "${assets_index_name}"
                        (assetIndex_id (details_assetIndex versionDetails)) in
  let arg := JS.replace arg "${auth_uuid}" (user_uuid user) in
  let arg := JS.replace arg "${auth_access_token}" (user_accessToken user) in
  let arg := JS.replace arg "${user_type}" userType in
  let arg := JS.replace arg "${version_type}" (details_type versionDetails) in
  let arg := JS.replace arg "${launcher_name}" "CraftLauncher" in
  let arg := JS.replace arg "${launcher_version}" "1.0.0" in
  ret arg.

(** [items.forEach(x => gameArgs.push(f(x)))]. *)
Fixpoint pushEach {A} (f : A -> M (list string)) (items : list A) : M (list string) :=
  match items with
  | [] => ret []
  | x :: rest =>
      pushed <- f x ;;
      more <- pushEach f rest ;;
      ret (pushed ++ more)
  end.

(** [const [ip, port] = serverAddress.split(':')] and the pushes that
    follow. *)
Definition serverArguments (serverAddress : option string) : list string :=
  match serverAddress with
  | Some address =>
      if JS.truthy address then
        match JS.split ":" address with
        | ip :: port :: _ =>
            ["--server"; ip] ++ (if JS.truthy port then ["--port"; port] else [])
        | [ip] => ["--server"; ip]
        | [] => []
        end
      else []
  | None => []
  end.

Definition buildGameArguments (user : User) (versionDetails : VersionDetails)
           (gameDirectory assetsDirectory : string) (serverAddress : option string)
  : M (list string) :=
  let substitute arg :=
    replaced <- replaceArgumentVariables arg user versionDetails
                                         gameDirectory assetsDirectory ;;
    ret [replaced] in
  templated <-
    (if JS.truthy (details_minecraftArguments versionDetails) then
       pushEach substitute (JS.split " " (details_minecraftArguments versionDetails))
     else match details_arguments_game versionDetails with
          | Some game =>
              pushEach (fun arg => match arg with
                                   | ArgString a => substitute a
                                   | ArgRule => ret []
                                   end) game
          | None => ret []
          end) ;;
  settings <- gets (fun w => gameSettings (gameLauncher w)) ;;
  ret (templated
       ++ ["--width"; JS.str (resolutionWidth settings)]
       ++ ["--height"; JS.str (resolutionHeight settings)]
       ++ serverArguments serverAddress).

Definition prepareLaunchParameters (user : User) (versionDetails : VersionDetails)
           (modLoader serverAddress : option string) : M LaunchParameters :=
  let gameDirectory := getGameDirectory in
  let assetsDirectory := getAssetsDirectory in
  let librariesDirectory := getLibrariesDirectory in
  classpath <- buildClasspath versionDetails librariesDirectory ;;
  jvmArgs <- buildJVMArguments ;;
  gameArgs <- buildGameArguments user versionDetails gameDirectory
                                 assetsDirectory serverAddress ;;
  ret {| params_mainClass := details_mainClass versionDetails;
         params_classpath := classpath;
         params_jvmArgs := jvmArgs;
         params_gameArgs := gameArgs;
         params_workingDirectory := gameDirectory;
         params_versionId := details_id versionDetails;
         params_user := user;
         params_modLoader := modLoader |}.

Definition launchSteps : list string :=
  [ "Preparing game files..."; "Loading libraries...";
    "Initializing game engine..."; "Starting Minecraft..." ].

Definition setGameProcess (process : option GameProcess) : M unit :=
  modify (with_gameLauncher
            (fun gl => {| gameProcess := process;
                          launchHistory := launchHistory gl;
                          gameSettings := gameSettings gl |})).

(** [simulateGameLaunch]: the interval shows the four steps and, one tick
    later, records the process and resolves; the failure timer, when it
    is armed, stops the interval first and rejects. *)
Definition simulateGameLaunch (launchParams : LaunchParameters) : M unit :=
  launch <- nextLaunch ;;
  match launch_failsAfter launch with
  | Some shown =>
      forEachM (fun step => showNotification step "info") (take shown launchSteps) ;;;
      throw "Failed to start game process"
  | None =>
      forEachM (fun step => showNotification step "info") launchSteps ;;;
      startTime <- dateNow ;;
      setGameProcess (Some {| process_pid := launch_pidDraw launch + 1000;
                              process_startTime := startTime;
                              process_version := params_versionId launchParams;
                              process_user := user_username (params_user launchParams) |})
  end.

Definition saveLaunchHistory : M unit :=
  modify (fun w =>
    with_localStorage
      (fun ls => {| craftlauncher_launch_history := Some (launchHistory (gameLauncher w));
                    craftlauncher_download_history := craftlauncher_download_history ls;
                    craftlauncher_installed_versions := craftlauncher_installed_versions ls;
                    craftlauncher_download_stats := craftlauncher_download_stats ls |}) w).

Definition addToLaunchHistory (launchData : LaunchData) : M unit :=
  modify (with_gameLauncher
            (fun gl => {| gameProcess := gameProcess gl;
                          launchHistory :=
                            unshiftBounded launchData (launchHistory gl);
                          gameSettings := gameSettings gl |})) ;;;
  saveLaunchHistory.

Definition hideLauncher : M unit :=
  modify (with_bodyOpacity "0.5") ;;;
  showNotification "Launcher minimized" "info".

Definition launchGame (versionId : string) (modLoader serverAddress : option string)
  : M bool :=
  tryCatch
    (authenticated <- AuthManager.isAuthenticated ;;
     (if negb authenticated then throw "User not authenticated" else ret tt) ;;;
     installed <- VersionManager.isVersionInstalled versionId ;;
     (if negb installed
      then throw ("Minecraft " +:+ versionId +:+ " is not installed")
      else ret tt) ;;;
     current <- AuthManager.getCurrentUser ;;
     match current with
     | None => throw "User not authenticated"   (* excluded by the first test *)
     | Some user =>
         versionDetails <- VersionManager.getVersionDetails versionId ;;
         launchParams <- prepareLaunchParameters user versionDetails
                                                 modLoader serverAddress ;;
         showNotification ("Launching Minecraft " +:+ versionId +:+ "...") "info" ;;;
         simulateGameLaunch launchParams ;;;
         timestamp <- dateNow ;;
         addToLaunchHistory {| launch_versionId := versionId;
                               launch_modLoader := modLoader;
                               launch_serverAddress := serverAddress;
                               launch_timestamp := timestamp;
                               launch_username := user_username user |} ;;;
         closeAfter <- gets (fun w => closeLauncherAfterStart (gameSettings (gameLauncher w))) ;;
         (if closeAfter then hideLauncher else ret tt) ;;;
         showNotification "Game launched successfully!" "success" ;;;
         ret true
     end)
    (fun message =>
       showNotification ("Launch failed: " +:+ message) "error" ;;;
       throw message).

(** *** The running game *)

Definition isGameRunning : M bool :=
  gets (fun w => match gameProcess (gameLauncher w) with
                 | Some _ => true
                 | None => false
                 end).

Definition showLauncher : M unit := modify (with_bodyOpacity "1").

Definition killGame : M unit :=
  running <- isGameRunning ;;
  if running then
    showNotification "Game process terminated" "info" ;;;
    setGameProcess None ;;;
    showLauncher
  else ret tt.

(** *** Statistics of the launch history *)

(** [versionCounts[key] = (versionCounts[key] || 0) + 1] on an object
    kept as the list of its own keys in the order [Object.keys] lists
    them.  For keys that are not array indices this is the order in
    which they were first written; a key that is an array index, or one
    that names a member of [Object.prototype], is outside this model. *)
Fixpoint countKey (key : string) (versionCounts : list (string * Z))
  : list (string * Z) :=
  match versionCounts with
  | [] => [(key, 1)]
  | (k, n) :: rest =>
      if String.eqb k key then (k, n + 1) :: rest
      else (k, n) :: countKey key rest
  end.

(** [versionCounts[key]] for a key of the object. *)
Fixpoint countOf (versionCounts : list (string * Z)) (key : string) : Z :=
  match versionCounts with
  | [] => 0
  | (k, n) :: rest => if String.eqb k key then n else countOf rest key
  end.

Definition countLaunches (history : list LaunchData) : list (string * Z) :=
  fold_left (fun versionCounts launch => countKey (launch_versionId launch) versionCounts)
            history [].

(** [Object.keys(versionCounts).reduce((a, b) =>
      versionCounts[a] > versionCounts[b] ? a : b)]. *)
Definition getFavoriteVersion : M (option string) :=
  gets (fun w =>
          match launchHistory (gameLauncher w) with
          | [] => None
          | history =>
              let versionCounts := countLaunches history in
              match map fst versionCounts with
              | [] => None
              | first :: keys =>
                  Some (fold_left (fun a b => if countOf versionCounts a
                                                 >? countOf versionCounts b
                                              then a else b)
                                  keys first)
              end
          end).

End GameLauncher.

(* ===================================================================== *)
(** ** versions.js, continued: the search *)
(* ===================================================================== *)

Module VersionSearch.

(** [searchVersions(query)]; it lowers the case of the query, of the ids
    and of the types with [toLowerCase]. *)
Definition searchVersions (query : string) : M (list Version) :=
  gets (fun w =>
          if negb (JS.truthy query) then versions (versionManager w)
          else
            let lowerQuery := GameLauncher.toLowerCase query in
            List.filter
              (fun version =>
                 JS.includes (GameLauncher.toLowerCase (version_id version)) lowerQuery
                 || JS.includes (GameLauncher.toLowerCase (version_type version)) lowerQuery)
              (versions (versionManager w))).

End VersionSearch.

(* ===================================================================== *)
(** ** Sample states *)
(* ===================================================================== *)

Module Sample.

Definition steve : User :=
  {| user_username := "Steve"; user_uuid := "u-1"; user_accessToken := "token" |}.

Definition settings (ram width height : Z) (flags : string) : GameSettings :=
  {| ramAllocation := ram; resolutionWidth := width; resolutionHeight := height;
     jvmArgs := flags; closeLauncherAfterStart := false |}.

(** The settings the constructor of [GameLauncher] starts from. *)
Definition defaultSettings : GameSettings :=
  settings 2048 1280 720 "-XX:+UseG1GC -XX:+UnlockExperimentalVMOptions".

(** Draws that count upwards, transfers of 1000000 bytes of which the
    one numbered [failing] is cut short, launches that succeed. *)
Definition chanceWith (failing : option nat) : Chance :=
  {| librarySizeDraws := fun n => Z.of_nat n;
     uuids := fun n => "uuid-" +:+ JS.str (Z.of_nat n);
     transfers := fun n =>
       {| transfer_size := 1000000;
          transfer_fails := match failing with
                            | Some k => Nat.eqb n k
                            | None => false
                            end;
          transfer_received := 4096 |};
     launches := fun _ => {| launch_failsAfter := None; launch_pidDraw := 42 |};
     clock := fun n => 1700000000000 + Z.of_nat n |}.

(** A launcher just started: the mock catalog loaded, nothing installed,
    nobody signed in. *)
Definition world (auth : AuthManagerState) (installed : gset string)
           (gs : GameSettings) (failing : option nat) : World :=
  {| authManager := auth;
     versionManager := {| versions := VersionManager.getMockVersions;
                          installedVersions := installed |};
     downloadManager := {| activeDownloads := ∅;
                           downloadStats := {| totalDownloaded := 0; totalFiles := 0 |} |};
     gameLauncher := {| gameProcess := None; launchHistory := [];
                        gameSettings := gs |};
     localStorage := {| craftlauncher_launch_history := None;
                        craftlauncher_download_history := None;
                        craftlauncher_installed_versions := None;
                        craftlauncher_download_stats := None |};
     platform := "Linux x86_64";
     bodyOpacity := "1";
     notifications := [];
     chance := chanceWith failing;
     downloadLog := [] |}.

Definition signedOut : AuthManagerState :=
  {| currentUser := None; authType := None |}.

Definition signedIn : AuthManagerState :=
  {| currentUser := Some steve; authType := Some "offline" |}.

Definition fresh : World := world signedOut ∅ defaultSettings None.

Definition version_1_20_4 : Version :=
  VersionManager.mockVersion "1.20.4" "release" "2023-12-07T12:56:18+00:00"
                             "2023-12-07T12:56:18+00:00" "mno345" 1.

(** The details of 1.20.4 with its first two libraries. *)
Definition details : VersionDetails :=
  VersionManager.versionDetailsOf version_1_20_4
    (VersionManager.librariesFrom "1.20.4"
       (take 2 VersionManager.baseLibraries) (fun _ => 0)).

(** Flags separated by a tab. *)
Definition tabbedFlags : string := "-Xa" +:+ String "009" "-Xb".

(** A signed-in launcher with the given settings. *)
Definition configured (gs : GameSettings) : World := world signedIn ∅ gs None.

(** A signed-in launcher with 1.20.4 installed. *)
Definition ready : World := world signedIn {[ "1.20.4" ]} defaultSettings None.

(** The same, with launches whose failure timer fires after two steps. *)
Definition unlucky : World :=
  with_chance
    (fun c => {| librarySizeDraws := librarySizeDraws c; uuids := uuids c;
                 transfers := transfers c;
                 launches := fun _ => {| launch_failsAfter := Some 2%nat;
                                         launch_pidDraw := 42 |};
                 clock := clock c |})
    ready.

(** A launch of [versionId] by Steve at the given time. *)
Definition launchOf (versionId : string) (timestamp : Z) : LaunchData :=
  {| launch_versionId := versionId; launch_modLoader := None;
     launch_serverAddress := None; launch_timestamp := timestamp;
     launch_username := "Steve" |}.

(** A launcher with five launches behind it, the newest first. *)
Definition played : World :=
  with_gameLauncher
    (fun gl => {| gameProcess := gameProcess gl;
                  launchHistory := [ launchOf "1.20.4" 1700000005000;
                                     launchOf "1.21" 1700000004000;
                                     launchOf "1.20.4" 1700000003000;
                                     launchOf "1.21" 1700000002000;
                                     launchOf "1.8.9" 1700000001000 ];
                  gameSettings := gameSettings gl |})
    ready.

End Sample.

(* ===================================================================== *)
(** ** Vocabulary of the statements *)
(* ===================================================================== *)

(** A word of the digits 0-9 and a-f. *)
Definition allHex (s : string) : Prop :=
  Forall (fun c => JS.isHexDigit c = true) (list_ascii_of_string s).

(** A string with a character that is not white space. *)
Definition hasInk (s : string) : bool :=
  existsb (fun c => negb (JS.isWhiteSpace c)) (list_ascii_of_string s).

(** The specification's reading of the free-form flags, in its words:
    the text split on white space, empty entries removed. *)
Fixpoint piecesOnWhitespace (s : string) : list string :=
  match s with
  | EmptyString => [EmptyString]
  | String c s' =>
      if JS.isWhiteSpace c then EmptyString :: piecesOnWhitespace s'
      else match piecesOnWhitespace s' with
           | piece :: rest => String c piece :: rest
           | [] => [String c EmptyString]
           end
  end.

Definition splitOnWhitespace (s : string) : list string :=
  List.filter JS.truthy (piecesOnWhitespace s).

(** [post m w Q]: running [m] from [w] ends in a result and a state that
    satisfy [Q]. *)
Definition post {A} (m : M A) (w : World) (Q : outcome A -> World -> Prop) : Prop :=
  Q (fst (m w)) (snd (m w)).

(** A thunk for [retry] that fails at every call; its state counts the
    calls. *)
Definition alwaysFails (calls : nat) : outcome unit * nat :=
  (Thrown ("attempt " +:+ JS.str (Z.of_nat (S calls)) +:+ " failed"), S calls).

Definition isThrown {A} (r : outcome A) : Prop :=
  match r with Thrown _ => True | Returned _ => False end.

(** The trace of a run of [retry] whose calls of [fn] ended as [results],
    the first of them being call number [attempt]: the calls in order,
    and right after every call but the last the wait for
    [baseDelay * 2^(attempt - 1)], where [attempt] is the number of that
    call. *)
Fixpoint backoffTrace {A} (baseDelay attempt : Z) (results : list (outcome A))
  : list (Utils.RetryEvent A) :=
  match results with
  | [] => []
  | r :: rest =>
      Utils.Called r
      :: match rest with
         | [] => []
         | _ :: _ =>
             Utils.Waited (baseDelay * 2 ^ (attempt - 1))
             :: backoffTrace baseDelay (attempt + 1) rest
         end
  end.

(** [fn] called [n] times in a row from the state [s]: the results in
    order, and the state the last call leaves. *)
Fixpoint callsFrom {S A} (fn : S -> outcome A * S) (n : nat) (s : S)
  : list (outcome A) * S :=
  match n with
  | O => ([], s)
  | Datatypes.S n' =>
      let (r, s1) := fn s in
      let (rs, s2) := callsFrom fn n' s1 in
      (r :: rs, s2)
  end.

(** The index of the first transfer that is cut short among the next [n]. *)
Fixpoint firstFailure (n : nat) (ts : Stream Transfer) : option nat :=
  match n with
  | O => None
  | S n' =>
      if transfer_fails (shead ts) then Some O
      else option_map S (firstFailure n' (stail ts))
  end.

(** What the log shows of a download: the file and how it ended. *)
Definition logged (d : Download) : string * DownloadStatus :=
  (download_filename d, download_status d).

(** The files [downloadVersion] fetches with [downloadFile], in order: the
    client, then the libraries that have an artifact. *)
Definition filesOf (versionId : string) (details : VersionDetails) : list string :=
  (versionId +:+ ".jar")
  :: map artifact_path (VersionManager.libraryArtifacts (details_libraries details)).

(** The specification's reading of a batch with one failing artifact:
    every other artifact is completed. *)
Definition failuresIsolated : Prop :=
  forall (w : World) (versionId : string) (details : VersionDetails) (k : nat),
    fst (VersionManager.getVersionDetails versionId w) = Returned details ->
    (k < length (filesOf versionId details))%nat ->
    (forall i, transfer_fails (transfers (chance w) i) = true <-> i = k) ->
    forall file, In file (filesOf versionId details) ->
                 file <> nth k (filesOf versionId details) "" ->
                 In (file, completed)
                    (map logged (downloadLog
                                   (snd (DownloadManager.downloadVersion versionId None w)))).

(** The value of a hexadecimal digit, and the bytes that a string of
    two-digit pairs spells. *)
Definition hexDigitValue (c : ascii) : Z :=
  let k := JS.charCode c in
  if k <=? 57 then k - 48 else k - 87.

Fixpoint hexToBytes (s : string) : list Z :=
  match s with
  | String high (String low rest) =>
      (16 * hexDigitValue high + hexDigitValue low) :: hexToBytes rest
  | _ => []
  end.

(** A string laid out as a template of [generateUUID]: a hexadecimal digit
    for every [x], one of 8, 9, a, b for every [y], and the character of
    the template anywhere else. *)
Fixpoint matchesTemplate (template uuid : string) : bool :=
  match template, uuid with
  | EmptyString, EmptyString => true
  | String t template', String c uuid' =>
      (if Ascii.eqb t "x" then JS.isHexDigit c
       else if Ascii.eqb t "y"
            then Ascii.eqb c "8" || Ascii.eqb c "9" || Ascii.eqb c "a" || Ascii.eqb c "b"
            else Ascii.eqb t c)
      && matchesTemplate template' uuid'
  | _, _ => false
  end.

(** The four types [getVersionStats] counts. *)
Definition knownType (type : string) : bool :=
  String.eqb type "release" || String.eqb type "snapshot"
  || String.eqb type "beta" || String.eqb type "alpha".

(** [needle] occurs in [s]. *)
Definition occursIn (needle s : string) : Prop :=
  exists before after, s = before +:+ needle +:+ after.

(** A notification of the given type. *)
Definition note (type message : string) : Notification :=
  {| notification_message := message; notification_type := type |}.

(** How often a version occurs in a launch history. *)
Definition launchCount (versionId : string) (history : list LaunchData) : Z :=
  Z.of_nat (length (List.filter (fun launch => String.eqb (launch_versionId launch) versionId)
                                history)).

(** The distinct entries of a list, in the order in which they first
    occur. *)
Definition firstSeen (ids : list string) : list string :=
  fold_left (fun seen id => if existsb (String.eqb id) seen then seen else seen ++ [id])
            ids [].

(** A key that an object lists in the order of insertion: not an array
    index (the empty string and strings with a character that is not
    a digit never are) and not the name of a member of
    [Object.prototype]. *)
Definition isDigit (c : ascii) : bool :=
  (48 <=? JS.charCode c) && (JS.charCode c <=? 57).

Definition ordinaryKey (key : string) : Prop :=
  JS.plainKey key
  /\ (key = "" \/ forallb isDigit (list_ascii_of_string key) = false).

(** What downloading leaves alone: the session, the catalog, the
    launcher, the course of the launches to come and the window. *)
Definition sameLauncher (w w' : World) : Prop :=
  authManager w' = authManager w
  /\ versions (versionManager w') = versions (versionManager w)
  /\ gameLauncher w' = gameLauncher w
  /\ launches (chance w') = launches (chance w)
  /\ platform w' = platform w
  /\ bodyOpacity w' = bodyOpacity w.

(* ===================================================================== *)
(** * Properties *)
(* ===================================================================== *)

(** Unfolding the monad. *)
Ltac run :=
  repeat (unfold bind, ret, throw, gets, modify, tryCatch, tryFinally; simpl).

(** Reading a field of the state through the updates written on it. *)
Ltac projections :=
  cbn [authManager versionManager downloadManager gameLauncher localStorage
       platform bodyOpacity notifications chance downloadLog
       with_versionManager with_downloadManager with_gameLauncher
       with_localStorage with_bodyOpacity with_notifications with_chance
       with_downloadLog versions installedVersions fst snd].

Ltac projections_in H :=
  cbn [authManager versionManager downloadManager gameLauncher localStorage
       platform bodyOpacity notifications chance downloadLog
       with_versionManager with_downloadManager with_gameLauncher
       with_localStorage with_bodyOpacity with_notifications with_chance
       with_downloadLog versions installedVersions fst snd] in H.

(** Splitting a conjunction into its parts, and nothing else. *)
Ltac conjs := repeat match goal with |- _ /\ _ => split end.

(** Reading any field of the state through the updates written on it. *)
Ltac fields :=
  cbn [authManager versionManager downloadManager gameLauncher localStorage
       platform bodyOpacity notifications chance downloadLog
       with_versionManager with_downloadManager with_gameLauncher
       with_localStorage with_bodyOpacity with_notifications with_chance
       with_downloadLog versions installedVersions
       gameProcess launchHistory gameSettings
       craftlauncher_launch_history craftlauncher_download_history
       craftlauncher_installed_versions craftlauncher_download_stats
       librarySizeDraws uuids transfers launches clock fst snd].

(** Goals made of equations between results, closed by inspection. *)
Ltac kinds :=
  repeat match goal with
         | |- _ /\ _ => split
         | |- _ <-> _ => split
         | |- _ -> _ => intro
         | H : _ \/ _ |- _ => destruct H
         | H : Returned _ = Returned _ |- _ => first [ discriminate H | clear H ]
         | |- _ \/ _ => first [ left; reflexivity | right; reflexivity ]
         | |- _ => reflexivity
         end.

(** ** 32-bit arithmetic and [hashString] *)

Lemma toInt32_range (z : Z) : - 2^31 <= JS.toInt32 z < 2^31.
Proof.
  unfold JS.toInt32.
  change (2^32) with 4294967296. change (2^31) with 2147483648.
  pose proof (Z.mod_pos_bound (z + 2147483648) 4294967296). lia.
Qed.

Lemma band_diag (x : Z) : JS.band x x = JS.toInt32 x.
Proof. unfold JS.band. apply Z.land_diag. Qed.

Lemma hashStep_range (hash char : Z) : - 2^31 <= Utils.hashStep hash char < 2^31.
Proof. unfold Utils.hashStep. rewrite band_diag. apply toInt32_range. Qed.

Lemma fold_left_step {A B} (f : A -> B -> A) (x : B) (l : list B) (a : A) :
  fold_left f (x :: l) a = fold_left f l (f a x).
Proof. reflexivity. Qed.

Lemma hashFold_range (codes : list Z) (hash : Z) :
  - 2^31 <= hash < 2^31 ->
  - 2^31 <= fold_left Utils.hashStep codes hash < 2^31.
Proof.
  revert hash. induction codes as [|c codes IH]; intros hash Hh.
  - exact Hh.
  - rewrite fold_left_step. apply IH, hashStep_range.
Qed.

(** Every value the loop holds before the final [&] stays far inside the
    range where doubles are exact integers. *)
Lemma hashStep_exact (hash char : Z) :
  - 2^31 <= hash < 2^31 -> 0 <= char < 2^16 ->
  - 2^53 < (JS.shl hash 5 - hash) + char < 2^53.
Proof.
  intros Hh Hc. pose proof (toInt32_range (Z.shiftl (JS.toInt32 hash) (5 mod 32))) as Hs.
  unfold JS.shl.
  change (2^31) with 2147483648 in *. change (2^16) with 65536 in *.
  change (2^53) with 9007199254740992. lia.
Qed.

Lemma hashCodes_abs (codes : list Z) :
  Utils.hashCodes codes = Z.abs (fold_left Utils.hashStep codes 0).
Proof. destruct codes; reflexivity. Qed.

Lemma hashCodes_range (codes : list Z) : 0 <= Utils.hashCodes codes <= 2^31.
Proof.
  rewrite hashCodes_abs.
  assert (H : - 2^31 <= fold_left Utils.hashStep codes 0 < 2^31).
  { apply hashFold_range. change (2^31) with 2147483648. lia. }
  change (2^31) with 2147483648 in *. lia.
Qed.

(** ** Digits *)

Lemma digitChar_hex (d : Z) : 0 <= d < 16 -> JS.isHexDigit (JS.digitChar d) = true.
Proof.
  intros H.
  assert (C : d = 0 \/ d = 1 \/ d = 2 \/ d = 3 \/ d = 4 \/ d = 5 \/ d = 6 \/ d = 7
              \/ d = 8 \/ d = 9 \/ d = 10 \/ d = 11 \/ d = 12 \/ d = 13 \/ d = 14
              \/ d = 15) by lia.
  repeat (destruct C as [C | C]; [subst d; reflexivity |]).
  subst d; reflexivity.
Qed.

Lemma digitsAux_hex (fuel : nat) (n : Z) (acc : string) :
  allHex acc -> allHex (JS.digitsAux fuel 16 n acc).
Proof.
  revert n acc. induction fuel as [|fuel IH]; intros n acc Hacc; simpl.
  - exact Hacc.
  - assert (Hacc' : allHex (String (JS.digitChar (n mod 16)) acc)).
    { constructor; [|exact Hacc]. apply digitChar_hex. apply Z.mod_pos_bound. lia. }
    destruct (n / 16 =? 0); [exact Hacc' | apply IH, Hacc'].
Qed.

Lemma digitsAux_nonempty (fuel : nat) (radix n : Z) (acc : string) :
  acc <> "" -> JS.digitsAux fuel radix n acc <> "".
Proof.
  revert n acc. induction fuel as [|fuel IH]; intros n acc Hacc; simpl.
  - exact Hacc.
  - destruct (n / radix =? 0); [discriminate | apply IH; discriminate].
Qed.

Lemma digits_nonempty (radix n : Z) : JS.digits radix n <> "".
Proof.
  unfold JS.digits. simpl.
  destruct (n / radix =? 0); [discriminate | apply digitsAux_nonempty; discriminate].
Qed.

Lemma app_assoc_string (a b c : string) : (a +:+ b) +:+ c = a +:+ (b +:+ c).
Proof.
  induction a as [|x a IH]; [reflexivity |].
  change (String x ((a +:+ b) +:+ c) = String x (a +:+ (b +:+ c))).
  rewrite IH. reflexivity.
Qed.

(** The accumulator of [digitsAux] is a suffix of its result. *)
Lemma digitsAux_acc (fuel : nat) (radix n : Z) (acc : string) :
  JS.digitsAux fuel radix n acc = JS.digitsAux fuel radix n "" +:+ acc.
Proof.
  revert n acc. induction fuel as [|fuel IH]; intros n acc; cbn [JS.digitsAux].
  - reflexivity.
  - destruct (n / radix =? 0); [reflexivity |].
    rewrite (IH (n / radix) (String _ acc)), (IH (n / radix) (String _ "")).
    rewrite app_assoc_string. reflexivity.
Qed.

(** With [fuel] rounds for a number below [2^fuel], one more round changes
    nothing: the loop has ended by itself. *)
Lemma digitsAux_enough (fuel : nat) :
  forall (radix n : Z) (acc : string),
    2 <= radix -> 0 <= n < 2 ^ Z.of_nat (S fuel) ->
    JS.digitsAux (S fuel) radix n acc = JS.digitsAux (S (S fuel)) radix n acc.
Proof.
  induction fuel as [|fuel IH]; intros radix n acc Hr Hn.
  - cbn [JS.digitsAux].
    assert (Hq : n / radix = 0).
    { apply Z.div_small. change (2 ^ Z.of_nat 1) with 2 in Hn. lia. }
    rewrite Hq. reflexivity.
  - remember (S fuel) as f eqn:Hf.
    cbn [JS.digitsAux]. destruct (n / radix =? 0) eqn:E; [reflexivity |].
    subst f. apply IH; [exact Hr |].
    apply Z.eqb_neq in E.
    assert (Hpow : 2 ^ Z.of_nat (S (S fuel)) = 2 * 2 ^ Z.of_nat (S fuel)).
    { rewrite (Nat2Z.inj_succ (S fuel)), Z.pow_succ_r by lia. reflexivity. }
    rewrite Hpow in Hn.
    pose proof (Z.pow_pos_nonneg 2 (Z.of_nat (S fuel)) ltac:(lia) ltac:(lia)) as Hp.
    split; [apply Z.div_pos; lia |].
    apply Z.div_lt_upper_bound; [lia |]. nia.
Qed.

Lemma digitsAux_more (extra fuel : nat) (radix n : Z) (acc : string) :
  2 <= radix -> 0 <= n < 2 ^ Z.of_nat (S fuel) ->
  JS.digitsAux (S fuel) radix n acc = JS.digitsAux (S (extra + fuel)) radix n acc.
Proof.
  intros Hr Hn. induction extra as [|extra IH]; [reflexivity |].
  rewrite IH. apply digitsAux_enough; [exact Hr |].
  split; [lia |]. eapply Z.lt_le_trans; [apply Hn |].
  apply Z.pow_le_mono_r; lia.
Qed.

(** [digits] is the positional notation: the last digit is the remainder,
    the digits before it are those of the quotient. *)
Lemma digits_unfold (radix n : Z) :
  2 <= radix -> 0 <= n ->
  JS.digits radix n
  = if n <? radix then String (JS.digitChar n) ""
    else JS.digits radix (n / radix) +:+ String (JS.digitChar (n mod radix)) "".
Proof.
  intros Hr Hn. unfold JS.digits at 1. cbn [JS.digitsAux].
  destruct (n <? radix) eqn:E.
  - apply Z.ltb_lt in E. rewrite Z.div_small, Z.mod_small by lia. reflexivity.
  - apply Z.ltb_ge in E.
    assert (Hq : 1 <= n / radix).
    { apply Z.div_le_lower_bound; lia. }
    destruct (n / radix =? 0) eqn:E0; [apply Z.eqb_eq in E0; lia |].
    rewrite digitsAux_acc. f_equal.
    unfold JS.digits.
    assert (Hlog : Z.log2 (n / radix) + 1 <= Z.log2 n).
    { pose proof (Z.log2_double (n / radix) ltac:(lia)) as Hd.
      assert (Hle : 2 * (n / radix) <= n).
      { pose proof (Z.mul_div_le n radix ltac:(lia)). nia. }
      pose proof (Z.log2_le_mono _ _ Hle). lia. }
    pose proof (Z.log2_nonneg (n / radix)) as Hnn.
    replace (Z.to_nat (Z.log2 n))
      with (S ((Z.to_nat (Z.log2 n) - S (Z.to_nat (Z.log2 (n / radix)))) 
               + Z.to_nat (Z.log2 (n / radix))))%nat by lia.
    symmetry. apply digitsAux_more; [exact Hr |].
    split; [lia |].
    rewrite Nat2Z.inj_succ, Z2Nat.id by lia.
    apply Z.log2_spec. lia.
Qed.

Lemma numberToString16_hex (n : Z) : 0 <= n -> allHex (JS.numberToString 16 n).
Proof.
  intros Hn. unfold JS.numberToString.
  destruct (n <? 0) eqn:E; [apply Z.ltb_lt in E; lia |].
  apply digitsAux_hex. constructor.
Qed.

(** C10.  [Utils.hashString] is total and never negative: for every string
    it returns the absolute value of the hash accumulated in 32 bits, a
    number between 0 and 2^31, and 0 for the empty string; its rendering by
    [toString(16)], the integrity hash of a mock library, is therefore a
    non-empty word of the digits 0-9 and a-f, with no sign. *)
Theorem hashString_nonnegative (s : string) :
  0 <= Utils.hashString s <= 2^31
  /\ Utils.hashString "" = 0
  /\ (exists hash, - 2^31 <= hash < 2^31
                   /\ hash = fold_left Utils.hashStep (JS.codeUnits s) 0
                   /\ Utils.hashString s = Z.abs hash)
  /\ JS.numberToString 16 (Utils.hashString s) <> ""
  /\ allHex (JS.numberToString 16 (Utils.hashString s)).
Proof.
  unfold Utils.hashString.
  pose proof (hashCodes_range (JS.codeUnits s)) as R.
  repeat split; try apply R.
  - exists (fold_left Utils.hashStep (JS.codeUnits s) 0). repeat split.
    + apply hashFold_range. change (2^31) with 2147483648. lia.
    + apply hashFold_range. change (2^31) with 2147483648. lia.
    + apply hashCodes_abs.
  - unfold JS.numberToString.
    destruct (Utils.hashCodes (JS.codeUnits s) <? 0); [discriminate | apply digits_nonempty].
  - apply numberToString16_hex, R.
Qed.

(** ** Bounded histories *)

Lemma unshiftBounded_take {A} (entry : A) (history : list A) :
  unshiftBounded entry history = take 50 (entry :: history).
Proof.
  unfold unshiftBounded.
  destruct (50 <? Z.of_nat (length (entry :: history))) eqn:E; [reflexivity |].
  apply Z.ltb_ge in E. symmetry. apply take_ge. lia.
Qed.

Lemma unshiftBounded_length {A} (entry : A) (history : list A) :
  (length (unshiftBounded entry history) <= 50)%nat.
Proof. rewrite unshiftBounded_take, length_take. lia. Qed.

Lemma unshiftBounded_head {A} (entry : A) (history : list A) :
  head (unshiftBounded entry history) = Some entry.
Proof. rewrite unshiftBounded_take. reflexivity. Qed.

(** C8.  Both histories are bounded to the 50 most recent entries.  For
    every state and every entry, [addToLaunchHistory] leaves the launch
    history equal to the first 50 elements of the new entry followed by the
    old list, and stores that list; [addToHistory] does the same with the
    stored download history and the entry it builds from the download.  In
    both, the new entry is first and the length is at most 50. *)
Theorem histories_bounded (w : World) (launchData : LaunchData) (download : Download) :
  let w1 := snd (GameLauncher.addToLaunchHistory launchData w) in
  let w2 := snd (DownloadManager.addToHistory download w) in
  let stored := match craftlauncher_download_history (localStorage w) with
                | Some h => h
                | None => []
                end in
  let entry := {| history_filename := download_filename download;
                  history_size := download_size download;
                  history_date := shead (clock (chance w));
                  history_status := download_status download |} in
  (launchHistory (gameLauncher w1) = take 50 (launchData :: launchHistory (gameLauncher w))
   /\ head (launchHistory (gameLauncher w1)) = Some launchData
   /\ (length (launchHistory (gameLauncher w1)) <= 50)%nat
   /\ craftlauncher_launch_history (localStorage w1)
      = Some (launchHistory (gameLauncher w1)))
  /\ (exists history,
        craftlauncher_download_history (localStorage w2) = Some history
        /\ history = take 50 (entry :: stored)
        /\ head history = Some entry
        /\ (length history <= 50)%nat).
Proof.
  split.
  - run. repeat split.
    + apply unshiftBounded_take.
    + apply unshiftBounded_head.
    + apply unshiftBounded_length.
  - eexists. run. split; [reflexivity |]. repeat split.
    + apply unshiftBounded_take.
    + apply unshiftBounded_head.
    + apply unshiftBounded_length.
Qed.

(** ** Preconditions of [launchGame] *)

(** A failed precondition changes nothing but the notifications. *)
Lemma launchGame_unauthenticated (w : World) (versionId : string)
      (modLoader serverAddress : option string) :
  fst (AuthManager.isAuthenticated w) = Returned false ->
  GameLauncher.launchGame versionId modLoader serverAddress w
  = (Thrown "User not authenticated",
     with_notifications
       (fun l => l ++ [{| notification_message := "Launch failed: User not authenticated";
                          notification_type := "error" |}]) w).
Proof.
  unfold GameLauncher.launchGame, AuthManager.isAuthenticated. run.
  destruct (currentUser (authManager w)), (authType (authManager w));
    simpl; intros H; try discriminate H; reflexivity.
Qed.

Lemma launchGame_not_installed (w : World) (versionId : string)
      (modLoader serverAddress : option string) :
  fst (AuthManager.isAuthenticated w) = Returned true ->
  versionId ∉ installedVersions (versionManager w) ->
  GameLauncher.launchGame versionId modLoader serverAddress w
  = (Thrown ("Minecraft " +:+ versionId +:+ " is not installed"),
     with_notifications
       (fun l => l ++ [{| notification_message :=
                            "Launch failed: " +:+ ("Minecraft " +:+ versionId +:+ " is not installed");
                          notification_type := "error" |}]) w).
Proof.
  unfold GameLauncher.launchGame, AuthManager.isAuthenticated,
    VersionManager.isVersionInstalled. run.
  intros Ha Hi.
  destruct (currentUser (authManager w)), (authType (authManager w));
    simpl in *; try discriminate Ha.
  rewrite bool_decide_eq_false_2 by exact Hi. reflexivity.
Qed.

(** C9.  [launchGame] checks its preconditions before it changes anything:
    when nobody is signed in, or when the version is not marked installed,
    the call throws (with the message of the first test that fails), the
    launch history has no new entry and the stored process handle is the
    one it was. *)
Theorem launchGame_preconditions (w : World) (versionId : string)
        (modLoader serverAddress : option string) :
  fst (AuthManager.isAuthenticated w) = Returned false
  \/ versionId ∉ installedVersions (versionManager w) ->
  let (result, w') := GameLauncher.launchGame versionId modLoader serverAddress w in
  (exists message, result = Thrown message
     /\ (fst (AuthManager.isAuthenticated w) = Returned false ->
         message = "User not authenticated")
     /\ (fst (AuthManager.isAuthenticated w) = Returned true ->
         message = "Minecraft " +:+ versionId +:+ " is not installed"))
  /\ launchHistory (gameLauncher w') = launchHistory (gameLauncher w)
  /\ gameProcess (gameLauncher w') = gameProcess (gameLauncher w)
  /\ craftlauncher_launch_history (localStorage w')
     = craftlauncher_launch_history (localStorage w).
Proof.
  intros H.
  destruct (fst (AuthManager.isAuthenticated w)) as [[|]|] eqn:Ha.
  - destruct H as [H | H]; [discriminate H |].
    rewrite (launchGame_not_installed w versionId modLoader serverAddress Ha H).
    split; [|repeat split].
    eexists; split; [reflexivity |]. split; [discriminate | reflexivity].
  - rewrite (launchGame_unauthenticated w versionId modLoader serverAddress Ha).
    split; [|repeat split].
    eexists; split; [reflexivity |]. split; [reflexivity | discriminate].
  - unfold AuthManager.isAuthenticated, gets in Ha. simpl in Ha. discriminate Ha.
Qed.

Lemma launchGame_preconditions_witness :
  let w := Sample.world Sample.signedIn ∅ Sample.defaultSettings None in
  let (result, w') := GameLauncher.launchGame "1.20.4" None None w in
  (exists message, result = Thrown message
     /\ (fst (AuthManager.isAuthenticated w) = Returned false ->
         message = "User not authenticated")
     /\ (fst (AuthManager.isAuthenticated w) = Returned true ->
         message = "Minecraft " +:+ "1.20.4" +:+ " is not installed"))
  /\ launchHistory (gameLauncher w') = launchHistory (gameLauncher w)
  /\ gameProcess (gameLauncher w') = gameProcess (gameLauncher w)
  /\ craftlauncher_launch_history (localStorage w')
     = craftlauncher_launch_history (localStorage w).
Proof.
  apply (launchGame_preconditions
           (Sample.world Sample.signedIn ∅ Sample.defaultSettings None)
           "1.20.4" None None).
  right. vm_compute. discriminate.
Defined.

(** ** Version details *)

Section VersionDetailsFacts.
Import VersionManager.

Lemma mapLibraries_run (versionId : string) (libs : list string) (w : World) :
  mapLibraries versionId libs w
  = (Returned (librariesFrom versionId libs (librarySizeDraws (chance w))),
     afterLibraryDraws (length libs) w).
Proof.
  revert w. induction libs as [|lib rest IH]; intros w; simpl.
  - reflexivity.
  - unfold bind at 1. simpl. unfold bind at 1. rewrite IH. reflexivity.
Qed.

Lemma getVersionDetails_run (versionId : string) (version : Version) (w : World) :
  getVersionById (versions (versionManager w)) versionId = Some version ->
  getVersionDetails versionId w
  = (Returned (versionDetailsOf version
                 (librariesFrom (version_id version) baseLibraries
                                (librarySizeDraws (chance w)))),
     afterLibraryDraws (length baseLibraries) w).
Proof.
  intros Hv. unfold getVersionDetails, getMockLibraries.
  unfold bind at 1, gets. rewrite Hv.
  unfold bind. rewrite mapLibraries_run. reflexivity.
Qed.

Lemma getVersionDetails_unknown (versionId : string) (w : World) :
  getVersionById (versions (versionManager w)) versionId = None ->
  getVersionDetails versionId w
  = (Thrown ("Version " +:+ versionId +:+ " not found"), w).
Proof.
  intros Hv. unfold getVersionDetails. unfold bind at 1, gets. rewrite Hv. reflexivity.
Qed.

(** Drawing library sizes changes nothing but the stream of draws. *)
Lemma afterLibraryDraws_frame (n : nat) (w : World) :
  let w' := afterLibraryDraws n w in
  authManager w' = authManager w
  /\ versionManager w' = versionManager w
  /\ downloadManager w' = downloadManager w
  /\ gameLauncher w' = gameLauncher w
  /\ localStorage w' = localStorage w
  /\ platform w' = platform w
  /\ notifications w' = notifications w
  /\ downloadLog w' = downloadLog w
  /\ transfers (chance w') = transfers (chance w)
  /\ launches (chance w') = launches (chance w)
  /\ uuids (chance w') = uuids (chance w)
  /\ clock (chance w') = clock (chance w).
Proof.
  revert w. induction n as [|n IH]; intros w; simpl.
  - repeat split.
  - specialize (IH (snd (nextLibrarySizeDraw w))). simpl in IH. exact IH.
Qed.

Lemma librariesFrom_artifacts (versionId : string) (libs : list string) (draws : Stream Z) :
  length (libraryArtifacts (librariesFrom versionId libs draws)) = length libs.
Proof.
  revert draws. induction libs as [|lib rest IH]; intros draws; simpl.
  - reflexivity.
  - f_equal. apply IH.
Qed.





End VersionDetailsFacts.




(** ** Download size *)

Lemma fold_addLibrarySize (libraries : list Library) (totalSize : Z) :
  fold_left VersionManager.addLibrarySize libraries totalSize
  = totalSize + VersionManager.sum (VersionManager.librarySizes libraries).
Proof.
  revert totalSize. induction libraries as [|lib rest IH]; intros totalSize.
  - simpl. unfold VersionManager.sum. simpl. lia.
  - cbn [fold_left]. rewrite IH.
    unfold VersionManager.addLibrarySize, VersionManager.librarySizes,
      VersionManager.libraryArtifacts.
    cbn [flat_map].
    destruct (library_downloads lib) as [d|]; [destruct (downloads_artifact d) as [a|] |];
      cbn [app map VersionManager.sum fold_right]; unfold VersionManager.sum; lia.
Qed.

Lemma inherited_In (key : string) :
  JS.inherited key = true <-> In key JS.objectPrototypeKeys.
Proof.
  unfold JS.inherited. rewrite existsb_exists. split.
  - intros (k & Hin & Heq). apply String.eqb_eq in Heq. subst k. exact Hin.
  - intros Hin. exists key. split; [exact Hin | apply String.eqb_refl].
Qed.

(** [getModLoaderSizeValue] and [getModLoaderSize] agree on every name
    that is not that of a member of [Object.prototype]; on those names
    the value is the member. *)
Lemma getModLoaderSizeValue_plain (modLoader : string) :
  JS.plainKey modLoader ->
  VersionManager.getModLoaderSizeValue modLoader
  = JS.Num (VersionManager.getModLoaderSize modLoader).
Proof.
  intros Hplain.
  unfold VersionManager.getModLoaderSizeValue, VersionManager.getModLoaderSize,
    JS.lookupOrAny, JS.lookupOr.
  destruct (VersionManager.modLoaderSizes !! modLoader) as [v|]; [reflexivity |].
  destruct (JS.inherited modLoader) eqn:Hi; [| reflexivity].
  apply inherited_In in Hi. destruct (Hplain Hi).
Qed.

Lemma getModLoaderSizeValue_inherited (modLoader : string) :
  In modLoader JS.objectPrototypeKeys ->
  VersionManager.getModLoaderSizeValue modLoader = JS.Member modLoader.
Proof.
  intros Hin. cbn [In JS.objectPrototypeKeys] in Hin.
  repeat (destruct Hin as [<- | Hin]; [vm_compute; reflexivity |]).
  destruct Hin.
Qed.

Lemma getModLoaderSize_table (modLoader : string) :
  VersionManager.getModLoaderSize modLoader
  = if String.eqb modLoader "forge" then 15000000
    else if String.eqb modLoader "fabric" then 5000000
    else if String.eqb modLoader "optifine" then 8000000
    else 0.
Proof.
  unfold VersionManager.getModLoaderSize, JS.lookupOr, VersionManager.modLoaderSizes.
  destruct (String.eqb_spec modLoader "forge") as [-> | Hforge];
    [ vm_compute; reflexivity | ].
  destruct (String.eqb_spec modLoader "fabric") as [-> | Hfabric];
    [ vm_compute; reflexivity | ].
  destruct (String.eqb_spec modLoader "optifine") as [-> | Hoptifine];
    [ vm_compute; reflexivity | ].
  unfold list_to_map. cbn [foldr fst snd].
  rewrite !lookup_insert_ne by congruence. rewrite lookup_empty.
  reflexivity.
Qed.

(** For every version of the catalog and every loader whose name is not
    that of a member of [Object.prototype], and without a loader,
    [calculateDownloadSize] returns the sum of the parts: the size of the
    client binary, the sizes of all library artifacts, the aggregate size
    of the asset bundle and the size of the loader: 15000000 for forge,
    5000000 for fabric, 8000000 for optifine, and nothing for any other
    name or without a loader.  The parts are those of the version details
    that the call itself obtains. *)
Lemma calculateDownloadSize_total
      (w : World) (versionId : string) (modLoader : option string) (version : Version) :
  VersionManager.getVersionById (versions (versionManager w)) versionId = Some version ->
  (forall m, modLoader = Some m -> JS.plainKey m) ->
  exists details w',
    VersionManager.getVersionDetails versionId w = (Returned details, w')
    /\ VersionManager.calculateDownloadSize versionId modLoader w
       = (Returned
            (JS.Total
               (client_size (details_client details)
                + VersionManager.sum (VersionManager.librarySizes (details_libraries details))
                + assetIndex_totalSize (details_assetIndex details)
                + match modLoader with
                  | Some m =>
                      if String.eqb m "forge" then 15000000
                      else if String.eqb m "fabric" then 5000000
                      else if String.eqb m "optifine" then 8000000
                      else 0
                  | None => 0
                  end)),
          w').
Proof.
  intros Hv Hplain.
  pose proof (getVersionDetails_run versionId version w Hv) as Hrun.
  do 2 eexists. split; [exact Hrun |].
  unfold VersionManager.calculateDownloadSize. unfold bind at 1. rewrite Hrun.
  unfold ret. rewrite fold_addLibrarySize.
  destruct modLoader as [m|]; cbn [VersionManager.givenLoader].
  - destruct m as [|c m']; cbn [JS.truthy].
    + cbn [String.eqb]. do 3 f_equal. lia.
    + rewrite (getModLoaderSizeValue_plain _ (Hplain _ eq_refl)).
      rewrite getModLoaderSize_table. reflexivity.
  - do 3 f_equal. lia.
Qed.

(** C6 on the code.  The claim holds for the loaders the table lists and
    for every other ordinary name ([calculateDownloadSize_total]), but not
    for every loader: [sizes[modLoader] || 0] finds a function when the
    name is that of a member of [Object.prototype], and [+=] then
    concatenates.  For version 1.20.4 and the loader [constructor] the
    result is not a number: it is the text of the total without a loader,
    259255635, followed by the text of the function. *)
Theorem calculateDownloadSize_concatenates :
  VersionManager.getVersionById (versions (versionManager Sample.fresh)) "1.20.4"
  = Some Sample.version_1_20_4
  /\ VersionManager.getModLoaderSizeValue "constructor" = JS.Member "constructor"
  /\ fst (VersionManager.calculateDownloadSize "1.20.4" None Sample.fresh)
     = Returned (JS.Total 259255635)
  /\ fst (VersionManager.calculateDownloadSize "1.20.4" (Some "constructor") Sample.fresh)
     = Returned (JS.Text 259255635 "constructor").
Proof. vm_compute. conjs; reflexivity. Qed.

(** ** [Utils.retry] *)

Section RetryFacts.
Context {St A : Type}.
Variable fn : St -> outcome A * St.

(** The run of the loop from round [attempt], when [remaining] rounds are
    left up to [maxAttempts]. *)
Lemma retryLoop_spec (remaining : nat) :
  forall (attempt maxAttempts baseDelay : Z) (s : St),
    attempt + Z.of_nat remaining = maxAttempts + 1 ->
    forall result s' events,
      Utils.retryLoop fn remaining attempt maxAttempts baseDelay s = (result, s', events) ->
      (length (Utils.calls events) <= remaining)%nat
      /\ ((1 <= remaining)%nat -> (1 <= length (Utils.calls events))%nat)
      /\ Utils.waits events
         = map (fun i => baseDelay * 2 ^ (attempt - 1 + Z.of_nat i))
               (seq 0 (length (Utils.calls events) - 1))
      /\ Forall isThrown (removelast (Utils.calls events))
      /\ Forall (fun r => exists s0, r = fst (fn s0)) (Utils.calls events)
      /\ (forall e, result = Thrown e ->
                    length (Utils.calls events) = remaining
                    /\ last (Utils.calls events) = Some (Thrown e))
      /\ (forall a, result = Returned (Some a) ->
                    last (Utils.calls events) = Some (Returned a))
      /\ (result = Returned None -> remaining = O).
Proof.
  induction remaining as [|n IH]; intros attempt maxAttempts baseDelay s Hinv
                                         result s' events Hrun; simpl in Hrun.
  - injection Hrun as <- <- <-. simpl. conjs.
    + lia.
    + intros; lia.
    + reflexivity.
    + constructor.
    + constructor.
    + discriminate.
    + discriminate.
    + reflexivity.
  - destruct (fn s) as [[a|e] s1] eqn:Hfn.
    + injection Hrun as <- <- <-. simpl. conjs.
      * lia.
      * intros; lia.
      * reflexivity.
      * constructor.
      * constructor; [| constructor]. exists s. rewrite Hfn. reflexivity.
      * discriminate.
      * intros a0 Ha0. injection Ha0 as ->. reflexivity.
      * discriminate.
    + destruct (attempt =? maxAttempts) eqn:Hat.
      * apply Z.eqb_eq in Hat. injection Hrun as <- <- <-. simpl. conjs.
        -- lia.
        -- intros; lia.
        -- reflexivity.
        -- constructor.
        -- constructor; [| constructor]. exists s. rewrite Hfn. reflexivity.
        -- intros e0 He0. injection He0 as ->. split; [lia | reflexivity].
        -- discriminate.
        -- discriminate.
      * apply Z.eqb_neq in Hat.
        destruct (Utils.retryLoop fn n (attempt + 1) maxAttempts baseDelay s1)
          as [[r s2] ev] eqn:Hrec.
        injection Hrun as <- <- <-.
        assert (Hinv' : attempt + 1 + Z.of_nat n = maxAttempts + 1) by lia.
        destruct (IH (attempt + 1) maxAttempts baseDelay s1 Hinv' r s2 ev Hrec)
          as (Hlen & Hpos & Hw & Hall & Hfrom & Hthrow & Hret & Hnone).
        assert (Hn : (1 <= n)%nat) by lia.
        specialize (Hpos Hn).
        change (Utils.calls (Utils.Called (Thrown e)
                               :: Utils.Waited (baseDelay * 2 ^ (attempt - 1)) :: ev))
          with (Thrown e :: Utils.calls ev).
        change (Utils.waits (Utils.Called (Thrown e)
                               :: Utils.Waited (baseDelay * 2 ^ (attempt - 1)) :: ev))
          with (baseDelay * 2 ^ (attempt - 1) :: Utils.waits ev).
        destruct (Utils.calls ev) as [|c cs] eqn:Hcs; [simpl in Hpos; lia |].
        conjs.
        -- simpl in *. lia.
        -- intros _. simpl. lia.
        -- rewrite Hw. cbn [length Nat.sub]. rewrite Nat.sub_0_r.
           cbn [seq map]. f_equal.
           ++ f_equal. f_equal. lia.
           ++ rewrite <- seq_shift, map_map. apply map_ext.
              intros i. f_equal. f_equal. lia.
        -- change (removelast (Thrown e :: c :: cs))
             with (Thrown e :: removelast (c :: cs)).
           constructor; [exact I | exact Hall].
        -- constructor; [| exact Hfrom]. exists s. rewrite Hfn. reflexivity.
        -- intros e0 He0. destruct (Hthrow e0 He0) as [H1 H2]. split.
           ++ simpl in *. lia.
           ++ exact H2.
        -- intros a Ha. exact (Hret a Ha).
        -- intros Hr. specialize (Hnone Hr). lia.
Qed.

(** The same for a whole call of [retry]. *)
Lemma retry_spec (maxAttempts baseDelay : Z) (s : St) :
  forall result s' events,
    Utils.retry fn maxAttempts baseDelay s = (result, s', events) ->
    Z.of_nat (length (Utils.calls events)) <= Z.max 0 maxAttempts
    /\ Utils.waits events
       = map (fun i => baseDelay * 2 ^ Z.of_nat i)
             (seq 0 (length (Utils.calls events) - 1))
    /\ Forall isThrown (removelast (Utils.calls events))
    /\ (forall e, result = Thrown e ->
                  Z.of_nat (length (Utils.calls events)) = maxAttempts
                  /\ last (Utils.calls events) = Some (Thrown e))
    /\ (forall a, result = Returned (Some a) ->
                  last (Utils.calls events) = Some (Returned a))
    /\ (result = Returned None -> maxAttempts <= 0)
    /\ ((forall s0, isThrown (fst (fn s0))) -> 1 <= maxAttempts ->
        exists e, result = Thrown e).
Proof.
  intros result s' events Hrun. unfold Utils.retry in Hrun.
  destruct (Z_le_gt_dec maxAttempts 0) as [Hle | Hgt].
  - (* no round at all *)
    assert (Hz : Z.to_nat maxAttempts = O) by lia.
    rewrite Hz in Hrun. simpl in Hrun. injection Hrun as <- <- <-. simpl. conjs.
    + lia.
    + reflexivity.
    + constructor.
    + discriminate.
    + discriminate.
    + intros _. exact Hle.
    + intros _ H. lia.
  - assert (Hinv : 1 + Z.of_nat (Z.to_nat maxAttempts) = maxAttempts + 1) by lia.
    destruct (retryLoop_spec (Z.to_nat maxAttempts) 1 maxAttempts baseDelay s Hinv
                             result s' events Hrun)
      as (Hlen & Hpos & Hw & Hall & Hfrom & Hthrow & Hret & Hnone).
    conjs.
    + lia.
    + rewrite Hw. apply map_ext. intros i.
      replace (1 - 1 + Z.of_nat i) with (Z.of_nat i) by lia. reflexivity.
    + exact Hall.
    + intros e He. destruct (Hthrow e He) as [H1 H2]. split; [lia | exact H2].
    + exact Hret.
    + intros Hr. specialize (Hnone Hr). lia.
    + intros Hfail _. destruct result as [[a|]|e].
      * specialize (Hret a eq_refl).
        apply last_Some in Hret. destruct Hret as [l' Hl'].
        rewrite Forall_forall in Hfrom.
        destruct (Hfrom (Returned a)) as [s0 Hs0].
        { rewrite Hl'. apply elem_of_app. right. constructor. }
        specialize (Hfail s0). rewrite <- Hs0 in Hfail. destruct Hfail.
      * specialize (Hnone eq_refl). lia.
      * exists e. reflexivity.
Qed.

(** The events of the loop in order: the calls, each made from the state
    the call before left, and a wait right after every call but the
    last. *)
Lemma retryLoop_trace (remaining : nat) :
  forall (attempt maxAttempts baseDelay : Z) (s : St),
    attempt + Z.of_nat remaining = maxAttempts + 1 ->
    forall result s' events,
      Utils.retryLoop fn remaining attempt maxAttempts baseDelay s = (result, s', events) ->
      events = backoffTrace baseDelay attempt (Utils.calls events)
      /\ (Utils.calls events, s') = callsFrom fn (length (Utils.calls events)) s.
Proof.
  induction remaining as [|n IH]; intros attempt maxAttempts baseDelay s Hinv
                                         result s' events Hrun; simpl in Hrun.
  - injection Hrun as <- <- <-. split; reflexivity.
  - destruct (fn s) as [[a|e] s1] eqn:Hfn.
    + injection Hrun as <- <- <-. simpl. rewrite Hfn. split; reflexivity.
    + destruct (attempt =? maxAttempts) eqn:Hat.
      * injection Hrun as <- <- <-. simpl. rewrite Hfn. split; reflexivity.
      * apply Z.eqb_neq in Hat.
        destruct (Utils.retryLoop fn n (attempt + 1) maxAttempts baseDelay s1)
          as [[r s2] ev] eqn:Hrec.
        injection Hrun as <- <- <-.
        assert (Hinv' : attempt + 1 + Z.of_nat n = maxAttempts + 1) by lia.
        destruct (IH (attempt + 1) maxAttempts baseDelay s1 Hinv' r s2 ev Hrec)
          as [Htrace Hcalls].
        assert (Hpos : (1 <= length (Utils.calls ev))%nat).
        { destruct n as [|n']; [lia |]. simpl in Hrec.
          destruct (fn s1) as [[a1|e1] s3].
          - injection Hrec as <- <- <-. simpl. lia.
          - destruct (attempt + 1 =? maxAttempts).
            + injection Hrec as <- <- <-. simpl. lia.
            + destruct (Utils.retryLoop fn n' (attempt + 1 + 1) maxAttempts baseDelay s3)
                as [[r' s4] ev'].
              injection Hrec as <- <- <-. simpl. lia. }
        change (Utils.calls (Utils.Called (Thrown e)
                               :: Utils.Waited (baseDelay * 2 ^ (attempt - 1)) :: ev))
          with (Thrown e :: Utils.calls ev).
        cbn [length callsFrom]. rewrite Hfn, <- Hcalls.
        split; [| reflexivity].
        destruct (Utils.calls ev) as [|c cs] eqn:Hcs; [simpl in Hpos; lia |].
        cbn [backoffTrace]. cbn [backoffTrace] in Htrace. rewrite <- Htrace. reflexivity.
Qed.

(** The same for a whole call of [retry]. *)
Lemma retry_trace (maxAttempts baseDelay : Z) (s : St) :
  forall result s' events,
    Utils.retry fn maxAttempts baseDelay s = (result, s', events) ->
    events = backoffTrace baseDelay 1 (Utils.calls events)
    /\ (Utils.calls events, s') = callsFrom fn (length (Utils.calls events)) s.
Proof.
  intros result s' events Hrun. unfold Utils.retry in Hrun.
  destruct (Z_le_gt_dec maxAttempts 0) as [Hle | Hgt].
  - assert (Hz : Z.to_nat maxAttempts = O) by lia.
    rewrite Hz in Hrun. simpl in Hrun. injection Hrun as <- <- <-. split; reflexivity.
  - apply (retryLoop_trace (Z.to_nat maxAttempts) 1 maxAttempts baseDelay s ltac:(lia)
                           result s' events Hrun).
Qed.

End RetryFacts.

(** C7, as stated, fails on the cap: the delay before the next attempt is
    [baseDelay * 2^(attempt - 1)] and nothing bounds it.  Whatever the cap,
    a thunk that keeps failing is made to wait longer than the cap once
    [maxAttempts] is large enough. *)
Lemma retry_delays_exceed_every_cap :
  ~ exists cap : Z,
      forall maxAttempts : Z,
        Forall (fun delay => delay <= cap)
               (Utils.waits (snd (Utils.retry alwaysFails maxAttempts 1000 O))).
Proof.
  intros [cap H].
  specialize (H (Z.abs cap + 2)).
  destruct (Utils.retry alwaysFails (Z.abs cap + 2) 1000 O) as [[r s'] ev] eqn:E.
  destruct (retry_spec alwaysFails (Z.abs cap + 2) 1000 O r s' ev E)
    as (_ & Hw & _ & Hthrow & _ & _ & Hfail).
  destruct Hfail as [e He]; [intros s0; exact I | lia |].
  destruct (Hthrow e He) as [Hlen _].
  simpl in H. rewrite Hw in H. rewrite Forall_forall in H.
  assert (Hin : 1000 * 2 ^ Z.of_nat (Z.to_nat (Z.abs cap))
                ∈ map (fun i => 1000 * 2 ^ Z.of_nat i)
                      (seq 0 (length (Utils.calls ev) - 1))).
  { apply list_elem_of_In, in_map_iff. exists (Z.to_nat (Z.abs cap)).
    split; [reflexivity |]. apply in_seq. lia. }
  specialize (H _ Hin).
  rewrite Z2Nat.id in H by lia.
  pose proof (Z.pow_gt_lin_r 2 (Z.abs cap) ltac:(lia) ltac:(lia)). lia.
Qed.

(** C7, amended.  [retry] calls [fn] at most [maxAttempts] times, each
    time from the state the call before left.  Every call but the last
    has failed, and the failed call number [attempt] is followed at once
    by the wait for [baseDelay * 2^(attempt - 1)]: the base delay, then
    twice that, and so on, without a cap.  The run is these calls and
    waits in turn and ends with the last call.  When it throws, it has
    made exactly [maxAttempts] calls and the error is that of the last
    one; when it returns a value, that value is the result of the last
    call.  A thunk that always fails, tried at least once, ends in the
    rethrown error.  (With [maxAttempts] below 1 there is no call and the
    result is [undefined].)  [maxAttempts] and [baseDelay] are integers
    that the program holds exactly, and with at most 970 attempts every
    delay stays below 2^1024 and is computed exactly. *)
Theorem retry_bounded_uncapped_backoff {St A : Type} (fn : St -> outcome A * St)
        (maxAttempts baseDelay : Z) (s : St) :
  - 2 ^ 53 < maxAttempts <= 970 ->
  JS.isSafeInteger baseDelay ->
  let '(result, s', events) := Utils.retry fn maxAttempts baseDelay s in
  let attempts := Utils.calls events in
  events = backoffTrace baseDelay 1 attempts
  /\ (attempts, s') = callsFrom fn (length attempts) s
  /\ Z.of_nat (length attempts) <= Z.max 0 maxAttempts
  /\ Utils.waits events
     = map (fun i => baseDelay * 2 ^ Z.of_nat i) (seq 0 (length attempts - 1))
  /\ Forall isThrown (removelast attempts)
  /\ (forall e, result = Thrown e ->
                Z.of_nat (length attempts) = maxAttempts
                /\ last attempts = Some (Thrown e))
  /\ (forall a, result = Returned (Some a) -> last attempts = Some (Returned a))
  /\ (result = Returned None -> maxAttempts <= 0)
  /\ ((forall s0, isThrown (fst (fn s0))) -> 1 <= maxAttempts ->
      exists e, result = Thrown e).
Proof.
  intros _ _.
  destruct (Utils.retry fn maxAttempts baseDelay s) as [[result s'] events] eqn:E.
  destruct (retry_trace fn maxAttempts baseDelay s result s' events E) as [Htrace Hcalls].
  split; [exact Htrace |]. split; [exact Hcalls |].
  exact (retry_spec fn maxAttempts baseDelay s result s' events E).
Qed.

Lemma retry_bounded_uncapped_backoff_witness :
  let '(result, s', events) := Utils.retry alwaysFails 3 1000 O in
  let attempts := Utils.calls events in
  events = backoffTrace 1000 1 attempts
  /\ (attempts, s') = callsFrom alwaysFails (length attempts) O
  /\ Z.of_nat (length attempts) <= Z.max 0 3
  /\ Utils.waits events
     = map (fun i => 1000 * 2 ^ Z.of_nat i) (seq 0 (length attempts - 1))
  /\ Forall isThrown (removelast attempts)
  /\ (forall e, result = Thrown e ->
                Z.of_nat (length attempts) = 3
                /\ last attempts = Some (Thrown e))
  /\ (forall a, result = Returned (Some a) -> last attempts = Some (Returned a))
  /\ (result = Returned None -> 3 <= 0)
  /\ ((forall s0, isThrown (fst (alwaysFails s0))) -> 1 <= 3 ->
      exists e, result = Thrown e).
Proof.
  apply (retry_bounded_uncapped_backoff alwaysFails 3 1000 O);
    vm_compute; split; first [reflexivity | discriminate].
Defined.

(** ** Argument templates *)

(** C2 fails on the code.  [replaceArgumentVariables] chains
    [String.prototype.replace] with string patterns, and such a call
    replaces the first occurrence only: in a token that holds the
    player-name placeholder twice, the second one is left in place. *)
Theorem replaceArgumentVariables_first_occurrence_only :
  fst (GameLauncher.replaceArgumentVariables
         "${auth_player_name}:${auth_player_name}" Sample.steve Sample.details
         GameLauncher.getGameDirectory GameLauncher.getAssetsDirectory
         (Sample.configured Sample.defaultSettings))
  = Returned "Steve:${auth_player_name}".
Proof. vm_compute. reflexivity. Qed.

(** A replacement value is itself read as a pattern: [$&] in an access
    token is expanded to the placeholder it replaces. *)
Example replace_expands_dollar_patterns :
  JS.replace "--accessToken=${auth_access_token}" "${auth_access_token}" "a$&b"
  = "--accessToken=a${auth_access_token}b".
Proof. vm_compute. reflexivity. Qed.

(** Scenario E: each placeholder once. *)
Example replaceArgumentVariables_scenario_E :
  fst (GameLauncher.buildGameArguments Sample.steve
         (VersionManager.versionDetailsOf Sample.version_1_20_4 [])
         GameLauncher.getGameDirectory GameLauncher.getAssetsDirectory None
         (Sample.configured Sample.defaultSettings))
  = Returned [ "--username"; "Steve"; "--version"; "1.20.4"; "--gameDir"; ".minecraft";
               "--assetsDir"; ".minecraft/assets"; "--assetIndex"; "7";
               "--uuid"; "u-1"; "--accessToken"; "token"; "--userType"; "legacy";
               "--versionType"; "release"; "--width"; "1280"; "--height"; "720" ].
Proof. vm_compute. reflexivity. Qed.

(** Text without a dollar sign holds no placeholder and is returned as it
    is. *)
Lemma startsWith_dollar (p s : string) :
  ~ In "$"%char (list_ascii_of_string s) -> JS.startsWith (String "$" p) s = false.
Proof.
  destruct s as [|c s]; intros H; cbn [JS.startsWith]; [reflexivity |].
  destruct (Ascii.eqb "$" c) eqn:E; [| reflexivity].
  apply Ascii.eqb_eq in E. subst c. exfalso. apply H. left. reflexivity.
Qed.

Lemma cutAtFirst_dollar (p s : string) :
  ~ In "$"%char (list_ascii_of_string s) -> JS.cutAtFirst (String "$" p) s = None.
Proof.
  induction s as [|c s IH]; intros H.
  - reflexivity.
  - cbn [JS.cutAtFirst]. rewrite (startsWith_dollar p (String c s) H).
    rewrite IH; [reflexivity |]. intros Hin. apply H. right. exact Hin.
Qed.

Lemma replace_dollar (p s v : string) :
  ~ In "$"%char (list_ascii_of_string s) -> JS.replace s (String "$" p) v = s.
Proof. intros H. unfold JS.replace. rewrite (cutAtFirst_dollar p s H). reflexivity. Qed.

Lemma replaceArgumentVariables_literal (arg : string) (user : User)
      (versionDetails : VersionDetails) (gameDirectory assetsDirectory : string)
      (w : World) :
  ~ In "$"%char (list_ascii_of_string arg) ->
  GameLauncher.replaceArgumentVariables arg user versionDetails
                                        gameDirectory assetsDirectory w
  = (Returned arg, w).
Proof.
  intros H. unfold GameLauncher.replaceArgumentVariables, GameLauncher.getUserType,
              AuthManager.getAuthType.
  unfold bind, gets, ret. cbv zeta.
  destruct (authType (authManager w)) as [t|];
    [destruct (String.eqb t "microsoft" || String.eqb t "mojang") |];
    rewrite !(replace_dollar _ arg _ H); reflexivity.
Qed.

(** The substitution always returns and leaves the state alone. *)
Lemma replaceArgumentVariables_returns (arg : string) (user : User)
      (versionDetails : VersionDetails) (gameDirectory assetsDirectory : string)
      (w : World) :
  exists replaced,
    GameLauncher.replaceArgumentVariables arg user versionDetails
                                          gameDirectory assetsDirectory w
    = (Returned replaced, w).
Proof.
  unfold GameLauncher.replaceArgumentVariables, GameLauncher.getUserType,
    AuthManager.getAuthType.
  unfold bind, gets, ret. cbv zeta.
  destruct (authType (authManager w)) as [t|];
    [destruct (String.eqb t "microsoft" || String.eqb t "mojang") |];
    eexists; reflexivity.
Qed.

(** ** JVM arguments *)

Lemma truthy_revStr (s acc : string) :
  JS.truthy (JS.revStr s acc) = JS.truthy s || JS.truthy acc.
Proof.
  revert acc. induction s as [|c s IH]; intros acc; simpl.
  - reflexivity.
  - rewrite IH. simpl. apply orb_true_r.
Qed.

Lemma hasInk_revStr (s acc : string) :
  hasInk (JS.revStr s acc) = hasInk s || hasInk acc.
Proof.
  revert acc. induction s as [|c s IH]; intros acc.
  - reflexivity.
  - cbn [JS.revStr]. rewrite IH. unfold hasInk. cbn [list_ascii_of_string existsb].
    destruct (negb (JS.isWhiteSpace c)), (existsb _ (list_ascii_of_string s)); reflexivity.
Qed.

Lemma truthy_trimStart (s : string) : JS.truthy (JS.trimStart s) = hasInk s.
Proof.
  induction s as [|c s IH]; [reflexivity |].
  unfold hasInk. cbn [JS.trimStart list_ascii_of_string existsb].
  destruct (JS.isWhiteSpace c); [exact IH | reflexivity].
Qed.

Lemma hasInk_trimStart (s : string) : hasInk (JS.trimStart s) = hasInk s.
Proof.
  induction s as [|c s IH]; [reflexivity |].
  cbn [JS.trimStart]. destruct (JS.isWhiteSpace c) eqn:E; [| reflexivity].
  rewrite IH. unfold hasInk. cbn [list_ascii_of_string existsb]. rewrite E. reflexivity.
Qed.

(** [arg.trim()] is truthy exactly when [arg] has a character that is not
    white space. *)
Lemma truthy_trim (s : string) : JS.truthy (JS.trim s) = hasInk s.
Proof.
  unfold JS.trim. rewrite truthy_revStr, truthy_trimStart, hasInk_revStr,
    hasInk_trimStart. simpl. rewrite !orb_false_r. reflexivity.
Qed.

Lemma customJVMArguments_filter (flags : string) :
  GameLauncher.customJVMArguments flags = List.filter hasInk (JS.split " " flags).
Proof.
  unfold GameLauncher.customJVMArguments. destruct flags as [|c flags].
  - reflexivity.
  - cbn [JS.truthy]. apply filter_ext. intros arg. apply truthy_trim.
Qed.

(** The pieces of a split hold no separator, and only characters of the
    text. *)
Lemma split_piece_chars (sep : ascii) (s piece : string) (c : ascii) :
  In piece (JS.split sep s) -> In c (list_ascii_of_string piece) ->
  In c (list_ascii_of_string s) /\ c <> sep.
Proof.
  revert piece. induction s as [|a s IH]; intros piece Hp Hc.
  - simpl in Hp. destruct Hp as [<- | []]. destruct Hc.
  - cbn [JS.split] in Hp. destruct (Ascii.eqb a sep) eqn:E.
    + destruct Hp as [<- | Hp]; [destruct Hc |].
      destruct (IH piece Hp Hc) as [H1 H2]. split; [right; exact H1 | exact H2].
    + apply Ascii.eqb_neq in E.
      destruct (JS.split sep s) as [|first rest] eqn:Es.
      * destruct Hp as [<- | []]. destruct Hc as [<- | []].
        split; [left; reflexivity | exact E].
      * destruct Hp as [<- | Hp].
        -- destruct Hc as [<- | Hc]; [split; [left; reflexivity | exact E] |].
           destruct (IH first (or_introl eq_refl) Hc) as [H1 H2].
           split; [right; exact H1 | exact H2].
        -- destruct (IH piece (or_intror Hp) Hc) as [H1 H2].
           split; [right; exact H1 | exact H2].
Qed.

(** When the space is the only white space in the text, splitting on
    spaces and dropping the blank pieces is splitting on white space. *)
Lemma customJVMArguments_spaces_only (flags : string) :
  (forall c, In c (list_ascii_of_string flags) -> JS.isWhiteSpace c = true -> c = " "%char) ->
  GameLauncher.customJVMArguments flags = splitOnWhitespace flags.
Proof.
  intros Hws. rewrite customJVMArguments_filter. unfold splitOnWhitespace.
  assert (Hpieces : piecesOnWhitespace flags = JS.split " " flags).
  { clear -Hws. induction flags as [|a s IH]; [reflexivity |].
    cbn [piecesOnWhitespace JS.split].
    assert (Ha : JS.isWhiteSpace a = Ascii.eqb a " ").
    { destruct (JS.isWhiteSpace a) eqn:E.
      - rewrite (Hws a (or_introl eq_refl) E). reflexivity.
      - destruct (Ascii.eqb a " ") eqn:E'; [| reflexivity].
        apply Ascii.eqb_eq in E'. subst a. discriminate E. }
    rewrite Ha, IH; [reflexivity |].
    intros c Hc. apply Hws. right. exact Hc. }
  rewrite Hpieces. apply filter_ext_in. intros piece Hp.
  destruct piece as [|c piece]; [reflexivity |].
  unfold hasInk. cbn [list_ascii_of_string existsb JS.truthy].
  destruct (split_piece_chars " " flags (String c piece) c Hp (or_introl eq_refl))
    as [Hin Hsep].
  destruct (JS.isWhiteSpace c) eqn:E; [| reflexivity].
  exfalso. apply Hsep. apply Hws; assumption.
Qed.

(** C4, as stated, fails on the separator: the flags are split on the
    space character alone.  A tab between two flags leaves them in one
    argument, where a split on white space gives two. *)
Lemma buildJVMArguments_tab_does_not_split :
  let w := Sample.configured (Sample.settings 1024 1280 720 Sample.tabbedFlags) in
  splitOnWhitespace Sample.tabbedFlags = ["-Xa"; "-Xb"]
  /\ fst (GameLauncher.buildJVMArguments w)
     = Returned [ "-Xmx1024M"; "-Xms512M"; Sample.tabbedFlags;
                  "-Djava.library.path=natives";
                  "-Dminecraft.launcher.brand=CraftLauncher";
                  "-Dminecraft.launcher.version=1.0.0" ]
  /\ fst (GameLauncher.buildJVMArguments w)
     <> Returned ([ "-Xmx1024M"; "-Xms512M" ]
                  ++ splitOnWhitespace Sample.tabbedFlags
                  ++ GameLauncher.systemProperties).
Proof.
  cbv zeta. split; [vm_compute; reflexivity |].
  split; [vm_compute; reflexivity |].
  vm_compute. discriminate.
Qed.

(** C4, amended.  For every settings record the JVM arguments are, in
    order: the maximum-memory flag [-Xmx<memory>M]; the minimum-memory flag
    [-Xms<min(512, memory)>M]; the free-form flags split on the space
    character, without the pieces that are empty or all white space; and
    the three fixed launcher properties.  With 1024 MB the memory flags are
    [-Xmx1024M] and [-Xms512M], with 256 MB the second is [-Xms256M].  When
    the flags hold no white space but spaces, the split is the split on
    white space. *)
Theorem buildJVMArguments_layout (w : World) :
  let settings := gameSettings (gameLauncher w) in
  GameLauncher.buildJVMArguments w
  = (Returned ([ "-Xmx" +:+ JS.str (ramAllocation settings) +:+ "M";
                 "-Xms" +:+ JS.str (Z.min 512 (ramAllocation settings)) +:+ "M" ]
               ++ List.filter hasInk (JS.split " " (jvmArgs settings))
               ++ [ "-Djava.library.path=natives";
                    "-Dminecraft.launcher.brand=CraftLauncher";
                    "-Dminecraft.launcher.version=1.0.0" ]),
     w)
  /\ (ramAllocation settings = 1024 ->
      take 2 (GameLauncher.jvmArgumentsOf settings) = ["-Xmx1024M"; "-Xms512M"])
  /\ (ramAllocation settings = 256 ->
      take 2 (GameLauncher.jvmArgumentsOf settings) = ["-Xmx256M"; "-Xms256M"])
  /\ ((forall c, In c (list_ascii_of_string (jvmArgs settings)) ->
                 JS.isWhiteSpace c = true -> c = " "%char) ->
      List.filter hasInk (JS.split " " (jvmArgs settings))
      = splitOnWhitespace (jvmArgs settings)).
Proof.
  cbv zeta. conjs.
  - unfold GameLauncher.buildJVMArguments, gets, GameLauncher.jvmArgumentsOf.
    rewrite customJVMArguments_filter. reflexivity.
  - intros H. unfold GameLauncher.jvmArgumentsOf. rewrite H. reflexivity.
  - intros H. unfold GameLauncher.jvmArgumentsOf. rewrite H. reflexivity.
  - intros H. rewrite <- customJVMArguments_filter.
    apply customJVMArguments_spaces_only, H.
Qed.

(** ** Launch parameters *)

Lemma pushEach_returns {A} (f : A -> M (list string)) (items : list A) (w : World) :
  (forall x, exists pushed, f x w = (Returned pushed, w)) ->
  exists args, GameLauncher.pushEach f items w = (Returned args, w).
Proof.
  intros Hf. induction items as [|x rest IH].
  - eexists. reflexivity.
  - destruct (Hf x) as [pushed Hx]. destruct IH as [more Hrest].
    exists (pushed ++ more). cbn [GameLauncher.pushEach].
    unfold bind at 1. rewrite Hx. unfold bind at 1. rewrite Hrest. reflexivity.
Qed.

Lemma buildGameArguments_returns (user : User) (versionDetails : VersionDetails)
      (gameDirectory assetsDirectory : string) (serverAddress : option string)
      (w : World) :
  exists templated,
    GameLauncher.buildGameArguments user versionDetails gameDirectory
                                    assetsDirectory serverAddress w
    = (Returned (templated
                 ++ ["--width"; JS.str (resolutionWidth (gameSettings (gameLauncher w)))]
                 ++ ["--height"; JS.str (resolutionHeight (gameSettings (gameLauncher w)))]
                 ++ GameLauncher.serverArguments serverAddress),
       w).
Proof.
  unfold GameLauncher.buildGameArguments.
  assert (Hsub : forall arg, exists pushed,
             (replaced <- GameLauncher.replaceArgumentVariables
                            arg user versionDetails gameDirectory assetsDirectory ;;
              ret [replaced]) w = (Returned pushed, w)).
  { intros arg.
    destruct (replaceArgumentVariables_returns arg user versionDetails
                gameDirectory assetsDirectory w) as [replaced Hr].
    exists [replaced]. unfold bind. rewrite Hr. reflexivity. }
  assert (Htemplated : exists templated,
             (if JS.truthy (details_minecraftArguments versionDetails)
              then GameLauncher.pushEach
                     (fun arg =>
                        replaced <- GameLauncher.replaceArgumentVariables
                                      arg user versionDetails gameDirectory assetsDirectory ;;
                        ret [replaced])
                     (JS.split " " (details_minecraftArguments versionDetails))
              else match details_arguments_game versionDetails with
                   | Some game =>
                       GameLauncher.pushEach
                         (fun arg =>
                            match arg with
                            | ArgString a =>
                                replaced <- GameLauncher.replaceArgumentVariables
                                              a user versionDetails gameDirectory
                                              assetsDirectory ;;
                                ret [replaced]
                            | ArgRule => ret []
                            end) game
                   | None => ret []
                   end) w = (Returned templated, w)).
  { destruct (JS.truthy (details_minecraftArguments versionDetails)).
    - apply pushEach_returns. exact Hsub.
    - destruct (details_arguments_game versionDetails) as [game|].
      + apply pushEach_returns. intros [a|]; [apply Hsub | eexists; reflexivity].
      + eexists. reflexivity. }
  destruct Htemplated as [templated Ht]. exists templated.
  unfold bind at 1. rewrite Ht. reflexivity.
Qed.

(** [prepareLaunchParameters] always returns, and changes nothing. *)
Lemma prepareLaunchParameters_returns (user : User) (versionDetails : VersionDetails)
      (modLoader serverAddress : option string) (w : World) :
  exists params templated,
    GameLauncher.prepareLaunchParameters user versionDetails modLoader serverAddress w
    = (Returned params, w)
    /\ params_mainClass params = details_mainClass versionDetails
    /\ params_jvmArgs params = GameLauncher.jvmArgumentsOf (gameSettings (gameLauncher w))
    /\ params_gameArgs params
       = templated
         ++ ["--width"; JS.str (resolutionWidth (gameSettings (gameLauncher w)))]
         ++ ["--height"; JS.str (resolutionHeight (gameSettings (gameLauncher w)))]
         ++ GameLauncher.serverArguments serverAddress.
Proof.
  destruct (buildGameArguments_returns user versionDetails GameLauncher.getGameDirectory
              GameLauncher.getAssetsDirectory serverAddress w) as [templated Hg].
  eexists. exists templated.
  unfold GameLauncher.prepareLaunchParameters. cbv zeta.
  unfold GameLauncher.buildClasspath, GameLauncher.getPathSeparator,
    GameLauncher.buildJVMArguments.
  unfold bind at 1. unfold bind at 1. unfold gets at 1. unfold ret at 1.
  unfold bind at 1. unfold gets at 1.
  unfold bind at 1. rewrite Hg. unfold ret.
  split; [reflexivity |]. cbn [params_mainClass params_jvmArgs params_gameArgs].
  conjs; reflexivity.
Qed.

(** C5, as stated, fails: no numeric setting is checked.  With 0 MB of
    memory, a width of -1 and a height of 0 the build returns a launch
    invocation that carries these values in its flags. *)
Lemma prepareLaunchParameters_accepts_nonpositive_settings :
  let w := Sample.configured (Sample.settings 0 (-1) 0 "") in
  exists params,
    fst (GameLauncher.prepareLaunchParameters Sample.steve Sample.details None None w)
    = Returned params
    /\ params_jvmArgs params
       = [ "-Xmx0M"; "-Xms0M"; "-Djava.library.path=natives";
           "-Dminecraft.launcher.brand=CraftLauncher";
           "-Dminecraft.launcher.version=1.0.0" ]
    /\ skipn 18 (params_gameArgs params) = ["--width"; "-1"; "--height"; "0"].
Proof.
  cbv zeta. eexists. split; [vm_compute; reflexivity |].
  split; vm_compute; reflexivity.
Qed.

(** C5, amended.  Building launch parameters does not check the sign of
    a setting: for every settings record whose memory size, width and
    height are integers, zero and negative ones included,
    [prepareLaunchParameters] returns a launch invocation and does not
    throw.  The invocation carries the numbers as they are, in the memory
    flags and after [--width] and [--height]. *)
Theorem prepareLaunchParameters_never_rejects_settings
        (user : User) (versionDetails : VersionDetails)
        (modLoader serverAddress : option string) (w : World) :
  let settings := gameSettings (gameLauncher w) in
  JS.isSafeInteger (ramAllocation settings) ->
  JS.isSafeInteger (resolutionWidth settings) ->
  JS.isSafeInteger (resolutionHeight settings) ->
  exists params templated,
    GameLauncher.prepareLaunchParameters user versionDetails modLoader serverAddress w
    = (Returned params, w)
    /\ params_jvmArgs params
       = [ "-Xmx" +:+ JS.str (ramAllocation settings) +:+ "M";
           "-Xms" +:+ JS.str (Z.min 512 (ramAllocation settings)) +:+ "M" ]
         ++ GameLauncher.customJVMArguments (jvmArgs settings)
         ++ GameLauncher.systemProperties
    /\ params_gameArgs params
       = templated
         ++ ["--width"; JS.str (resolutionWidth settings)]
         ++ ["--height"; JS.str (resolutionHeight settings)]
         ++ GameLauncher.serverArguments serverAddress.
Proof.
  cbv zeta. intros _ _ _.
  destruct (prepareLaunchParameters_returns user versionDetails modLoader serverAddress w)
    as (params & templated & Hrun & _ & Hjvm & Hgame).
  exists params, templated. conjs; [exact Hrun | exact Hjvm | exact Hgame].
Qed.

Lemma prepareLaunchParameters_never_rejects_settings_witness :
  let w := Sample.configured (Sample.settings (-2048) 0 (-600) "-Xss1M") in
  let settings := gameSettings (gameLauncher w) in
  exists params templated,
    GameLauncher.prepareLaunchParameters Sample.steve Sample.details None None w
    = (Returned params, w)
    /\ params_jvmArgs params
       = [ "-Xmx" +:+ JS.str (ramAllocation settings) +:+ "M";
           "-Xms" +:+ JS.str (Z.min 512 (ramAllocation settings)) +:+ "M" ]
         ++ GameLauncher.customJVMArguments (jvmArgs settings)
         ++ GameLauncher.systemProperties
    /\ params_gameArgs params
       = templated
         ++ ["--width"; JS.str (resolutionWidth settings)]
         ++ ["--height"; JS.str (resolutionHeight settings)]
         ++ GameLauncher.serverArguments None.
Proof.
  apply (prepareLaunchParameters_never_rejects_settings
           Sample.steve Sample.details None None
           (Sample.configured (Sample.settings (-2048) 0 (-600) "-Xss1M")));
    vm_compute; split; reflexivity.
Defined.

(** ** Downloads *)

Lemma bind_showNotification {A} (message type : string) (k : M A) (w : World) :
  (showNotification message type ;;; k) w
  = k (with_notifications
         (fun l => l ++ [{| notification_message := message;
                            notification_type := type |}]) w).
Proof. reflexivity. Qed.

(** One call of [downloadFile]: it takes the next transfer; the download
    ends in the log as completed or as failed; nothing else that the
    statements below look at is touched. *)
Lemma downloadFile_spec (url filename : string) (w : World) :
  forall r w', DownloadManager.downloadFile url filename w = (r, w') ->
    transfers (chance w') = stail (transfers (chance w))
    /\ versionManager w' = versionManager w
    /\ notifications w' = notifications w
    /\ (if transfer_fails (shead (transfers (chance w)))
        then r = Thrown "Download failed: Network error"
             /\ map logged (downloadLog w') = map logged (downloadLog w) ++ [(filename, failed)]
             /\ downloadStats (downloadManager w') = downloadStats (downloadManager w)
        else (exists d, r = Returned d
                        /\ download_filename d = filename
                        /\ download_status d = completed)
             /\ map logged (downloadLog w') = map logged (downloadLog w) ++ [(filename, completed)]
             /\ totalFiles (downloadStats (downloadManager w'))
                = totalFiles (downloadStats (downloadManager w)) + 1).
Proof.
  intros r w'. unfold DownloadManager.downloadFile, DownloadManager.simulateDownload.
  run. destruct (transfer_fails (shead (transfers (chance w)))); simpl;
    intros H; injection H as <- <-; simpl; conjs; try reflexivity.
  - rewrite map_app. reflexivity.
  - eexists. conjs; reflexivity.
  - rewrite map_app. reflexivity.
Qed.

(** The loop over the libraries stops at the first transfer that fails. *)
Lemma downloadLibraries_spec (libraries : list Library) :
  forall (w : World) r w',
    forEachM DownloadManager.downloadLibrary libraries w = (r, w') ->
    let files := map artifact_path (VersionManager.libraryArtifacts libraries) in
    versionManager w' = versionManager w
    /\ notifications w' = notifications w
    /\ match firstFailure (length files) (transfers (chance w)) with
       | Some k =>
           r = Thrown "Download failed: Network error"
           /\ map logged (downloadLog w')
              = map logged (downloadLog w)
                ++ map (fun f => (f, completed)) (take k files)
                ++ [(nth k files "", failed)]
       | None =>
           r = Returned tt
           /\ map logged (downloadLog w')
              = map logged (downloadLog w) ++ map (fun f => (f, completed)) files
       end.
Proof.
  induction libraries as [|library rest IH]; intros w r w' Hrun.
  - simpl in Hrun. injection Hrun as <- <-. simpl. conjs; try reflexivity.
    rewrite app_nil_r. reflexivity.
  - cbn [forEachM] in Hrun. unfold bind at 1 in Hrun.
    unfold VersionManager.libraryArtifacts. cbn [flat_map].
    fold (VersionManager.libraryArtifacts rest).
    unfold DownloadManager.downloadLibrary in Hrun at 1.
    destruct (library_downloads library) as [d|];
      [destruct (downloads_artifact d) as [artifact|] |];
      try (cbn [app]; apply (IH w r w' Hrun)).
    cbn [app map length firstFailure].
    unfold bind at 1 in Hrun.
    destruct (DownloadManager.downloadFile (artifact_url artifact)
                                           (artifact_path artifact) w)
      as [r1 w1] eqn:E1.
    destruct (downloadFile_spec _ _ w r1 w1 E1) as (Ht & Hvm & Hn & Hcase).
    destruct (transfer_fails (shead (transfers (chance w)))).
    + destruct Hcase as (-> & Hlog & _). injection Hrun as <- <-.
      conjs; [exact Hvm | exact Hn | reflexivity | exact Hlog].
    + destruct Hcase as ((dl & -> & _) & Hlog & _).
      unfold ret at 1 in Hrun.
      destruct (IH w1 r w' Hrun) as (Hvm' & Hn' & Hrest).
      rewrite Ht in Hrest.
      conjs; [congruence | congruence |].
      destruct (firstFailure
                  (length (map artifact_path (VersionManager.libraryArtifacts rest)))
                  (stail (transfers (chance w)))) as [k|]; cbn [option_map].
      * destruct Hrest as [-> Hlog']. split; [reflexivity |].
        rewrite Hlog', Hlog. cbn [take firstn map nth]. rewrite <- !app_assoc. reflexivity.
      * destruct Hrest as [-> Hlog']. split; [reflexivity |].
        rewrite Hlog', Hlog. cbn [map]. rewrite <- !app_assoc. reflexivity.
Qed.

(** *** Rules for [post] *)

Lemma post_run {A} (m : M A) (w : World) (Q : outcome A -> World -> Prop)
      (r : outcome A) (w' : World) :
  m w = (r, w') -> Q r w' -> post m w Q.
Proof. intros E H. unfold post. rewrite E. exact H. Qed.

Lemma post_ret {A} (a : A) (w : World) (Q : outcome A -> World -> Prop) :
  Q (Returned a) w -> post (ret a) w Q.
Proof. intros H. exact H. Qed.

Lemma post_throw {A} (message : string) (w : World) (Q : outcome A -> World -> Prop) :
  Q (Thrown message) w -> post (throw message) w Q.
Proof. intros H. exact H. Qed.

Lemma post_modify (f : World -> World) (w : World) (Q : outcome unit -> World -> Prop) :
  Q (Returned tt) (f w) -> post (modify f) w Q.
Proof. intros H. exact H. Qed.

Lemma post_showNotification (message type : string) (w : World)
      (Q : outcome unit -> World -> Prop) :
  Q (Returned tt)
    (with_notifications
       (fun l => l ++ [{| notification_message := message;
                          notification_type := type |}]) w) ->
  post (showNotification message type) w Q.
Proof. intros H. exact H. Qed.

Lemma post_bind {A B} (m : M A) (k : A -> M B) (w : World)
      (Q : outcome B -> World -> Prop) :
  post m w (fun r w1 => match r with
                        | Returned a => post (k a) w1 Q
                        | Thrown e => Q (Thrown e) w1
                        end) ->
  post (bind m k) w Q.
Proof.
  unfold post, bind. destruct (m w) as [[a|e] w1]; cbn [fst snd]; intros H; exact H.
Qed.

Lemma post_tryCatch {A} (body : M A) (handler : string -> M A) (w : World)
      (Q : outcome A -> World -> Prop) :
  post body w (fun r w1 => match r with
                           | Returned a => Q (Returned a) w1
                           | Thrown e => post (handler e) w1 Q
                           end) ->
  post (tryCatch body handler) w Q.
Proof.
  unfold post, tryCatch. destruct (body w) as [[a|e] w1]; cbn [fst snd]; intros H; exact H.
Qed.

Lemma post_conseq {A} (m : M A) (w : World) (Q Q' : outcome A -> World -> Prop) :
  post m w Q -> (forall r w', Q r w' -> Q' r w') -> post m w Q'.
Proof. unfold post. intros H HQ. apply HQ, H. Qed.

Lemma downloadFile_post (url filename : string) (w : World) :
  post (DownloadManager.downloadFile url filename) w
       (fun r w' =>
          transfers (chance w') = stail (transfers (chance w))
          /\ versionManager w' = versionManager w
          /\ notifications w' = notifications w
          /\ (if transfer_fails (shead (transfers (chance w)))
              then r = Thrown "Download failed: Network error"
                   /\ map logged (downloadLog w')
                      = map logged (downloadLog w) ++ [(filename, failed)]
                   /\ downloadStats (downloadManager w') = downloadStats (downloadManager w)
              else (exists d, r = Returned d
                              /\ download_filename d = filename
                              /\ download_status d = completed)
                   /\ map logged (downloadLog w')
                      = map logged (downloadLog w) ++ [(filename, completed)]
                   /\ totalFiles (downloadStats (downloadManager w'))
                      = totalFiles (downloadStats (downloadManager w)) + 1)).
Proof.
  unfold post.
  destruct (DownloadManager.downloadFile url filename w) as [r w'] eqn:E.
  exact (downloadFile_spec url filename w r w' E).
Qed.

Lemma downloadLibraries_post (libraries : list Library) (w : World) :
  post (forEachM DownloadManager.downloadLibrary libraries) w
       (fun r w' =>
          versionManager w' = versionManager w
          /\ notifications w' = notifications w
          /\ match firstFailure
                     (length (map artifact_path (VersionManager.libraryArtifacts libraries)))
                     (transfers (chance w)) with
             | Some k =>
                 r = Thrown "Download failed: Network error"
                 /\ map logged (downloadLog w')
                    = map logged (downloadLog w)
                      ++ map (fun f => (f, completed))
                             (take k (map artifact_path
                                          (VersionManager.libraryArtifacts libraries)))
                      ++ [(nth k (map artifact_path
                                      (VersionManager.libraryArtifacts libraries)) "",
                           failed)]
             | None =>
                 r = Returned tt
                 /\ map logged (downloadLog w')
                    = map logged (downloadLog w)
                      ++ map (fun f => (f, completed))
                             (map artifact_path (VersionManager.libraryArtifacts libraries))
             end).
Proof.
  unfold post.
  destruct (forEachM DownloadManager.downloadLibrary libraries w) as [r w'] eqn:E.
  exact (downloadLibraries_spec libraries w r w' E).
Qed.
(** The whole of [downloadVersion]. *)
Lemma downloadVersion_post (w : World) (versionId : string) (modLoader : option string)
      (version : Version) :
  VersionManager.getVersionById (versions (versionManager w)) versionId = Some version ->
  let details :=
    VersionManager.versionDetailsOf version
      (VersionManager.librariesFrom (version_id version) VersionManager.baseLibraries
                                    (librarySizeDraws (chance w))) in
  let files := filesOf versionId details in
  post (DownloadManager.downloadVersion versionId modLoader) w
    (fun result w' =>
       match firstFailure (length files) (transfers (chance w)) with
       | Some k =>
           result = Thrown "Download failed: Network error"
           /\ map logged (downloadLog w')
              = map logged (downloadLog w)
                ++ map (fun f => (f, completed)) (take k files)
                ++ [(nth k files "", failed)]
           /\ installedVersions (versionManager w') = installedVersions (versionManager w)
           /\ notifications w'
              = notifications w
                ++ [note "info" ("Downloading Minecraft " +:+ versionId +:+ "...")]
                ++ match k with
                   | O => []
                   | S _ => [note "info" "Downloading libraries..."]
                   end
                ++ [note "error" "Download failed: Download failed: Network error"]
       | None =>
           (forall m, modLoader = Some m -> JS.plainKey m) ->
           result = Returned true
           /\ map logged (downloadLog w')
              = map logged (downloadLog w) ++ map (fun f => (f, completed)) files
           /\ installedVersions (versionManager w')
              = {[ versionId ]} ∪ installedVersions (versionManager w)
           /\ notifications w'
              = notifications w
                ++ [note "info" ("Downloading Minecraft " +:+ versionId +:+ "...");
                    note "info" "Downloading libraries...";
                    note "info" "Downloading game assets..."]
                ++ match modLoader with
                   | Some m => if JS.truthy m
                               then [note "info" ("Downloading " +:+ m +:+ "...")]
                               else []
                   | None => []
                   end
                ++ [note "success"
                         ("Minecraft " +:+ versionId +:+ " downloaded successfully!")]
       end).
Proof.
  intros Hv details files.
  destruct (afterLibraryDraws_frame (length VersionManager.baseLibraries) w)
    as (_ & Hvm0 & _ & _ & _ & _ & Hn0 & Hlog0 & Ht0 & _).
  unfold DownloadManager.downloadVersion.
  apply post_bind.
  eapply post_run; [exact (getVersionDetails_run versionId version w Hv) |].
  fold details.
  set (w0 := VersionManager.afterLibraryDraws (length VersionManager.baseLibraries) w) in *.
  apply post_tryCatch.
  apply post_bind. apply post_showNotification.
  apply post_bind.
  eapply post_conseq; [apply downloadFile_post |].
  intros r2 w2 (Ht2 & Hvm2 & Hn2 & Hcase).
  projections_in Ht2. projections_in Hvm2. projections_in Hn2. projections_in Hcase.
  rewrite Ht0 in Ht2, Hcase. rewrite Hlog0 in Hcase. rewrite Hvm0 in Hvm2.
  rewrite Hn0 in Hn2.
  unfold files, filesOf. cbn [length firstFailure].
  destruct (transfer_fails (shead (transfers (chance w)))).
  - destruct Hcase as (-> & Hlog2 & _).
    apply post_bind, post_showNotification, post_throw.
    cbn [take firstn map nth app]. projections.
    conjs; [reflexivity | exact Hlog2 | rewrite Hvm2; reflexivity
            | rewrite Hn2, <- app_assoc; reflexivity].
  - destruct Hcase as ((dl & -> & _) & Hlog2 & _).
    apply post_bind, post_showNotification.
    apply post_bind.
    eapply post_conseq; [apply downloadLibraries_post |].
    intros r4 w4 (Hvm4 & Hn4 & Hcase4).
    projections_in Hvm4. projections_in Hn4. projections_in Hcase4.
    rewrite Ht2 in Hcase4. rewrite length_map in Hcase4 |- *.
    destruct (firstFailure
                (length (VersionManager.libraryArtifacts (details_libraries details)))
                (stail (transfers (chance w)))) as [k|]; cbn [option_map].
    + destruct Hcase4 as [-> Hlog4].
      apply post_bind, post_showNotification, post_throw.
      cbn [take firstn map nth]. projections.
      conjs.
      * reflexivity.
      * rewrite Hlog4, Hlog2. rewrite <- !app_assoc. reflexivity.
      * rewrite Hvm4, Hvm2. reflexivity.
      * rewrite Hn4, Hn2, <- !app_assoc. reflexivity.
    + destruct Hcase4 as [-> Hlog4].
      apply post_bind, post_showNotification.
      apply post_bind. unfold DownloadManager.downloadAssets. apply post_ret.
      apply post_bind.
      assert (Hloader : forall (w5 : World) (Q : outcome unit -> World -> Prop),
                 (forall w6, versionManager w6 = versionManager w5 ->
                             downloadLog w6 = downloadLog w5 ->
                             notifications w6
                             = notifications w5
                               ++ match modLoader with
                                  | Some m =>
                                      if JS.truthy m
                                      then [note "info" ("Downloading " +:+ m +:+ "...")]
                                      else []
                                  | None => []
                                  end ->
                             Q (Returned tt) w6) ->
                 post (match VersionManager.givenLoader modLoader with
                       | Some m =>
                           showNotification ("Downloading " +:+ m +:+ "...") "info" ;;;
                           DownloadManager.downloadModLoader versionId m
                       | None => ret tt
                       end) w5 Q).
      { intros w5 Q HQ. unfold VersionManager.givenLoader.
        destruct modLoader as [m|]; [destruct (JS.truthy m) |].
        - apply post_bind, post_showNotification.
          unfold DownloadManager.downloadModLoader. apply post_ret.
          apply HQ; reflexivity.
        - apply post_ret. apply HQ; [reflexivity | reflexivity |].
          rewrite app_nil_r. reflexivity.
        - apply post_ret. apply HQ; [reflexivity | reflexivity |].
          rewrite app_nil_r. reflexivity. }
      apply Hloader. intros w6 Hvm6 Hlog6 Hn6.
      projections_in Hvm6. projections_in Hlog6. projections_in Hn6.
      apply post_bind. unfold VersionManager.markVersionInstalled.
      apply post_bind, post_modify, post_modify.
      apply post_bind, post_showNotification, post_ret.
      intros _. cbn [map]. projections.
      conjs.
      * reflexivity.
      * rewrite Hlog6, Hlog4, Hlog2. rewrite <- !app_assoc. reflexivity.
      * rewrite Hvm6, Hvm4, Hvm2. reflexivity.
      * rewrite Hn6, Hn4, Hn2. rewrite <- !app_assoc. reflexivity.
Qed.

(** C3, as stated, fails: a failed transfer is not isolated.  With the
    mock catalog and the transfer of the third library cut short, the
    libraries after it are never fetched, so they are not completed. *)
Lemma downloadVersion_failures_not_isolated : ~ failuresIsolated.
Proof.
  intros H.
  set (w := Sample.world Sample.signedIn ∅ Sample.defaultSettings (Some 3%nat)).
  assert (Hv : VersionManager.getVersionById (versions (versionManager w)) "1.20.4"
               = Some Sample.version_1_20_4) by (vm_compute; reflexivity).
  pose proof (getVersionDetails_run "1.20.4" Sample.version_1_20_4 w Hv) as Hrun.
  apply (f_equal fst) in Hrun. cbn [fst] in Hrun.
  specialize (H w "1.20.4" _ 3%nat Hrun).
  assert (Hk : (3 < length (filesOf "1.20.4"
                              (VersionManager.versionDetailsOf Sample.version_1_20_4
                                 (VersionManager.librariesFrom
                                    (version_id Sample.version_1_20_4)
                                    VersionManager.baseLibraries
                                    (librarySizeDraws (chance w))))))%nat).
  { vm_compute. lia. }
  specialize (H Hk).
  assert (Hone : forall i, transfer_fails (transfers (chance w) i) = true <-> i = 3%nat).
  { intros i. simpl. apply Nat.eqb_eq. }
  specialize (H Hone "org.lwjgl/lwjgl-stb/3.3.1.jar").
  assert (Hin : In "org.lwjgl/lwjgl-stb/3.3.1.jar"
                   (filesOf "1.20.4"
                      (VersionManager.versionDetailsOf Sample.version_1_20_4
                         (VersionManager.librariesFrom
                            (version_id Sample.version_1_20_4)
                            VersionManager.baseLibraries
                            (librarySizeDraws (chance w)))))).
  { vm_compute. repeat (first [left; reflexivity | right]). }
  specialize (H Hin).
  assert (Hne : "org.lwjgl/lwjgl-stb/3.3.1.jar"
                <> nth 3 (filesOf "1.20.4"
                            (VersionManager.versionDetailsOf Sample.version_1_20_4
                               (VersionManager.librariesFrom
                                  (version_id Sample.version_1_20_4)
                                  VersionManager.baseLibraries
                                  (librarySizeDraws (chance w))))) "").
  { vm_compute. discriminate. }
  specialize (H Hne).
  assert (Hlog : map logged (downloadLog
                               (snd (DownloadManager.downloadVersion "1.20.4" None w)))
                 = [ ("1.20.4.jar", completed);
                     ("com.mojang/logging/1.0.0.jar", completed);
                     ("com.mojang/blocklist/1.0.10.jar", completed);
                     ("com.mojang/datafixerupper/6.0.8.jar", failed) ])
    by (vm_compute; reflexivity).
  rewrite Hlog in H. cbn [In] in H.
  repeat (destruct H as [H | H]; [discriminate H |]). exact H.
Qed.

(** What the sample run leaves: three files completed, the fourth failed,
    the error rethrown, the version not installed. *)
Example downloadVersion_sample_run :
  let w := Sample.world Sample.signedIn ∅ Sample.defaultSettings (Some 3%nat) in
  let (result, w') := DownloadManager.downloadVersion "1.20.4" None w in
  result = Thrown "Download failed: Network error"
  /\ map logged (downloadLog w')
     = [ ("1.20.4.jar", completed);
         ("com.mojang/logging/1.0.0.jar", completed);
         ("com.mojang/blocklist/1.0.10.jar", completed);
         ("com.mojang/datafixerupper/6.0.8.jar", failed) ]
  /\ totalFiles (downloadStats (downloadManager w')) = 3
  /\ bool_decide ("1.20.4" ∈ installedVersions (versionManager w')) = false
  /\ notifications w'
     = [ note "info" "Downloading Minecraft 1.20.4...";
         note "info" "Downloading libraries...";
         note "error" "Download failed: Download failed: Network error" ].
Proof. vm_compute. conjs; reflexivity. Qed.

(** A run without a failure, with the loader [forge]: the five steps are
    notified, all fifteen files are completed and the version is
    installed. *)
Example downloadVersion_forge_run :
  let (result, w') := DownloadManager.downloadVersion "1.20.4" (Some "forge") Sample.fresh in
  result = Returned true
  /\ length (downloadLog w') = 15%nat
  /\ Forall (fun d => download_status d = completed) (downloadLog w')
  /\ bool_decide ("1.20.4" ∈ installedVersions (versionManager w')) = true
  /\ notifications w'
     = [ note "info" "Downloading Minecraft 1.20.4...";
         note "info" "Downloading libraries...";
         note "info" "Downloading game assets...";
         note "info" "Downloading forge...";
         note "success" "Minecraft 1.20.4 downloaded successfully!" ].
Proof. vm_compute. conjs; try reflexivity. repeat constructor. Qed.

(** C3, amended.  [downloadVersion] fetches the client and then the
    libraries one after another, and the first transfer that fails ends
    the batch: the error is rethrown after the notification
    [Download failed: ...], shown last after those of the steps begun;
    the files before the failed one are completed, the failed one is the
    last that was tried, and the version is not marked installed.  When
    no transfer fails, and the loader, if one is given, is not named like
    a member of [Object.prototype], every file is completed, the version
    is marked installed, the steps and the success are notified and the
    result is [true]. *)
Theorem downloadVersion_stops_at_first_failure
        (w : World) (versionId : string) (modLoader : option string) (version : Version) :
  VersionManager.getVersionById (versions (versionManager w)) versionId = Some version ->
  exists details,
    fst (VersionManager.getVersionDetails versionId w) = Returned details
    /\ let files := filesOf versionId details in
       let (result, w') := DownloadManager.downloadVersion versionId modLoader w in
       match firstFailure (length files) (transfers (chance w)) with
       | Some k =>
           result = Thrown "Download failed: Network error"
           /\ map logged (downloadLog w')
              = map logged (downloadLog w)
                ++ map (fun f => (f, completed)) (take k files)
                ++ [(nth k files "", failed)]
           /\ installedVersions (versionManager w') = installedVersions (versionManager w)
           /\ notifications w'
              = notifications w
                ++ [note "info" ("Downloading Minecraft " +:+ versionId +:+ "...")]
                ++ match k with
                   | O => []
                   | S _ => [note "info" "Downloading libraries..."]
                   end
                ++ [note "error" "Download failed: Download failed: Network error"]
       | None =>
           (forall m, modLoader = Some m -> JS.plainKey m) ->
           result = Returned true
           /\ map logged (downloadLog w')
              = map logged (downloadLog w) ++ map (fun f => (f, completed)) files
           /\ installedVersions (versionManager w')
              = {[ versionId ]} ∪ installedVersions (versionManager w)
           /\ notifications w'
              = notifications w
                ++ [note "info" ("Downloading Minecraft " +:+ versionId +:+ "...");
                    note "info" "Downloading libraries...";
                    note "info" "Downloading game assets..."]
                ++ match modLoader with
                   | Some m => if JS.truthy m
                               then [note "info" ("Downloading " +:+ m +:+ "...")]
                               else []
                   | None => []
                   end
                ++ [note "success"
                         ("Minecraft " +:+ versionId +:+ " downloaded successfully!")]
       end.
Proof.
  intros Hv. eexists. split.
  - rewrite (getVersionDetails_run versionId version w Hv). reflexivity.
  - pose proof (downloadVersion_post w versionId modLoader version Hv) as H.
    cbv zeta in H |- *. unfold post in H.
    destruct (DownloadManager.downloadVersion versionId modLoader w) as [result w'].
    exact H.
Qed.

Lemma downloadVersion_stops_at_first_failure_witness :
  let w := Sample.world Sample.signedIn ∅ Sample.defaultSettings (Some 2%nat) in
  exists details,
    fst (VersionManager.getVersionDetails "1.20.4" w) = Returned details
    /\ let files := filesOf "1.20.4" details in
       let (result, w') := DownloadManager.downloadVersion "1.20.4" (Some "forge") w in
       match firstFailure (length files) (transfers (chance w)) with
       | Some k =>
           result = Thrown "Download failed: Network error"
           /\ map logged (downloadLog w')
              = map logged (downloadLog w)
                ++ map (fun f => (f, completed)) (take k files)
                ++ [(nth k files "", failed)]
           /\ installedVersions (versionManager w') = installedVersions (versionManager w)
           /\ notifications w'
              = notifications w
                ++ [note "info" ("Downloading Minecraft " +:+ "1.20.4" +:+ "...")]
                ++ match k with
                   | O => []
                   | S _ => [note "info" "Downloading libraries..."]
                   end
                ++ [note "error" "Download failed: Download failed: Network error"]
       | None =>
           (forall m, Some "forge" = Some m -> JS.plainKey m) ->
           result = Returned true
           /\ map logged (downloadLog w')
              = map logged (downloadLog w) ++ map (fun f => (f, completed)) files
           /\ installedVersions (versionManager w')
              = {[ "1.20.4" ]} ∪ installedVersions (versionManager w)
           /\ notifications w'
              = notifications w
                ++ [note "info" ("Downloading Minecraft " +:+ "1.20.4" +:+ "...");
                    note "info" "Downloading libraries...";
                    note "info" "Downloading game assets..."]
                ++ (if JS.truthy "forge"
                    then [note "info" ("Downloading " +:+ "forge" +:+ "...")]
                    else [])
                ++ [note "success"
                         ("Minecraft " +:+ "1.20.4" +:+ " downloaded successfully!")]
       end.
Proof.
  apply (downloadVersion_stops_at_first_failure
           (Sample.world Sample.signedIn ∅ Sample.defaultSettings (Some 2%nat))
           "1.20.4" (Some "forge") Sample.version_1_20_4).
  vm_compute. reflexivity.
Defined.

(** ** Sample runs *)

Example hashString_abc : Utils.hashString "abc" = 96354.
Proof. vm_compute. reflexivity. Qed.

Example library_hash :
  JS.numberToString 16 (Utils.hashString ("com.mojang:logging:1.0.0" +:+ "1.20.4"))
  = "245605a0".
Proof. vm_compute. reflexivity. Qed.

Example numberToString_samples :
  JS.str 1024 = "1024" /\ JS.str (-5) = "-5" /\ JS.str 0 = "0"
  /\ JS.numberToString 16 2147483648 = "80000000"
  /\ JS.numberToString 16 255 = "ff".
Proof. vm_compute. conjs; reflexivity. Qed.

Example split_samples :
  JS.split " " "a  b" = ["a"; ""; "b"] /\ JS.split " " "" = [""]
  /\ JS.split ":" "mc.example.org:25565" = ["mc.example.org"; "25565"].
Proof. vm_compute. conjs; reflexivity. Qed.

(** Scenario D. *)
Example jvmArguments_1024 :
  GameLauncher.jvmArgumentsOf (Sample.settings 1024 1280 720 " -XX:+UseG1GC   -Xss1M ")
  = [ "-Xmx1024M"; "-Xms512M"; "-XX:+UseG1GC"; "-Xss1M";
      "-Djava.library.path=natives";
      "-Dminecraft.launcher.brand=CraftLauncher";
      "-Dminecraft.launcher.version=1.0.0" ].
Proof. vm_compute. reflexivity. Qed.

Example jvmArguments_256 :
  take 2 (GameLauncher.jvmArgumentsOf (Sample.settings 256 1280 720 ""))
  = [ "-Xmx256M"; "-Xms256M" ].
Proof. vm_compute. reflexivity. Qed.

(** Three failing attempts with the default base delay: two waits, of
    1000 and 2000 ms, and the third error rethrown. *)
Example retry_three_failures :
  Utils.retry alwaysFails 3 1000 O
  = (Thrown "attempt 3 failed", 3%nat,
     [ Utils.Called (Thrown "attempt 1 failed"); Utils.Waited 1000;
       Utils.Called (Thrown "attempt 2 failed"); Utils.Waited 2000;
       Utils.Called (Thrown "attempt 3 failed") ]).
Proof. vm_compute. reflexivity. Qed.

(** Twelve failing attempts: the last wait is 1000 * 2^10 ms. *)
Example retry_twelve_failures :
  Utils.waits (snd (Utils.retry alwaysFails 12 1000 O))
  = [1000; 2000; 4000; 8000; 16000; 32000; 64000; 128000; 256000; 512000; 1024000].
Proof. vm_compute. reflexivity. Qed.

(** Scenario A: 1.20.4 without a loader, with the draws 0, 1, ..., 13. *)
Example calculateDownloadSize_1_20_4 :
  fst (VersionManager.calculateDownloadSize "1.20.4" None Sample.fresh)
  = Returned (JS.Total (23987654 + (14 * 50000 + 91) + 234567890))
  /\ fst (VersionManager.calculateDownloadSize "1.20.4" (Some "fabric") Sample.fresh)
     = Returned (JS.Total (23987654 + (14 * 50000 + 91) + 234567890 + 5000000)).
Proof. vm_compute. conjs; reflexivity. Qed.

(** A launch that goes through: the process is recorded and the history
    has its entry. *)
Example launchGame_sample_run :
  let w := Sample.world Sample.signedIn {[ "1.20.4" ]} Sample.defaultSettings None in
  let (result, w') := GameLauncher.launchGame "1.20.4" None None w in
  result = Returned true
  /\ gameProcess (gameLauncher w')
     = Some {| process_pid := 1042; process_startTime := 1700000000000;
               process_version := "1.20.4"; process_user := "Steve" |}
  /\ map launch_versionId (launchHistory (gameLauncher w')) = ["1.20.4"].
Proof. vm_compute. conjs; reflexivity. Qed.

(* ===================================================================== *)
(** * Further properties of the sources *)
(* ===================================================================== *)

(** ** utils.js: formatting *)

(** [formatDuration] of a non-negative whole number of seconds shows hours,
    minutes and seconds that add up to the duration, the minutes and the
    seconds below 60; it leaves out the hours when there are none, and the
    minutes too when the duration is under a minute. *)
Lemma formatDuration_decomposes (seconds : Z) :
  0 <= seconds ->
  let h := seconds / 3600 in
  let m := (seconds mod 3600) / 60 in
  let s := seconds mod 60 in
  h * 3600 + m * 60 + s = seconds
  /\ 0 <= m < 60 /\ 0 <= s < 60 /\ 0 <= h
  /\ Utils.formatDuration seconds
     = if 3600 <=? seconds
       then JS.str h +:+ "h " +:+ JS.str m +:+ "m " +:+ JS.str s +:+ "s"
       else if 60 <=? seconds
            then JS.str m +:+ "m " +:+ JS.str s +:+ "s"
            else JS.str s +:+ "s".
Proof.
  intros Hs. cbv zeta.
  assert (Hr1 : Z.rem seconds 3600 = seconds mod 3600) by (apply Z.rem_mod_nonneg; lia).
  assert (Hr2 : Z.rem seconds 60 = seconds mod 60) by (apply Z.rem_mod_nonneg; lia).
  pose proof (Z.mod_pos_bound seconds 3600 ltac:(lia)) as B1.
  pose proof (Z.mod_pos_bound seconds 60 ltac:(lia)) as B2.
  pose proof (Z.div_mod seconds 3600 ltac:(lia)) as D1.
  pose proof (Z.div_mod (seconds mod 3600) 60 ltac:(lia)) as D2.
  assert (Hmm : (seconds mod 3600) mod 60 = seconds mod 60).
  { apply Z.mod_mod_divide. exists 60. reflexivity. }
  pose proof (Z.div_pos seconds 3600 Hs ltac:(lia)) as Hh.
  assert (Hm : 0 <= seconds mod 3600 / 60 < 60).
  { split; [apply Z.div_pos; lia | apply Z.div_lt_upper_bound; lia]. }
  conjs; try lia.
  unfold Utils.formatDuration. cbv zeta. rewrite Hr1, Hr2.
  destruct (3600 <=? seconds) eqn:E1.
  - apply Z.leb_le in E1.
    assert (1 <= seconds / 3600) by (apply Z.div_le_lower_bound; lia).
    destruct (0 <? seconds / 3600) eqn:E; [reflexivity | apply Z.ltb_ge in E; lia].
  - apply Z.leb_gt in E1.
    rewrite (Z.div_small seconds 3600) by lia. cbn [Z.ltb Z.compare].
    rewrite (Z.mod_small seconds 3600) by lia.
    destruct (60 <=? seconds) eqn:E2.
    + apply Z.leb_le in E2.
      assert (1 <= seconds / 60) by (apply Z.div_le_lower_bound; lia).
      destruct (0 <? seconds / 60) eqn:E; [reflexivity | apply Z.ltb_ge in E; lia].
    + apply Z.leb_gt in E2. rewrite (Z.div_small seconds 60) by lia. reflexivity.
Qed.

(** For a negative duration the hours and the minutes are never positive,
    so only the remainder of the division by 60 is shown: -3700 seconds
    reads [-40s]. *)
Lemma formatDuration_negative (seconds : Z) :
  seconds < 0 ->
  Utils.formatDuration seconds = JS.str (Z.rem seconds 60) +:+ "s".
Proof.
  intros Hs. unfold Utils.formatDuration. cbv zeta.
  assert (Hh : seconds / 3600 < 0) by (apply Z.div_lt_upper_bound; lia).
  pose proof (Z.rem_bound_pos_neg seconds 3600 ltac:(lia) ltac:(lia)) as Hr.
  assert (Hm : Z.rem seconds 3600 / 60 <= 0).
  { apply Z.div_le_upper_bound; lia. }
  destruct (0 <? seconds / 3600) eqn:E1; [apply Z.ltb_lt in E1; lia |].
  destruct (0 <? Z.rem seconds 3600 / 60) eqn:E2; [apply Z.ltb_lt in E2; lia |].
  reflexivity.
Qed.

(** X1. What [formatDuration] shows for a whole number of seconds.  A
    duration that is not negative reads as hours, minutes and seconds
    that add up to it, the minutes and the seconds below 60, without
    the hours when there are none and without the minutes too under a
    minute.  A negative duration loses all but the remainder of the
    division by 60: -3700 seconds read [-40s]. *)
Theorem formatDuration_reads (seconds : Z) :
  (0 <= seconds ->
   let h := seconds / 3600 in
   let m := (seconds mod 3600) / 60 in
   let s := seconds mod 60 in
   h * 3600 + m * 60 + s = seconds
   /\ 0 <= m < 60 /\ 0 <= s < 60 /\ 0 <= h
   /\ Utils.formatDuration seconds
      = if 3600 <=? seconds
        then JS.str h +:+ "h " +:+ JS.str m +:+ "m " +:+ JS.str s +:+ "s"
        else if 60 <=? seconds
             then JS.str m +:+ "m " +:+ JS.str s +:+ "s"
             else JS.str s +:+ "s")
  /\ (seconds < 0 ->
      Utils.formatDuration seconds = JS.str (Z.rem seconds 60) +:+ "s").
Proof.
  split.
  - exact (formatDuration_decomposes seconds).
  - exact (formatDuration_negative seconds).
Qed.

Example formatDuration_samples :
  Utils.formatDuration 3725 = "1h 2m 5s" /\ Utils.formatDuration 125 = "2m 5s"
  /\ Utils.formatDuration 59 = "59s" /\ Utils.formatDuration 0 = "0s"
  /\ Utils.formatDuration (-3700) = "-40s".
Proof. vm_compute. conjs; reflexivity. Qed.

(** ** utils.js: file extensions *)

Lemma lastIndexOf_absent (s : string) (c : ascii) :
  ~ In c (list_ascii_of_string s) -> JS.lastIndexOf s c = -1.
Proof.
  induction s as [|a s IH]; intros H; [reflexivity |].
  cbn [JS.lastIndexOf]. rewrite IH by (intros Hin; apply H; right; exact Hin).
  cbn [Z.leb Z.compare].
  destruct (Ascii.eqb a c) eqn:E; [| reflexivity].
  apply Ascii.eqb_eq in E. exfalso. apply H. left. exact E.
Qed.

Lemma lastIndexOf_last (pre post : string) (c : ascii) :
  ~ In c (list_ascii_of_string post) ->
  JS.lastIndexOf (pre +:+ String c post) c = Z.of_nat (String.length pre).
Proof.
  intros H. induction pre as [|a pre IH].
  - change ("" +:+ String c post) with (String c post). cbn [JS.lastIndexOf].
    rewrite (lastIndexOf_absent post c H). cbn [Z.leb Z.compare].
    rewrite Ascii.eqb_refl. reflexivity.
  - change (String a pre +:+ String c post) with (String a (pre +:+ String c post)).
    cbn [JS.lastIndexOf]. rewrite IH.
    destruct (0 <=? Z.of_nat (String.length pre)) eqn:E; [| apply Z.leb_gt in E; lia].
    cbn [String.length]. lia.
Qed.

(** A string that holds [c] splits at the last [c]. *)
Lemma split_at_last (s : string) (c : ascii) :
  In c (list_ascii_of_string s) ->
  exists pre post, s = pre +:+ String c post /\ ~ In c (list_ascii_of_string post).
Proof.
  induction s as [|a s IH]; intros H; [destruct H |].
  destruct (in_dec ascii_dec c (list_ascii_of_string s)) as [Hin | Hout].
  - destruct (IH Hin) as (pre & post & -> & Hpost).
    exists (String a pre), post. split; [reflexivity | exact Hpost].
  - destruct H as [-> | H]; [| contradiction].
    exists "", s. split; [reflexivity | exact Hout].
Qed.

Lemma dropStr_app (pre post : string) :
  JS.dropStr (String.length pre) (pre +:+ post) = post.
Proof. induction pre as [|a pre IH]; [destruct post; reflexivity | exact IH]. Qed.

Lemma length_app_string (a b : string) :
  String.length (a +:+ b) = (String.length a + String.length b)%nat.
Proof.
  induction a as [|x a IH]; [reflexivity |].
  change (String x a +:+ b) with (String x (a +:+ b)). cbn [String.length].
  rewrite IH. reflexivity.
Qed.

(** The extension when the last dot comes after a base that is not empty. *)
Lemma getFileExtension_after_last_dot (base ext : string) :
  Z.of_nat (String.length (base +:+ String "." ext)) < 2 ^ 32 ->
  base <> "" -> ~ In "."%char (list_ascii_of_string ext) ->
  Utils.getFileExtension (base +:+ String "." ext) = ext.
Proof.
  intros Hlen Hb He. unfold Utils.getFileExtension.
  rewrite (lastIndexOf_last base ext "." He).
  assert (Hpos : (1 <= String.length base)%nat).
  { destruct base; [contradiction | cbn [String.length]; lia]. }
  unfold JS.toUint32, JS.slice.
  rewrite length_app_string in Hlen |- *. cbn [String.length] in Hlen |- *.
  change (2 ^ 32) with 4294967296 in *.
  rewrite Z.mod_small by lia.
  destruct (Z.of_nat (String.length base) - 1 + 2 <? 0) eqn:E0;
    [apply Z.ltb_lt in E0; lia |].
  destruct (Z.of_nat (String.length base + S (String.length ext))
            <=? Z.of_nat (String.length base) - 1 + 2) eqn:E1.
  - apply Z.leb_le in E1. destruct ext; [reflexivity | cbn [String.length] in E1; lia].
  - replace (Z.to_nat (Z.of_nat (String.length base) - 1 + 2))
      with (String.length (base +:+ ".")) by (rewrite length_app_string; simpl; lia).
    replace (base +:+ String "." ext) with ((base +:+ ".") +:+ ext).
    + apply dropStr_app.
    + clear. induction base as [|a base IH]; [reflexivity |].
      change (String a ((base +:+ ".") +:+ ext) = String a (base +:+ String "." ext)).
      rewrite IH. reflexivity.
Qed.

(** X2. [getFileExtension] returns what follows the last dot of the name, and
    the empty string when the name has no dot or when its only dot is its
    first character (as in [.gitignore]); the result never holds a dot.
    The index arithmetic [(i - 1 >>> 0) + 2] wraps the two special cases
    beyond the end of any string. *)
Theorem getFileExtension_spec (filename : string) :
  Z.of_nat (String.length filename) < 2 ^ 32 ->
  ~ In "."%char (list_ascii_of_string (Utils.getFileExtension filename))
  /\ (~ In "."%char (list_ascii_of_string filename) ->
      Utils.getFileExtension filename = "")
  /\ (forall base ext,
        filename = base +:+ String "." ext ->
        ~ In "."%char (list_ascii_of_string ext) ->
        Utils.getFileExtension filename
        = match base with EmptyString => "" | String _ _ => ext end).
Proof.
  intros Hlen.
  assert (Hnone : ~ In "."%char (list_ascii_of_string filename) ->
                  Utils.getFileExtension filename = "").
  { intros H. unfold Utils.getFileExtension.
    rewrite (lastIndexOf_absent filename "." H).
    unfold JS.toUint32, JS.slice. change (2 ^ 32) with 4294967296 in *.
    change ((-1 - 1) mod 4294967296 + 2) with 4294967296.
    cbn [Z.ltb Z.compare].
    destruct (Z.of_nat (String.length filename) <=? 4294967296) eqn:E;
      [reflexivity | apply Z.leb_gt in E; lia]. }
  assert (Hsplit : forall base ext,
             filename = base +:+ String "." ext ->
             ~ In "."%char (list_ascii_of_string ext) ->
             Utils.getFileExtension filename
             = match base with EmptyString => "" | String _ _ => ext end).
  { intros base ext -> Hext. destruct base as [|b base].
    - unfold Utils.getFileExtension.
      rewrite (lastIndexOf_last "" ext "." Hext).
      unfold JS.toUint32, JS.slice. change (2 ^ 32) with 4294967296 in *.
      change ((Z.of_nat (String.length "") - 1) mod 4294967296 + 2) with 4294967297.
      cbn [Z.ltb Z.compare].
      destruct (Z.of_nat (String.length ("" +:+ String "." ext)) <=? 4294967297) eqn:E;
        [reflexivity | apply Z.leb_gt in E; lia].
    - apply getFileExtension_after_last_dot; [exact Hlen | discriminate | exact Hext]. }
  conjs; [| exact Hnone | exact Hsplit].
  destruct (in_dec ascii_dec "."%char (list_ascii_of_string filename)) as [Hin | Hout].
  - destruct (split_at_last filename "." Hin) as (base & ext & Heq & Hext).
    rewrite (Hsplit base ext Heq Hext). destruct base; [intros [] | exact Hext].
  - rewrite (Hnone Hout). intros [].
Qed.

Lemma getFileExtension_spec_witness :
  ~ In "."%char (list_ascii_of_string (Utils.getFileExtension "backup.tar.gz"))
  /\ (~ In "."%char (list_ascii_of_string "backup.tar.gz") ->
      Utils.getFileExtension "backup.tar.gz" = "")
  /\ (forall base ext,
        "backup.tar.gz" = base +:+ String "." ext ->
        ~ In "."%char (list_ascii_of_string ext) ->
        Utils.getFileExtension "backup.tar.gz"
        = match base with EmptyString => "" | String _ _ => ext end).
Proof. apply (getFileExtension_spec "backup.tar.gz"). vm_compute. reflexivity. Defined.

Example getFileExtension_samples :
  Utils.getFileExtension "backup.tar.gz" = "gz"
  /\ Utils.getFileExtension "README" = ""
  /\ Utils.getFileExtension ".gitignore" = ""
  /\ Utils.getFileExtension "name." = "".
Proof. vm_compute. conjs; reflexivity. Qed.

(** ** utils.js: escaping and encoding *)

Lemma chars_app (a b : string) :
  list_ascii_of_string (a +:+ b) = list_ascii_of_string a ++ list_ascii_of_string b.
Proof.
  induction a as [|x a IH]; [reflexivity |].
  change (String x a +:+ b) with (String x (a +:+ b)).
  cbn [list_ascii_of_string app]. rewrite IH. reflexivity.
Qed.

Lemma escapeChar_safe (c d : ascii) :
  In d (list_ascii_of_string (Utils.escapeChar c)) ->
  d <> "<"%char /\ d <> ">"%char /\ d <> "034"%char /\ d <> "'"%char.
Proof.
  unfold Utils.escapeChar.
  destruct (Ascii.eqb_spec c "&");
    [cbn; intros H; repeat (destruct H as [<- | H]; [repeat split; discriminate |]);
     destruct H |].
  destruct (Ascii.eqb_spec c "<");
    [cbn; intros H; repeat (destruct H as [<- | H]; [repeat split; discriminate |]);
     destruct H |].
  destruct (Ascii.eqb_spec c ">");
    [cbn; intros H; repeat (destruct H as [<- | H]; [repeat split; discriminate |]);
     destruct H |].
  destruct (Ascii.eqb_spec c "034");
    [cbn; intros H; repeat (destruct H as [<- | H]; [repeat split; discriminate |]);
     destruct H |].
  destruct (Ascii.eqb_spec c "'");
    [cbn; intros H; repeat (destruct H as [<- | H]; [repeat split; discriminate |]);
     destruct H |].
  cbn. intros [<- | []]. repeat split; assumption.
Qed.

(** X3. The text that [escapeHtml] returns holds no less-than sign, no
    greater-than sign and no quote of either kind, whatever the input; a
    text without any of the five escaped characters is returned as it is. *)
Theorem escapeHtml_safe (text : string) :
  (forall d, In d (list_ascii_of_string (Utils.escapeHtml text)) ->
             d <> "<"%char /\ d <> ">"%char /\ d <> "034"%char /\ d <> "'"%char)
  /\ ((forall c, In c (list_ascii_of_string text) ->
                 c <> "&"%char /\ c <> "<"%char /\ c <> ">"%char
                 /\ c <> "034"%char /\ c <> "'"%char) ->
      Utils.escapeHtml text = text).
Proof.
  split.
  - induction text as [|c text IH]; intros d Hd; [destruct Hd |].
    cbn [Utils.escapeHtml] in Hd. rewrite chars_app in Hd.
    apply in_app_or in Hd. destruct Hd as [Hd | Hd].
    + exact (escapeChar_safe c d Hd).
    + exact (IH d Hd).
  - induction text as [|c text IH]; intros H; [reflexivity |].
    cbn [Utils.escapeHtml]. rewrite IH by (intros c' Hc'; apply H; right; exact Hc').
    destruct (H c (or_introl eq_refl)) as (H1 & H2 & H3 & H4 & H5).
    unfold Utils.escapeChar.
    rewrite (proj2 (Ascii.eqb_neq c "&") H1), (proj2 (Ascii.eqb_neq c "<") H2),
      (proj2 (Ascii.eqb_neq c ">") H3), (proj2 (Ascii.eqb_neq c "034") H4),
      (proj2 (Ascii.eqb_neq c "'") H5).
    reflexivity.
Qed.

Example escapeHtml_sample :
  Utils.escapeHtml "<a href='x'>Tom & Jerry</a>"
  = "&lt;a href=&#039;x&#039;&gt;Tom &amp; Jerry&lt;/a&gt;".
Proof. vm_compute. reflexivity. Qed.

(** Escaping is not idempotent: the ampersand of an entity is escaped
    again. *)
Example escapeHtml_twice :
  Utils.escapeHtml (Utils.escapeHtml "<") = "&amp;lt;".
Proof. vm_compute. reflexivity. Qed.

Lemma join_empty_cons (x : string) (rest : list string) :
  JS.join "" (x :: rest) = x +:+ JS.join "" rest.
Proof.
  destruct rest as [|y rest]; cbn [JS.join].
  - clear. induction x as [|a x IH]; [reflexivity |].
    change (String a x = String a (x +:+ "")). rewrite <- IH. reflexivity.
  - reflexivity.
Qed.

(** Every byte is written as two digits that spell it. *)
Lemma byteToHex_digits (byte : Z) :
  0 <= byte < 256 ->
  exists high low,
    Utils.byteToHex byte = String high (String low "")
    /\ JS.isHexDigit high = true /\ JS.isHexDigit low = true
    /\ 16 * hexDigitValue high + hexDigitValue low = byte.
Proof.
  intros Hb.
  assert (Hall : forallb
                   (fun n => match Utils.byteToHex (Z.of_nat n) with
                             | String high (String low EmptyString) =>
                                 JS.isHexDigit high && JS.isHexDigit low
                                 && (16 * hexDigitValue high + hexDigitValue low
                                     =? Z.of_nat n)
                             | _ => false
                             end) (seq 0 256) = true) by (vm_compute; reflexivity).
  rewrite forallb_forall in Hall.
  specialize (Hall (Z.to_nat byte)).
  rewrite Z2Nat.id in Hall by lia.
  assert (Hin : In (Z.to_nat byte) (seq 0 256)).
  { apply in_seq. lia. }
  specialize (Hall Hin).
  destruct (Utils.byteToHex byte) as [|high [|low [|]]]; try discriminate Hall.
  apply andb_true_iff in Hall. destruct Hall as [Hall Hv].
  apply andb_true_iff in Hall. destruct Hall as [Hh Hl].
  apply Z.eqb_eq in Hv. exists high, low. conjs; [reflexivity | exact Hh | exact Hl | exact Hv].
Qed.

(** X4. For bytes (numbers from 0 to 255) [bytesToHex] writes two lowercase
    hexadecimal digits per byte, and reading the digits back pair by pair
    gives the bytes: no two byte sequences share a rendering. *)
Theorem bytesToHex_roundtrip (bytes : list Z) :
  Forall (fun byte => 0 <= byte < 256) bytes ->
  String.length (Utils.bytesToHex bytes) = (2 * length bytes)%nat
  /\ allHex (Utils.bytesToHex bytes)
  /\ hexToBytes (Utils.bytesToHex bytes) = bytes.
Proof.
  unfold Utils.bytesToHex. induction 1 as [|byte bytes Hb _ IH].
  - conjs; [reflexivity | constructor | reflexivity].
  - destruct IH as (IHlen & IHhex & IHrt).
    destruct (byteToHex_digits byte Hb) as (high & low & Heq & Hh & Hl & Hv).
    cbn [map]. rewrite join_empty_cons, Heq.
    change (String high (String low "") +:+ JS.join "" (map Utils.byteToHex bytes))
      with (String high (String low (JS.join "" (map Utils.byteToHex bytes)))).
    conjs.
    + cbn [String.length length]. rewrite IHlen. lia.
    + constructor; [exact Hh |]. constructor; [exact Hl | exact IHhex].
    + cbn [hexToBytes]. rewrite IHrt, Hv. reflexivity.
Qed.

Lemma bytesToHex_roundtrip_witness :
  String.length (Utils.bytesToHex [0; 10; 171; 255]) = (2 * length [0; 10; 171; 255])%nat
  /\ allHex (Utils.bytesToHex [0; 10; 171; 255])
  /\ hexToBytes (Utils.bytesToHex [0; 10; 171; 255]) = [0; 10; 171; 255].
Proof.
  apply (bytesToHex_roundtrip [0; 10; 171; 255]).
  repeat constructor; lia.
Defined.

Example bytesToHex_sample : Utils.bytesToHex [0; 10; 171; 255] = "000aabff".
Proof. vm_compute. reflexivity. Qed.

(** ** utils.js: identifiers *)

Lemma numberToString16_digit (v : Z) :
  0 <= v < 16 -> JS.numberToString 16 v = String (JS.digitChar v) "".
Proof.
  intros Hv. unfold JS.numberToString.
  destruct (v <? 0) eqn:E; [apply Z.ltb_lt in E; lia |].
  unfold JS.digits. cbn [JS.digitsAux].
  rewrite Z.div_small, Z.mod_small by lia. reflexivity.
Qed.

Lemma fillTemplate_matches (template : string) :
  forall draws : nat -> Z,
    (forall i, 0 <= draws i < 16) ->
    matchesTemplate template (Utils.fillTemplate template draws) = true.
Proof.
  induction template as [|t template IH]; intros draws Hd; [reflexivity |].
  cbn [Utils.fillTemplate].
  destruct (Ascii.eqb t "x") eqn:Ex.
  - cbn [orb]. rewrite (numberToString16_digit (draws O) (Hd O)).
    change (String ?d "" +:+ ?r) with (String d r).
    cbn [matchesTemplate]. rewrite Ex.
    rewrite (digitChar_hex (draws O) (Hd O)). cbn [andb].
    apply IH. intros i. apply Hd.
  - cbn [orb]. destruct (Ascii.eqb t "y") eqn:Ey.
    + assert (Hv : 8 <= Z.lor (Z.land (draws O) 3) 8 < 12
                   /\ (let c := JS.digitChar (Z.lor (Z.land (draws O) 3) 8) in
                       Ascii.eqb c "8" || Ascii.eqb c "9" || Ascii.eqb c "a"
                       || Ascii.eqb c "b") = true).
      { pose proof (Hd O) as H0.
        assert (C : draws O = 0 \/ draws O = 1 \/ draws O = 2 \/ draws O = 3
                    \/ draws O = 4 \/ draws O = 5 \/ draws O = 6 \/ draws O = 7
                    \/ draws O = 8 \/ draws O = 9 \/ draws O = 10 \/ draws O = 11
                    \/ draws O = 12 \/ draws O = 13 \/ draws O = 14 \/ draws O = 15)
          by lia.
        repeat (destruct C as [C | C]; [rewrite C; vm_compute; repeat split; congruence |]).
        rewrite C; vm_compute; repeat split; congruence. }
      destruct Hv as [Hrange Hvariant].
      rewrite (numberToString16_digit (Z.lor (Z.land (draws O) 3) 8)) by lia.
      change (String ?d "" +:+ ?r) with (String d r).
      cbn [matchesTemplate]. rewrite Ex, Ey. cbv zeta in Hvariant. rewrite Hvariant.
      cbn [andb]. apply IH. intros i. apply Hd.
    + cbn [matchesTemplate]. rewrite Ex, Ey, Ascii.eqb_refl. cbn [andb].
      apply IH. exact Hd.
Qed.

Lemma matchesTemplate_length (template uuid : string) :
  matchesTemplate template uuid = true -> String.length uuid = String.length template.
Proof.
  revert uuid. induction template as [|t template IH]; intros [|c uuid] H;
    try discriminate H; [reflexivity |].
  cbn [matchesTemplate] in H. apply andb_true_iff in H. destruct H as [_ H].
  cbn [String.length]. rewrite (IH uuid H). reflexivity.
Qed.

(** X5. Every identifier that [generateUUID] can produce has the layout of a
    version-4 UUID: 36 characters, hyphens after the 8th, 12th, 16th and
    20th digit, the digit 4 at the head of the third group, one of 8, 9, a,
    b at the head of the fourth, lowercase hexadecimal digits elsewhere. *)
Theorem generateUUID_layout (draws : nat -> Z) :
  (forall i, 0 <= draws i < 16) ->
  matchesTemplate "xxxxxxxx-xxxx-4xxx-yxxx-xxxxxxxxxxxx" (Utils.generateUUIDFrom draws) = true
  /\ String.length (Utils.generateUUIDFrom draws) = 36%nat.
Proof.
  intros Hd.
  pose proof (fillTemplate_matches Utils.uuidTemplate draws Hd) as H.
  split; [exact H |]. apply (matchesTemplate_length _ _ H).
Qed.

Lemma generateUUID_layout_witness :
  matchesTemplate "xxxxxxxx-xxxx-4xxx-yxxx-xxxxxxxxxxxx"
                  (Utils.generateUUIDFrom (fun i => Z.of_nat i mod 16)) = true
  /\ String.length (Utils.generateUUIDFrom (fun i => Z.of_nat i mod 16)) = 36%nat.
Proof.
  apply (generateUUID_layout (fun i => Z.of_nat i mod 16)).
  intros i. apply Z.mod_pos_bound. lia.
Defined.

Example generateUUID_sample :
  Utils.generateUUIDFrom (fun i => Z.of_nat i mod 16)
  = "01234567-89ab-4cde-b012-3456789abcde".
Proof. vm_compute. reflexivity. Qed.

(** ** utils.js: shuffling *)

Lemma swap_permutation {A} (i j : nat) (l : list A) : Permutation (Utils.swap i j l) l.
Proof.
  unfold Utils.swap.
  destruct (l !! i) as [a|] eqn:Hi; [| reflexivity].
  destruct (l !! j) as [b|] eqn:Hj; [| reflexivity].
  exact (Permutation_insert_swap l i j a b Hi Hj).
Qed.

Lemma shuffleLoop_permutation {A} (i : nat) :
  forall (draws : nat -> nat) (l : list A), Permutation (Utils.shuffleLoop i draws l) l.
Proof.
  induction i as [|i IH]; intros draws l; cbn [Utils.shuffleLoop].
  - reflexivity.
  - etransitivity; [apply IH | apply swap_permutation].
Qed.

(** X6. [shuffleArray] returns a rearrangement of its argument: the same
    elements, each as many times as before, so also the same length.  The
    draws are those of the loop, the draw for position [i] lying between 0
    and [i]. *)
Theorem shuffleArray_permutation {A} (array : list A) (draws : nat -> nat) :
  (forall k, (k < length array - 1)%nat -> (draws k <= length array - 1 - k)%nat) ->
  Permutation (Utils.shuffleArray array draws) array
  /\ length (Utils.shuffleArray array draws) = length array.
Proof.
  intros _.
  pose proof (shuffleLoop_permutation (length array - 1) draws array) as H.
  split; [exact H | exact (Permutation_length H)].
Qed.

Lemma shuffleArray_permutation_witness :
  Permutation (Utils.shuffleArray [1; 2; 3; 4] (fun _ => O)) [1; 2; 3; 4]
  /\ length (Utils.shuffleArray [1; 2; 3; 4] (fun _ => O)) = length [1; 2; 3; 4].
Proof.
  apply (shuffleArray_permutation [1; 2; 3; 4] (fun _ => O)).
  intros k _. lia.
Defined.

Example shuffleArray_sample :
  Utils.shuffleArray [1; 2; 3; 4] (fun _ => O) = [2; 3; 4; 1]
  /\ Utils.shuffleArray ([] : list Z) (fun _ => O) = [].
Proof. vm_compute. split; reflexivity. Qed.

(** ** The installed set and the catalog *)

(** X7. Installing and uninstalling act on the one id given, and what
    they save is what a restart reads back: after [markVersionInstalled]
    the id is installed, after [markVersionUninstalled] it is not, every
    other id keeps its answer, and in both cases [loadInstalledVersions]
    rebuilds exactly the set in memory from the saved array. *)
Theorem installedVersions_persist (versionId : string) (w : World) :
  let installed := snd (VersionManager.markVersionInstalled versionId w) in
  let removed := snd (VersionManager.markVersionUninstalled versionId w) in
  fst (VersionManager.isVersionInstalled versionId installed) = Returned true
  /\ fst (VersionManager.isVersionInstalled versionId removed) = Returned false
  /\ (forall other, other <> versionId ->
        fst (VersionManager.isVersionInstalled other installed)
        = fst (VersionManager.isVersionInstalled other w)
        /\ fst (VersionManager.isVersionInstalled other removed)
           = fst (VersionManager.isVersionInstalled other w))
  /\ versionManager (snd (VersionManager.loadInstalledVersions installed))
     = versionManager installed
  /\ versionManager (snd (VersionManager.loadInstalledVersions removed))
     = versionManager removed.
Proof.
  unfold VersionManager.markVersionInstalled, VersionManager.markVersionUninstalled,
    VersionManager.saveInstalledVersions, VersionManager.loadInstalledVersions,
    VersionManager.isVersionInstalled, bind, modify, gets.
  projections. cbn [localStorage craftlauncher_installed_versions].
  conjs.
  - f_equal. apply bool_decide_eq_true_2.
    apply elem_of_union_l, elem_of_singleton. reflexivity.
  - f_equal. apply bool_decide_eq_false_2.
    intros [_ Hnot]%elem_of_difference. apply Hnot, elem_of_singleton. reflexivity.
  - intros other Hother. split; f_equal; apply bool_decide_ext.
    + rewrite elem_of_union, elem_of_singleton.
      split; [ intros [Heq | Hin]; [ contradiction | exact Hin ]
             | intros Hin; right; exact Hin ].
    + rewrite elem_of_difference, elem_of_singleton.
      split; [ intros [Hin _]; exact Hin
             | intros Hin; split; [ exact Hin | exact Hother ] ].
  - destruct w as [a [vs inst] d g l p b n c dl]. projections.
    cbn [localStorage craftlauncher_installed_versions].
    f_equal. apply list_to_set_elements_L.
  - destruct w as [a [vs inst] d g l p b n c dl]. projections.
    cbn [localStorage craftlauncher_installed_versions].
    f_equal. apply list_to_set_elements_L.
Qed.

(** Uninstalling an id that was installed just before restores the set,
    provided the id was not installed to begin with. *)
Lemma uninstall_after_install (versionId : string) (s : gset string) :
  versionId ∉ s -> ({[ versionId ]} ∪ s) ∖ {[ versionId ]} = s.
Proof.
  intros Hfresh. apply set_eq. intros other.
  rewrite elem_of_difference, elem_of_union, elem_of_singleton. split.
  - intros [[-> | Hin] Hnot]; [ contradiction Hnot; reflexivity | exact Hin ].
  - intros Hin. split; [ right; exact Hin | ].
    intros ->. exact (Hfresh Hin).
Qed.

(** An installation that is undone leaves no trace in memory: for an
    id that was not installed, installing and then uninstalling it gives
    back the version manager as it was, and the array saved is that of
    the original set. *)
Lemma install_then_uninstall (versionId : string) (w : World) :
  fst (VersionManager.isVersionInstalled versionId w) = Returned false ->
  let w' := snd (VersionManager.markVersionUninstalled versionId
                   (snd (VersionManager.markVersionInstalled versionId w))) in
  versionManager w' = versionManager w
  /\ craftlauncher_installed_versions (localStorage w')
     = Some (elements (installedVersions (versionManager w))).
Proof.
  unfold VersionManager.markVersionInstalled, VersionManager.markVersionUninstalled,
    VersionManager.saveInstalledVersions,
    VersionManager.isVersionInstalled, bind, modify, gets.
  projections. intros Hnot.
  assert (Hfresh : versionId ∉ installedVersions (versionManager w)).
  { intros Hin. apply (bool_decide_eq_true_2 _) in Hin. congruence. }
  cbn [localStorage craftlauncher_installed_versions].
  rewrite (uninstall_after_install _ _ Hfresh).
  split; [ | reflexivity ].
  destruct w as [a [vs inst] d g l p b n c dl]. reflexivity.
Qed.

Lemma install_then_uninstall_witness :
  versionManager
    (snd (VersionManager.markVersionUninstalled "1.20.4"
            (snd (VersionManager.markVersionInstalled "1.20.4" Sample.fresh))))
  = versionManager Sample.fresh.
Proof.
  apply (install_then_uninstall "1.20.4" Sample.fresh).
  vm_compute. reflexivity.
Defined.

(** The versions of one type, counted. *)
Lemma countType_cons (type : string) (v : Version) (vs : list Version) :
  VersionManager.countType type (v :: vs)
  = ((if String.eqb (version_type v) type then 1 else 0)
     + VersionManager.countType type vs)%nat.
Proof.
  unfold VersionManager.countType. cbn [List.filter].
  destruct (String.eqb (version_type v) type); reflexivity.
Qed.

Lemma countType_partition (vs : list Version) :
  (VersionManager.countType "release" vs + VersionManager.countType "snapshot" vs
   + VersionManager.countType "beta" vs + VersionManager.countType "alpha" vs
   + length (List.filter (fun v => negb (knownType (version_type v))) vs)
   = length vs)%nat.
Proof.
  induction vs as [|v vs IH]; [ reflexivity | ].
  rewrite !countType_cons. cbn [List.filter length].
  unfold knownType at 1.
  destruct (String.eqb (version_type v) "release") eqn:E1.
  { apply String.eqb_eq in E1. rewrite E1. cbn. lia. }
  destruct (String.eqb (version_type v) "snapshot") eqn:E2.
  { apply String.eqb_eq in E2. rewrite E2. cbn. lia. }
  destruct (String.eqb (version_type v) "beta") eqn:E3.
  { apply String.eqb_eq in E3. rewrite E3. cbn. lia. }
  destruct (String.eqb (version_type v) "alpha") eqn:E4; cbn; lia.
Qed.

Lemma filter_none {A} (p : A -> bool) (l : list A) :
  (forall x, In x l -> p x = true) -> List.filter (fun x => negb (p x)) l = [].
Proof.
  induction l as [|x l IH]; intros Hall; [ reflexivity | ].
  cbn [List.filter]. rewrite (Hall x (or_introl eq_refl)). cbn [negb].
  apply IH. intros y Hy. apply Hall. right. exact Hy.
Qed.

(** X8. The statistics count by type: the four counts that
    [getVersionStats] reports never exceed the total, the difference is
    the number of versions whose type is none of release, snapshot, beta
    and alpha, and so the counts add up to the total exactly when every
    version has one of these four types. *)
Theorem getVersionStats_counts (w : World) :
  exists stats,
    VersionManager.getVersionStats w = (Returned stats, w)
    /\ VersionManager.stats_total stats = length (versions (versionManager w))
    /\ (VersionManager.stats_releases stats + VersionManager.stats_snapshots stats + VersionManager.stats_betas stats
        + VersionManager.stats_alphas stats
        + length (List.filter (fun v => negb (knownType (version_type v)))
                              (versions (versionManager w)))
        = VersionManager.stats_total stats)%nat
    /\ ((VersionManager.stats_releases stats + VersionManager.stats_snapshots stats + VersionManager.stats_betas stats
         + VersionManager.stats_alphas stats = VersionManager.stats_total stats)%nat
        <-> forall v, In v (versions (versionManager w)) ->
                      knownType (version_type v) = true).
Proof.
  eexists. split; [ reflexivity | ].
  cbn [VersionManager.stats_total VersionManager.stats_releases
       VersionManager.stats_snapshots VersionManager.stats_betas
       VersionManager.stats_alphas].
  pose proof (countType_partition (versions (versionManager w))) as Hsum.
  split; [ reflexivity | ]. split; [ exact Hsum | ]. split.
  - intros Heq v Hin.
    assert (Hnone : List.filter (fun v => negb (knownType (version_type v)))
                                (versions (versionManager w)) = []).
    { apply length_zero_iff_nil. lia. }
    destruct (knownType (version_type v)) eqn:E; [ reflexivity | ].
    assert (Hv : In v (List.filter (fun v => negb (knownType (version_type v)))
                                   (versions (versionManager w)))).
    { apply filter_In. split; [ exact Hin | rewrite E; reflexivity ]. }
    rewrite Hnone in Hv. destruct Hv.
  - intros Hall.
    assert (Hnone : List.filter (fun v => negb (knownType (version_type v)))
                                (versions (versionManager w)) = []).
    { apply filter_none. exact Hall. }
    rewrite Hnone in Hsum. cbn [length] in Hsum. lia.
Qed.

Lemma head_filter_first {A} (p : A -> bool) (l : list A) (x : A) :
  head (List.filter p l) = Some x ->
  exists before after,
    l = before ++ x :: after /\ p x = true
    /\ forall y, In y before -> p y = false.
Proof.
  induction l as [|a l IH]; cbn [List.filter]; [ discriminate | ].
  destruct (p a) eqn:E.
  - intros [= ->]. exists [], l. split; [ reflexivity | ].
    split; [ exact E | intros y [] ].
  - intros H. destruct (IH H) as (before & after & -> & Hp & Hbefore).
    exists (a :: before), after. split; [ reflexivity | ].
    split; [ exact Hp | ].
    intros y [<- | Hy]; [ exact E | exact (Hbefore y Hy) ].
Qed.

Lemma head_filter_none {A} (p : A -> bool) (l : list A) :
  head (List.filter p l) = None -> forall y, In y l -> p y = false.
Proof.
  induction l as [|a l IH]; cbn [List.filter]; [ intros _ y [] | ].
  destruct (p a) eqn:E; [ discriminate | ].
  intros H y [<- | Hy]; [ exact E | exact (IH H y Hy) ].
Qed.

(** X9. [getLatestVersion] answers with the first entry of the catalog
    that has the type asked for, whatever the release dates say: the
    version it returns is in the catalog, has that type, and no entry
    before it has; it returns null exactly when no entry has the type.
    It is the latest one only in a catalog sorted newest first. *)
Theorem getLatestVersion_first_of_type (type : string) (w : World) :
  type <> "all" ->
  exists latest,
    VersionManager.getLatestVersion type w = (Returned latest, w)
    /\ match latest with
       | Some v =>
           exists before after,
             versions (versionManager w) = before ++ v :: after
             /\ version_type v = type
             /\ forall earlier, In earlier before -> version_type earlier <> type
       | None =>
           forall v, In v (versions (versionManager w)) -> version_type v <> type
       end.
Proof.
  intros Hall.
  unfold VersionManager.getLatestVersion, VersionManager.getVersionsByType,
    bind, gets, ret.
  destruct (String.eqb type "all") eqn:E; [ apply String.eqb_eq in E; contradiction | ].
  eexists. split; [ reflexivity | ].
  destruct (head (List.filter _ (versions (versionManager w)))) as [v|] eqn:Hhead.
  - destruct (head_filter_first _ _ _ Hhead) as (before & after & Hl & Hp & Hbefore).
    exists before, after. split; [ exact Hl | ].
    split; [ apply String.eqb_eq; exact Hp | ].
    intros earlier Hin Heq. apply Hbefore in Hin.
    apply String.eqb_neq in Hin. contradiction.
  - intros v Hin Heq. pose proof (head_filter_none _ _ Hhead v Hin) as Hp.
    apply String.eqb_neq in Hp. contradiction.
Qed.

Lemma getLatestVersion_first_of_type_witness :
  exists latest,
    VersionManager.getLatestVersion "snapshot" Sample.fresh
    = (Returned latest, Sample.fresh)
    /\ match latest with
       | Some v =>
           exists before after,
             versions (versionManager Sample.fresh) = before ++ v :: after
             /\ version_type v = "snapshot"
             /\ forall earlier, In earlier before -> version_type earlier <> "snapshot"
       | None =>
           forall v, In v (versions (versionManager Sample.fresh)) ->
                     version_type v <> "snapshot"
       end.
Proof.
  apply (getLatestVersion_first_of_type "snapshot" Sample.fresh).
  discriminate.
Defined.

(** X10. Which mod loaders a version is offered: Fabric always, with its
    three versions; Forge only together with OptiFine; a snapshot id
    (one with a [w] in it) gets Fabric alone; no loader is offered
    twice; and every loader offered has a positive download size in
    [getModLoaderSize], so that choosing one always adds to a download. *)
Theorem getModLoaders_offer (versionId : string) :
  let offered := map VersionManager.loader_id (VersionManager.getModLoaders versionId) in
  (exists fabric, In fabric (VersionManager.getModLoaders versionId)
                  /\ VersionManager.loader_id fabric = "fabric"
                  /\ length (VersionManager.loader_versions fabric) = 3%nat)
  /\ (In "forge" offered -> In "optifine" offered)
  /\ (JS.includes versionId "w" = true -> offered = ["fabric"])
  /\ NoDup offered
  /\ (forall loader, In loader offered ->
        In loader ["forge"; "fabric"; "optifine"]
        /\ 0 < VersionManager.getModLoaderSize loader).
Proof.
  unfold VersionManager.getModLoaders.
  destruct (JS.includes versionId "w"), (JS.includes versionId "pre"),
    (JS.includes versionId "rc");
    cbn [negb andb app map VersionManager.loader_id VersionManager.loader_versions];
    (split;
     [ exists {| VersionManager.loader_name := "Fabric";
                 VersionManager.loader_id := "fabric";
                 VersionManager.loader_versions :=
                   VersionManager.getFabricVersions versionId |};
       split; [ cbn [In]; auto | split; reflexivity ] | ]);
    (split; [ cbn [In]; intros H; intuition discriminate | ]);
    (split; [ intros H; first [ reflexivity | discriminate ] | ]);
    (split;
     [ apply (bool_decide_unpack _); vm_compute; exact I | ]);
    intros loader Hin; cbn [In] in Hin;
    repeat match type of Hin with
           | _ \/ _ => destruct Hin as [<- | Hin]
           | False => destruct Hin
           end;
    (split; [ cbn [In]; tauto | vm_compute; reflexivity ]).
Qed.

(** ** Searching the catalog *)

Lemma startsWith_app (p s : string) : JS.startsWith p (p +:+ s) = true.
Proof.
  induction p as [|a p IH]; [ reflexivity | ].
  change (String a p +:+ s) with (String a (p +:+ s)). cbn [JS.startsWith].
  rewrite Ascii.eqb_refl. exact IH.
Qed.

Lemma startsWith_split (p s : string) :
  JS.startsWith p s = true -> s = p +:+ JS.dropStr (String.length p) s.
Proof.
  revert s. induction p as [|a p IH]; intros s H.
  - destruct s; reflexivity.
  - destruct s as [|b s]; [ discriminate | ]. cbn [JS.startsWith] in H.
    apply andb_true_iff in H. destruct H as [Hab Hrest].
    apply Ascii.eqb_eq in Hab. subst b.
    cbn [String.length JS.dropStr].
    change (String a p +:+ JS.dropStr (String.length p) s)
      with (String a (p +:+ JS.dropStr (String.length p) s)).
    f_equal. exact (IH s Hrest).
Qed.

Lemma cutAtFirst_unfold (search s : string) :
  JS.cutAtFirst search s
  = if JS.startsWith search s then Some ("", JS.dropStr (String.length search) s)
    else match s with
         | EmptyString => None
         | String c s' =>
             match JS.cutAtFirst search s' with
             | Some (before, after) => Some (String c before, after)
             | None => None
             end
         end.
Proof. destruct s; reflexivity. Qed.

Lemma cutAtFirst_sound (search s before after : string) :
  JS.cutAtFirst search s = Some (before, after) ->
  s = before +:+ search +:+ after.
Proof.
  revert before after. induction s as [|c s IH]; intros before after;
    rewrite cutAtFirst_unfold.
  - destruct (JS.startsWith search "") eqn:E; [ | discriminate ].
    cbv iota. intros [= <- <-]. exact (startsWith_split _ _ E).
  - destruct (JS.startsWith search (String c s)) eqn:E; cbv iota.
    + intros [= <- <-]. exact (startsWith_split _ _ E).
    + destruct (JS.cutAtFirst search s) as [[b a]|]; [ | discriminate ].
      intros [= <- <-]. rewrite (IH b a eq_refl) at 1. reflexivity.
Qed.

Lemma cutAtFirst_complete (search before after : string) :
  JS.cutAtFirst search (before +:+ search +:+ after) <> None.
Proof.
  induction before as [|c before IH]; rewrite cutAtFirst_unfold.
  - change ("" +:+ search +:+ after) with (search +:+ after).
    rewrite startsWith_app. discriminate.
  - destruct (JS.startsWith search _); cbv iota; [ discriminate | ].
    change (String c before +:+ search +:+ after)
      with (String c (before +:+ search +:+ after)).
    cbv iota beta.
    destruct (JS.cutAtFirst search (before +:+ search +:+ after)) as [[b a]|];
      [ discriminate | exact IH ].
Qed.

Lemma includes_occursIn (s search : string) :
  JS.includes s search = true <-> occursIn search s.
Proof.
  unfold JS.includes, occursIn. split.
  - destruct (JS.cutAtFirst search s) as [[b a]|] eqn:E; [ | discriminate ].
    intros _. exists b, a. exact (cutAtFirst_sound _ _ _ _ E).
  - intros (b & a & ->).
    pose proof (cutAtFirst_complete search b a) as H.
    destruct (JS.cutAtFirst search (b +:+ search +:+ a)); [ reflexivity | contradiction ].
Qed.

Lemma lowerChar_idempotent (c : ascii) :
  GameLauncher.lowerChar (GameLauncher.lowerChar c) = GameLauncher.lowerChar c.
Proof. destruct c as [[] [] [] [] [] [] [] []]; vm_compute; reflexivity. Qed.

Lemma toLowerCase_idempotent (s : string) :
  GameLauncher.toLowerCase (GameLauncher.toLowerCase s) = GameLauncher.toLowerCase s.
Proof.
  induction s as [|c s IH]; [ reflexivity | ].
  cbn [GameLauncher.toLowerCase]. rewrite lowerChar_idempotent, IH. reflexivity.
Qed.

Lemma toLowerCase_truthy (s : string) :
  JS.truthy (GameLauncher.toLowerCase s) = JS.truthy s.
Proof. destruct s; reflexivity. Qed.

(** X11. [searchVersions] is a search for a piece of text that ignores
    case: an empty query returns the whole catalog; any other query
    returns, in catalog order, exactly the versions whose id or whose
    type, in lower case, contains the query in lower case; and a query
    and its lower-case form find the same versions. *)
Theorem searchVersions_substring (query : string) (w : World) :
  exists found,
    VersionSearch.searchVersions query w = (Returned found, w)
    /\ (query = "" -> found = versions (versionManager w))
    /\ (query <> "" ->
        found = List.filter
                  (fun v => JS.includes (GameLauncher.toLowerCase (version_id v))
                                        (GameLauncher.toLowerCase query)
                            || JS.includes (GameLauncher.toLowerCase (version_type v))
                                           (GameLauncher.toLowerCase query))
                  (versions (versionManager w))
        /\ forall v,
            In v found <->
            In v (versions (versionManager w))
            /\ (occursIn (GameLauncher.toLowerCase query)
                         (GameLauncher.toLowerCase (version_id v))
                \/ occursIn (GameLauncher.toLowerCase query)
                            (GameLauncher.toLowerCase (version_type v))))
    /\ VersionSearch.searchVersions (GameLauncher.toLowerCase query) w
       = (Returned found, w).
Proof.
  unfold VersionSearch.searchVersions, gets.
  rewrite toLowerCase_truthy, toLowerCase_idempotent.
  eexists. split; [ reflexivity | ].
  split; [ intros ->; reflexivity | ].
  split; [ | reflexivity ].
  intros Hquery. destruct query as [|c query]; [ contradiction | ].
  cbn [JS.truthy negb]. split; [ reflexivity | ].
  intros v. rewrite filter_In, orb_true_iff, !includes_occursIn. reflexivity.
Qed.

(** Every version is found by its own id, however the id is
    capitalised in the query. *)
Lemma searchVersions_finds_by_id (query : string) (v : Version) (w : World) :
  In v (versions (versionManager w)) ->
  version_id v <> "" ->
  GameLauncher.toLowerCase query = GameLauncher.toLowerCase (version_id v) ->
  exists found,
    VersionSearch.searchVersions query w = (Returned found, w) /\ In v found.
Proof.
  intros Hin Hid Hquery.
  unfold VersionSearch.searchVersions, gets.
  eexists. split; [ reflexivity | ].
  assert (Htruthy : JS.truthy query = true).
  { rewrite <- toLowerCase_truthy, Hquery, toLowerCase_truthy.
    destruct (version_id v); [ contradiction | reflexivity ]. }
  rewrite Htruthy. cbn [negb].
  apply filter_In. split; [ exact Hin | ].
  apply orb_true_iff. left. rewrite Hquery.
  apply includes_occursIn. exists "", "".
  change ("" +:+ GameLauncher.toLowerCase (version_id v) +:+ "")
    with (GameLauncher.toLowerCase (version_id v) +:+ "").
  clear. induction (GameLauncher.toLowerCase (version_id v)) as [|c s IH];
    [ reflexivity | ].
  change (String c s +:+ "") with (String c (s +:+ "")). rewrite <- IH. reflexivity.
Qed.

Lemma searchVersions_finds_by_id_witness :
  exists found,
    VersionSearch.searchVersions "24W21B" Sample.fresh = (Returned found, Sample.fresh)
    /\ In (VersionManager.mockVersion "24w21b" "snapshot" "2024-05-24T12:15:32+00:00"
             "2024-05-24T12:15:32+00:00" "ghi789" 1) found.
Proof.
  apply (searchVersions_finds_by_id "24W21B").
  - vm_compute. auto 10.
  - discriminate.
  - vm_compute. reflexivity.
Defined.

(** ** What a version needs *)

Lemma prefix_1_17_excludes (versionId : string) :
  JS.startsWith "1.17" versionId = true ->
  JS.startsWith "1.21" versionId = false
  /\ JS.startsWith "1.20" versionId = false
  /\ JS.startsWith "1.19" versionId = false
  /\ JS.startsWith "1.18" versionId = false
  /\ JS.startsWith "1.16" versionId = false
  /\ JS.startsWith "1.12" versionId = false
  /\ JS.startsWith "1.8" versionId = false.
Proof.
  intros H. apply startsWith_split in H. rewrite H.
  generalize (JS.dropStr (String.length "1.17") versionId). intros rest.
  conjs; reflexivity.
Qed.

Lemma prefix_1_16_excludes (versionId : string) :
  JS.startsWith "1.16" versionId = true ->
  JS.startsWith "1.21" versionId = false
  /\ JS.startsWith "1.20" versionId = false
  /\ JS.startsWith "1.19" versionId = false
  /\ JS.startsWith "1.18" versionId = false
  /\ JS.startsWith "1.17" versionId = false.
Proof.
  intros H. apply startsWith_split in H. rewrite H.
  generalize (JS.dropStr (String.length "1.16") versionId). intros rest.
  conjs; reflexivity.
Qed.

(** X12. The Java runtime a version asks for: the major version is 8,
    17 or 21; it is 21 exactly for the component java-runtime-delta, and
    the component java-runtime-beta always comes with 17.  The pairing
    is not one to one: an id that starts with 1.17 gets the component
    java-runtime-alpha with Java 17, and with it the asset index
    [legacy], while an id that starts with 1.16 gets the same component
    with Java 8. *)
Theorem java_requirements (versionId : string) :
  let major := VersionManager.getJavaMajorVersion versionId in
  let component := VersionManager.getJavaVersion versionId in
  In major [8; 17; 21]
  /\ (major = 21 <-> component = "java-runtime-delta")
  /\ (component = "java-runtime-beta" -> major = 17)
  /\ (JS.startsWith "1.17" versionId = true ->
      major = 17 /\ component = "java-runtime-alpha"
      /\ VersionManager.getAssetIndex versionId = "legacy")
  /\ (JS.startsWith "1.16" versionId = true ->
      major = 8 /\ component = "java-runtime-alpha").
Proof.
  cbv zeta. split; [ | split; [ | split; [ | split ] ] ].
  - unfold VersionManager.getJavaMajorVersion.
    destruct (JS.startsWith "1.21" versionId), (JS.startsWith "1.20" versionId),
      (JS.startsWith "1.19" versionId), (JS.startsWith "1.18" versionId),
      (JS.startsWith "1.17" versionId), (JS.startsWith "1.16" versionId);
      cbn [orb In]; auto.
  - unfold VersionManager.getJavaMajorVersion, VersionManager.getJavaVersion.
    destruct (JS.startsWith "1.21" versionId), (JS.startsWith "1.20" versionId),
      (JS.startsWith "1.19" versionId), (JS.startsWith "1.18" versionId),
      (JS.startsWith "1.17" versionId), (JS.startsWith "1.16" versionId);
      cbn [orb]; split; intros H; first [ reflexivity | discriminate H ].
  - unfold VersionManager.getJavaMajorVersion, VersionManager.getJavaVersion.
    destruct (JS.startsWith "1.21" versionId), (JS.startsWith "1.20" versionId),
      (JS.startsWith "1.19" versionId), (JS.startsWith "1.18" versionId),
      (JS.startsWith "1.17" versionId), (JS.startsWith "1.16" versionId);
      cbn [orb]; intros H; first [ reflexivity | discriminate H ].
  - intros H17.
    destruct (prefix_1_17_excludes versionId H17)
      as (H21 & H20 & H19 & H18 & H16 & H12 & H8).
    unfold VersionManager.getJavaMajorVersion, VersionManager.getJavaVersion,
      VersionManager.getAssetIndex.
    rewrite H21, H20, H19, H18, H17, H16, H12, H8. cbn [orb]. auto.
  - intros H16.
    destruct (prefix_1_16_excludes versionId H16) as (H21 & H20 & H19 & H18 & H17).
    unfold VersionManager.getJavaMajorVersion, VersionManager.getJavaVersion.
    rewrite H21, H20, H19, H18, H17, H16. cbn [orb]. auto.
Qed.

Example java_requirements_samples :
  map (fun id => (VersionManager.getJavaVersion id,
                  VersionManager.getJavaMajorVersion id,
                  VersionManager.getAssetIndex id))
      ["1.21.1"; "1.18.2"; "1.17.1"; "1.16.5"; "1.8.9"; "24w21b"]
  = [ ("java-runtime-delta", 21, "8"); ("java-runtime-beta", 17, "5");
      ("java-runtime-alpha", 17, "legacy"); ("java-runtime-alpha", 8, "4");
      ("jre-legacy", 8, "1.8"); ("jre-legacy", 8, "legacy") ].
Proof. vm_compute. reflexivity. Qed.

(** ** A version the catalog does not have *)

(** X13. Asking for a version that is not in the catalog: the size
    calculation and the download both fail with the message of
    [getVersionDetails] and leave the whole state as it was.  The
    download looks the version up before its [try] block, so this is
    the one failure of [downloadVersion] that shows no notification.
    [launchGame], which looks it up inside its [try] block, does show
    one, and changes nothing else. *)
Theorem unknown_version (versionId : string) (modLoader serverAddress : option string)
        (w : World) :
  VersionManager.getVersionById (versions (versionManager w)) versionId = None ->
  let message := "Version " +:+ versionId +:+ " not found" in
  VersionManager.calculateDownloadSize versionId modLoader w = (Thrown message, w)
  /\ DownloadManager.downloadVersion versionId modLoader w = (Thrown message, w)
  /\ (fst (AuthManager.isAuthenticated w) = Returned true ->
      versionId ∈ installedVersions (versionManager w) ->
      GameLauncher.launchGame versionId modLoader serverAddress w
      = (Thrown message,
         with_notifications
           (fun l => l ++ [{| notification_message := "Launch failed: " +:+ message;
                              notification_type := "error" |}]) w)).
Proof.
  intros Hv message.
  pose proof (getVersionDetails_unknown versionId w Hv) as Hd. fold message in Hd.
  split; [ | split ].
  - unfold VersionManager.calculateDownloadSize, bind. rewrite Hd. reflexivity.
  - unfold DownloadManager.downloadVersion, bind. rewrite Hd. reflexivity.
  - intros Ha Hi.
    unfold GameLauncher.launchGame, AuthManager.isAuthenticated,
      VersionManager.isVersionInstalled, AuthManager.getCurrentUser in *.
    unfold gets in Ha. cbn [fst] in Ha.
    unfold tryCatch. unfold bind at 1. unfold gets at 1.
    destruct (currentUser (authManager w)) as [user|] eqn:Hu;
      [ | discriminate Ha ].
    destruct (authType (authManager w)) as [type|]; [ | discriminate Ha ].
    cbn [negb]. unfold bind at 1. unfold ret at 1.
    unfold bind at 1. unfold gets at 1.
    rewrite (bool_decide_eq_true_2 _ Hi). cbn [negb].
    unfold bind at 1. unfold ret at 1.
    unfold bind at 1. unfold gets at 1. rewrite Hu.
    unfold bind at 1. rewrite Hd. reflexivity.
Qed.

Lemma unknown_version_witness :
  let message := "Version " +:+ "1.7.10" +:+ " not found" in
  VersionManager.calculateDownloadSize "1.7.10" None Sample.fresh
  = (Thrown message, Sample.fresh)
  /\ DownloadManager.downloadVersion "1.7.10" None Sample.fresh
     = (Thrown message, Sample.fresh)
  /\ (fst (AuthManager.isAuthenticated Sample.fresh) = Returned true ->
      "1.7.10" ∈ installedVersions (versionManager Sample.fresh) ->
      GameLauncher.launchGame "1.7.10" None None Sample.fresh
      = (Thrown message,
         with_notifications
           (fun l => l ++ [{| notification_message := "Launch failed: " +:+ message;
                              notification_type := "error" |}]) Sample.fresh)).
Proof.
  apply (unknown_version "1.7.10" None None Sample.fresh).
  vm_compute. reflexivity.
Defined.

(** ** The progress timers *)

Lemma progressTimer_pending (ticks : nat) (parts totalSize downloaded : Z) :
  0 <= totalSize / parts ->
  downloaded + Z.of_nat ticks * (totalSize / parts) < totalSize ->
  DownloadManager.progressTimer ticks parts totalSize downloaded = None.
Proof.
  revert downloaded. induction ticks as [|ticks IH]; intros downloaded Hchunk Hshort;
    [ reflexivity | ].
  cbn [DownloadManager.progressTimer]. cbv zeta.
  destruct (totalSize <=? downloaded + totalSize / parts) eqn:E.
  - apply Z.leb_le in E. nia.
  - rewrite IH; [ reflexivity | exact Hchunk | nia ].
Qed.

Lemma progressTimer_run (more ticks : nat) (parts totalSize downloaded : Z) :
  downloaded + Z.of_nat more * (totalSize / parts) < totalSize ->
  totalSize <= downloaded + (Z.of_nat more + 1) * (totalSize / parts) ->
  (more < ticks)%nat ->
  DownloadManager.progressTimer ticks parts totalSize downloaded
  = Some (repeat (totalSize / parts) (Datatypes.S more)).
Proof.
  revert ticks downloaded.
  induction more as [|more IH]; intros ticks downloaded Hshort Hreach Hticks;
    (destruct ticks as [|ticks]; [ lia | ]);
    cbn [DownloadManager.progressTimer]; cbv zeta.
  - destruct (totalSize <=? downloaded + totalSize / parts) eqn:E;
      [ reflexivity | apply Z.leb_gt in E; lia ].
  - destruct (totalSize <=? downloaded + totalSize / parts) eqn:E.
    + apply Z.leb_le in E. nia.
    + rewrite (IH ticks (downloaded + totalSize / parts)); [ reflexivity | | | lia ]; nia.
Qed.

Lemma sum_repeat (x : Z) (n : nat) :
  VersionManager.sum (repeat x n) = Z.of_nat n * x.
Proof.
  induction n as [|n IH]; [ reflexivity | ].
  cbn [repeat]. unfold VersionManager.sum in *. cbn [fold_right]. rewrite IH. lia.
Qed.

(** A progress timer over a total of at least [parts] bytes
    resolves: with chunks of [floor(total / parts)] bytes it takes a
    fixed number of ticks, at least [parts] and fewer than twice as
    many, is pending at every earlier tick, and by then has reported at
    least the total and less than one chunk more: the progress it
    feeds to the caller can overshoot the size it was given. *)
Lemma progressTimer_resolves (parts totalSize : Z) :
  0 < parts <= totalSize ->
  exists n : nat,
    parts <= Z.of_nat n < 2 * parts
    /\ (forall ticks, (n <= ticks)%nat ->
          DownloadManager.progressTimer ticks parts totalSize 0
          = Some (repeat (totalSize / parts) n))
    /\ (forall ticks, (ticks < n)%nat ->
          DownloadManager.progressTimer ticks parts totalSize 0 = None)
    /\ totalSize <= VersionManager.sum (repeat (totalSize / parts) n)
       < totalSize + totalSize / parts.
Proof.
  intros [Hparts Htotal].
  set (chunk := totalSize / parts).
  assert (Hchunk : 1 <= chunk).
  { unfold chunk. apply Z.div_le_lower_bound; lia. }
  assert (Hlow : parts * chunk <= totalSize).
  { unfold chunk. apply Z.mul_div_le. lia. }
  assert (Hhigh : totalSize < parts * chunk + parts).
  { unfold chunk. pose proof (Z.mod_pos_bound totalSize parts Hparts).
    pose proof (Z.div_mod totalSize parts). lia. }
  set (m := (totalSize - 1) / chunk).
  assert (Hm : m * chunk <= totalSize - 1 < m * chunk + chunk).
  { unfold m. pose proof (Z.mod_pos_bound (totalSize - 1) chunk).
    pose proof (Z.div_mod (totalSize - 1) chunk). nia. }
  assert (Hm0 : 0 <= m) by (unfold m; apply Z.div_pos; lia).
  exists (Datatypes.S (Z.to_nat m)).
  rewrite sum_repeat. fold chunk.
  replace (Z.of_nat (Datatypes.S (Z.to_nat m))) with (m + 1) by lia.
  split; [ nia | ].
  split; [ | split; [ | nia ] ].
  - intros ticks Hticks. apply progressTimer_run; fold chunk.
    + rewrite Z2Nat.id by lia. lia.
    + rewrite Z2Nat.id by lia. lia.
    + lia.
  - intros ticks Hticks. apply progressTimer_pending; fold chunk; [ lia | ].
    assert (Z.of_nat ticks <= m) by lia. nia.
Qed.

(** A progress timer over a total that is positive but smaller than
    [parts] never resolves: its chunk is zero bytes. *)
Lemma progressTimer_stalls (parts totalSize : Z) (ticks : nat) :
  0 < totalSize < parts ->
  DownloadManager.progressTimer ticks parts totalSize 0 = None.
Proof.
  intros [Hpos Hlt].
  apply progressTimer_pending; rewrite Z.div_small by lia; lia.
Qed.

(** A total of zero or less resolves at the first tick. *)
Lemma progressTimer_at_once (parts totalSize : Z) (ticks : nat) :
  0 < parts -> totalSize <= 0 ->
  DownloadManager.progressTimer (Datatypes.S ticks) parts totalSize 0
  = Some [totalSize / parts].
Proof.
  intros Hparts Hnone. cbn [DownloadManager.progressTimer]. cbv zeta.
  assert (totalSize <= totalSize / parts).
  { apply Z.div_le_lower_bound; [ lia | nia ]. }
  destruct (totalSize <=? 0 + totalSize / parts) eqn:E;
    [ reflexivity | apply Z.leb_gt in E; lia ].
Qed.

(** X14. Whether a progress timer resolves depends on the total alone.
    With a total of at least [parts] bytes it resolves after a fixed
    number of ticks, at least [parts] and fewer than twice as many,
    is pending at every earlier tick, and has then reported at least
    the total and less than one chunk more, so the progress it feeds
    to the caller can overshoot the size it was given.  With a total
    that is positive but below [parts] the chunk is zero bytes and the
    timer never resolves.  With a total of zero or less it resolves at
    the first tick. *)
Theorem progressTimer_outcome (parts totalSize : Z) :
  0 < parts ->
  (parts <= totalSize ->
   exists n : nat,
     parts <= Z.of_nat n < 2 * parts
     /\ (forall ticks, (n <= ticks)%nat ->
           DownloadManager.progressTimer ticks parts totalSize 0
           = Some (repeat (totalSize / parts) n))
     /\ (forall ticks, (ticks < n)%nat ->
           DownloadManager.progressTimer ticks parts totalSize 0 = None)
     /\ totalSize <= VersionManager.sum (repeat (totalSize / parts) n)
        < totalSize + totalSize / parts)
  /\ (0 < totalSize < parts ->
      forall ticks, DownloadManager.progressTimer ticks parts totalSize 0 = None)
  /\ (totalSize <= 0 ->
      forall ticks,
        DownloadManager.progressTimer (Datatypes.S ticks) parts totalSize 0
        = Some [totalSize / parts]).
Proof.
  intros Hparts. split; [ | split ].
  - intros Htotal. apply progressTimer_resolves. lia.
  - intros Hsmall ticks. exact (progressTimer_stalls parts totalSize ticks Hsmall).
  - intros Hnone ticks. exact (progressTimer_at_once parts totalSize ticks Hparts Hnone).
Qed.

Lemma progressTimer_outcome_witness :
  (200 <= 234567890 ->
   exists n : nat,
     200 <= Z.of_nat n < 2 * 200
     /\ (forall ticks, (n <= ticks)%nat ->
           DownloadManager.progressTimer ticks 200 234567890 0
           = Some (repeat (234567890 / 200) n))
     /\ (forall ticks, (ticks < n)%nat ->
           DownloadManager.progressTimer ticks 200 234567890 0 = None)
     /\ 234567890 <= VersionManager.sum (repeat (234567890 / 200) n)
        < 234567890 + 234567890 / 200)
  /\ (0 < 234567890 < 200 ->
      forall ticks, DownloadManager.progressTimer ticks 200 234567890 0 = None)
  /\ (234567890 <= 0 ->
      forall ticks,
        DownloadManager.progressTimer (Datatypes.S ticks) 200 234567890 0
        = Some [234567890 / 200]).
Proof. apply (progressTimer_outcome 200 234567890). lia. Defined.

Example progressTimer_samples :
  DownloadManager.progressTimer 1000 50 49 0 = None
  /\ DownloadManager.progressTimer 1 50 0 0 = Some [0]
  /\ option_map (@length Z) (DownloadManager.progressTimer 100 50 99 0) = Some 99%nat.
Proof. vm_compute. conjs; reflexivity. Qed.

Lemma getModLoaderSize_values (modLoader : string) :
  In (VersionManager.getModLoaderSize modLoader) [0; 15000000; 5000000; 8000000].
Proof.
  unfold VersionManager.getModLoaderSize, JS.lookupOr, VersionManager.modLoaderSizes.
  destruct (decide (modLoader = "forge")) as [-> | Hforge];
    [ vm_compute; auto | ].
  destruct (decide (modLoader = "fabric")) as [-> | Hfabric];
    [ vm_compute; auto | ].
  destruct (decide (modLoader = "optifine")) as [-> | Hoptifine];
    [ vm_compute; auto | ].
  unfold list_to_map. cbn [foldr fst snd].
  rewrite !lookup_insert_ne by congruence. rewrite lookup_empty.
  left. reflexivity.
Qed.

(** X15. For the totals the program hands them, both timers
    resolve: the assets of every version resolve at tick 201, having reported 235740639 bytes for a total of 234567890;
    a mod loader resolves within 50 ticks and reports exactly its size,
    an unknown loader resolving at once with nothing reported. *)
Theorem program_timers_resolve (version : Version) (libraries : list Library)
        (modLoader : string) :
  JS.plainKey modLoader ->
  let assetIndex :=
    details_assetIndex (VersionManager.versionDetailsOf version libraries) in
  (forall ticks, (201 <= ticks)%nat ->
     DownloadManager.downloadAssetsTimer ticks assetIndex = Some (repeat 1172839 201))
  /\ VersionManager.sum (repeat 1172839 201) = 235740639
  /\ assetIndex_totalSize assetIndex = 234567890
  /\ exists chunks,
       (length chunks <= 50)%nat
       /\ (forall ticks, (50 <= ticks)%nat ->
             DownloadManager.downloadModLoaderTimer ticks modLoader = Some chunks)
       /\ VersionManager.sum chunks = VersionManager.getModLoaderSize modLoader.
Proof.
  intros _. cbv zeta.
  split; [ | split; [ vm_compute; reflexivity | split; [ reflexivity | ] ] ].
  - intros ticks Hticks. unfold DownloadManager.downloadAssetsTimer.
    cbn [details_assetIndex VersionManager.versionDetailsOf assetIndex_totalSize].
    change 1172839 with (234567890 / 200).
    apply (progressTimer_run 200 ticks 200 234567890 0); [ | | lia ];
      vm_compute; congruence.
  - unfold DownloadManager.downloadModLoaderTimer.
    pose proof (getModLoaderSize_values modLoader) as Hsize. cbn [In] in Hsize.
    destruct Hsize as [<- | [<- | [<- | [<- | []]]]].
    + exists [0]. split; [ cbn; lia | ]. split; [ | reflexivity ].
      intros [|ticks] Hticks; [ lia | reflexivity ].
    + exists (repeat (15000000 / 50) 50).
      split; [ rewrite repeat_length; lia | ].
      split; [ | vm_compute; reflexivity ].
      intros ticks Hticks.
      apply (progressTimer_run 49 ticks 50 15000000 0); [ | | lia ];
        vm_compute; congruence.
    + exists (repeat (5000000 / 50) 50).
      split; [ rewrite repeat_length; lia | ].
      split; [ | vm_compute; reflexivity ].
      intros ticks Hticks.
      apply (progressTimer_run 49 ticks 50 5000000 0); [ | | lia ];
        vm_compute; congruence.
    + exists (repeat (8000000 / 50) 50).
      split; [ rewrite repeat_length; lia | ].
      split; [ | vm_compute; reflexivity ].
      intros ticks Hticks.
      apply (progressTimer_run 49 ticks 50 8000000 0); [ | | lia ];
        vm_compute; congruence.
Qed.

Lemma program_timers_resolve_witness :
  let assetIndex :=
    details_assetIndex (VersionManager.versionDetailsOf Sample.version_1_20_4 []) in
  (forall ticks, (201 <= ticks)%nat ->
     DownloadManager.downloadAssetsTimer ticks assetIndex = Some (repeat 1172839 201))
  /\ VersionManager.sum (repeat 1172839 201) = 235740639
  /\ assetIndex_totalSize assetIndex = 234567890
  /\ exists chunks,
       (length chunks <= 50)%nat
       /\ (forall ticks, (50 <= ticks)%nat ->
             DownloadManager.downloadModLoaderTimer ticks "fabric" = Some chunks)
       /\ VersionManager.sum chunks = VersionManager.getModLoaderSize "fabric".
Proof.
  apply (program_timers_resolve Sample.version_1_20_4 [] "fabric").
  unfold JS.plainKey, JS.objectPrototypeKeys.
  simpl. intros H. repeat (destruct H as [H | H]; [ discriminate H | ]). exact H.
Defined.

(** ** Downloads under way *)

Lemma withStatus_back (download : Download) (status : DownloadStatus) :
  DownloadManager.withStatus (download_status download) (download_error download)
    (DownloadManager.withStatus status (download_error download) download)
  = download.
Proof. destruct download; reflexivity. Qed.

Lemma with_downloadManager_same (w : World) :
  with_downloadManager
    (fun dm => {| activeDownloads := activeDownloads (downloadManager w);
                  downloadStats := downloadStats dm |}) w = w.
Proof. destruct w as [a v [ad ds] g l p b n c dl]. reflexivity. Qed.

(** X16. Pausing and resuming only flip the status of one entry.
    [pauseDownload] does nothing at all, and shows nothing, unless the
    entry exists and is downloading; [resumeDownload] likewise unless it
    is paused.  Pausing a download that is under way marks it paused
    and keeps its byte counts; resuming it then gives back the download
    manager exactly as it was, with the two notifications shown. *)
Theorem pause_resume (downloadId : string) (w : World) :
  let status :=
    option_map download_status (activeDownloads (downloadManager w) !! downloadId) in
  (status <> Some downloading ->
   DownloadManager.pauseDownload downloadId w = (Returned tt, w))
  /\ (status <> Some paused ->
      DownloadManager.resumeDownload downloadId w = (Returned tt, w))
  /\ (forall download,
        activeDownloads (downloadManager w) !! downloadId = Some download ->
        download_status download = downloading ->
        let w1 := snd (DownloadManager.pauseDownload downloadId w) in
        let w2 := snd (DownloadManager.resumeDownload downloadId w1) in
        activeDownloads (downloadManager w1) !! downloadId
        = Some (DownloadManager.withStatus paused (download_error download) download)
        /\ (forall other, other <> downloadId ->
              activeDownloads (downloadManager w1) !! other
              = activeDownloads (downloadManager w) !! other)
        /\ downloadManager w2 = downloadManager w
        /\ notifications w2
           = notifications w
             ++ [ {| notification_message := "Download paused";
                     notification_type := "info" |};
                  {| notification_message := "Download resumed";
                     notification_type := "info" |} ]).
Proof.
  cbv zeta. split; [ | split ].
  - unfold DownloadManager.pauseDownload, DownloadManager.getActiveDownload.
    unfold bind at 1. unfold gets.
    destruct (activeDownloads (downloadManager w) !! downloadId) as [d|];
      [ | reflexivity ].
    cbn [option_map]. destruct (download_status d); intros H;
      first [ reflexivity | contradiction H; reflexivity ].
  - unfold DownloadManager.resumeDownload, DownloadManager.getActiveDownload.
    unfold bind at 1. unfold gets.
    destruct (activeDownloads (downloadManager w) !! downloadId) as [d|];
      [ | reflexivity ].
    cbn [option_map]. destruct (download_status d); intros H;
      first [ reflexivity | contradiction H; reflexivity ].
  - intros download Hentry Hstatus.
    set (pausedEntry := DownloadManager.withStatus paused (download_error download)
                                                   download).
    set (w1 := with_notifications
                 (fun l => l ++ [{| notification_message := "Download paused";
                                    notification_type := "info" |}])
                 (with_downloadManager
                    (fun dm => {| activeDownloads :=
                                    <[downloadId := pausedEntry]> (activeDownloads dm);
                                  downloadStats := downloadStats dm |}) w)).
    assert (Hpause : DownloadManager.pauseDownload downloadId w = (Returned tt, w1)).
    { unfold DownloadManager.pauseDownload, DownloadManager.getActiveDownload.
      unfold bind at 1. unfold gets at 1. rewrite Hentry, Hstatus. reflexivity. }
    assert (Hpaused : activeDownloads (downloadManager w1) !! downloadId
                      = Some pausedEntry).
    { unfold w1. projections.
      cbn [downloadManager activeDownloads with_downloadManager].
      apply lookup_insert_eq. }
    assert (Hresume : DownloadManager.resumeDownload downloadId w1
                      = (Returned tt,
                         with_notifications
                           (fun l => l ++ [{| notification_message := "Download resumed";
                                              notification_type := "info" |}])
                           (with_downloadManager
                              (fun dm =>
                                 {| activeDownloads :=
                                      <[downloadId :=
                                          DownloadManager.withStatus downloading
                                            (download_error pausedEntry) pausedEntry]>
                                        (activeDownloads dm);
                                    downloadStats := downloadStats dm |}) w1))).
    { unfold DownloadManager.resumeDownload, DownloadManager.getActiveDownload.
      unfold bind at 1. unfold gets at 1. rewrite Hpaused. reflexivity. }
    rewrite Hpause. cbn [snd]. rewrite Hresume. cbn [snd].
    split; [ exact Hpaused | ].
    split.
    { intros other Hother. unfold w1. projections.
      cbn [downloadManager activeDownloads with_downloadManager].
      apply lookup_insert_ne. congruence. }
    split.
    + unfold w1. projections.
      cbn [downloadManager activeDownloads downloadStats with_downloadManager
           with_notifications].
      rewrite insert_insert_eq.
      pose proof (withStatus_back download paused) as Hback.
      rewrite Hstatus in Hback. fold pausedEntry in Hback.
      replace (download_error pausedEntry) with (download_error download)
        by reflexivity.
      rewrite Hback. rewrite (insert_id _ _ _ Hentry).
      destruct (downloadManager w); reflexivity.
    + unfold w1. projections. cbn [notifications with_notifications with_downloadManager].
      rewrite <- app_assoc. reflexivity.
Qed.

(** X17. Cancelling removes one entry and tells the user only when
    there was something to cancel: [cancelDownload] leaves every other
    entry and the statistics alone, changes nothing at all for an id
    that is not active, and adds one notification otherwise; after it
    the id is gone, so cancelling again is silent.  [cancelAllDownloads]
    empties the map and always shows its notification, even when no
    download was active. *)
Theorem cancelDownload_removes (downloadId : string) (w : World) :
  let w' := snd (DownloadManager.cancelDownload downloadId w) in
  let wAll := snd (DownloadManager.cancelAllDownloads w) in
  activeDownloads (downloadManager w')
  = delete downloadId (activeDownloads (downloadManager w))
  /\ downloadStats (downloadManager w') = downloadStats (downloadManager w)
  /\ (activeDownloads (downloadManager w) !! downloadId = None -> w' = w)
  /\ (activeDownloads (downloadManager w) !! downloadId <> None ->
      notifications w'
      = notifications w ++ [{| notification_message := "Download cancelled";
                               notification_type := "info" |}])
  /\ DownloadManager.cancelDownload downloadId w' = (Returned tt, w')
  /\ activeDownloads (downloadManager wAll) = ∅
  /\ downloadStats (downloadManager wAll) = downloadStats (downloadManager w)
  /\ notifications wAll
     = notifications w ++ [{| notification_message := "All downloads cancelled";
                              notification_type := "info" |}].
Proof.
  cbv zeta.
  assert (Hgone : forall w0,
             activeDownloads (downloadManager w0) !! downloadId = None ->
             DownloadManager.cancelDownload downloadId w0 = (Returned tt, w0)).
  { intros w0 H0. unfold DownloadManager.cancelDownload, DownloadManager.getActiveDownload.
    unfold bind at 1. unfold gets at 1. rewrite H0. reflexivity. }
  destruct (activeDownloads (downloadManager w) !! downloadId) as [download|] eqn:Hentry.
  - assert (Hcancel :
        DownloadManager.cancelDownload downloadId w
        = (Returned tt,
           with_notifications
             (fun l => l ++ [{| notification_message := "Download cancelled";
                                notification_type := "info" |}])
             (DownloadManager.deleteActiveDownload downloadId w))).
    { unfold DownloadManager.cancelDownload, DownloadManager.getActiveDownload.
      unfold bind at 1. unfold gets at 1. rewrite Hentry. reflexivity. }
    rewrite Hcancel. cbn [snd]. unfold DownloadManager.deleteActiveDownload.
    projections. cbn [downloadManager activeDownloads downloadStats
                      with_downloadManager with_notifications notifications].
    split; [ reflexivity | ]. split; [ reflexivity | ].
    split; [ discriminate | ]. split; [ reflexivity | ].
    split; [ | conjs; reflexivity ].
    apply Hgone. projections.
    cbn [downloadManager activeDownloads with_downloadManager with_notifications].
    apply lookup_delete_eq.
  - rewrite (Hgone w Hentry). cbn [snd].
    split; [ symmetry; apply delete_id; exact Hentry | ].
    split; [ reflexivity | ]. split; [ reflexivity | ].
    split; [ intros H; contradiction H; reflexivity | ].
    split; [ exact (Hgone w Hentry) | conjs; reflexivity ].
Qed.

(** X18. [cleanupOldDownloads] keeps exactly the entries that started
    within the last 24 hours: an entry is in the map afterwards if and
    only if it was there before and its start time is not more than
    86400000 ms before the time read from the clock, an entry exactly
    24 hours old included; the statistics stay. *)
Theorem cleanupOldDownloads_keeps_recent (w : World) :
  let now := shead (clock (chance w)) in
  let w' := snd (DownloadManager.cleanupOldDownloads w) in
  (forall downloadId download,
     activeDownloads (downloadManager w') !! downloadId = Some download
     <-> activeDownloads (downloadManager w) !! downloadId = Some download
         /\ now - 86400000 <= download_startTime download)
  /\ downloadStats (downloadManager w') = downloadStats (downloadManager w)
  /\ notifications w' = notifications w.
Proof.
  cbv zeta. unfold DownloadManager.cleanupOldDownloads, dateNow, bind, modify.
  cbn [fst snd]. projections.
  cbn [downloadManager activeDownloads downloadStats with_downloadManager with_chance
       notifications].
  split; [ | split; reflexivity ].
  intros downloadId download. rewrite map_lookup_filter_Some. cbn [snd].
  change (24 * 60 * 60 * 1000) with 86400000.
  split; intros [Hin Hage]; (split; [ exact Hin | lia ]).
Qed.

(** ** A launch from start to end *)

Lemma post_gets {A} (f : World -> A) (w : World) (Q : outcome A -> World -> Prop) :
  Q (Returned (f w)) w -> post (gets f) w Q.
Proof. intros H. exact H. Qed.

Lemma with_notifications_nil (w : World) :
  with_notifications (fun l => l ++ []) w = w.
Proof.
  destruct w. unfold with_notifications. cbn. rewrite app_nil_r. reflexivity.
Qed.

Lemma with_notifications_twice (f g : list Notification -> list Notification)
      (w : World) :
  with_notifications f (with_notifications g w)
  = with_notifications (fun l => f (g l)) w.
Proof. reflexivity. Qed.

Lemma with_notifications_ext (f g : list Notification -> list Notification)
      (w : World) :
  (forall l, f l = g l) -> with_notifications f w = with_notifications g w.
Proof. intros H. unfold with_notifications. rewrite H. reflexivity. Qed.

(** Showing a list of steps appends one notification for each. *)
Lemma forEachM_showNotification (type : string) (steps : list string) (w : World) :
  forEachM (fun step => showNotification step type) steps w
  = (Returned tt, with_notifications (fun l => l ++ map (note type) steps) w).
Proof.
  revert w. induction steps as [|step steps IH]; intros w.
  - cbn [forEachM map]. rewrite with_notifications_nil. reflexivity.
  - cbn [forEachM map]. rewrite bind_showNotification, IH.
    rewrite with_notifications_twice. f_equal.
    apply with_notifications_ext. intros l. rewrite <- app_assoc. reflexivity.
Qed.

Lemma afterLibraryDraws_bodyOpacity (n : nat) (w : World) :
  bodyOpacity (VersionManager.afterLibraryDraws n w) = bodyOpacity w.
Proof.
  revert w. induction n as [|n IH]; intros w; [ reflexivity | ].
  cbn [VersionManager.afterLibraryDraws]. rewrite IH. reflexivity.
Qed.

Lemma getVersionById_id (vs : list Version) (versionId : string) (version : Version) :
  VersionManager.getVersionById vs versionId = Some version ->
  version_id version = versionId /\ In version vs.
Proof.
  unfold VersionManager.getVersionById. intros H.
  apply find_some in H. destruct H as [Hin Heq].
  apply String.eqb_eq in Heq. split; assumption.
Qed.

Lemma prepareLaunchParameters_identity (user : User) (versionDetails : VersionDetails)
      (modLoader serverAddress : option string) (w : World) :
  exists params,
    GameLauncher.prepareLaunchParameters user versionDetails modLoader serverAddress w
    = (Returned params, w)
    /\ params_versionId params = details_id versionDetails
    /\ params_user params = user
    /\ params_modLoader params = modLoader.
Proof.
  destruct (buildGameArguments_returns user versionDetails GameLauncher.getGameDirectory
              GameLauncher.getAssetsDirectory serverAddress w) as [templated Hg].
  eexists.
  unfold GameLauncher.prepareLaunchParameters. cbv zeta.
  unfold GameLauncher.buildClasspath, GameLauncher.getPathSeparator,
    GameLauncher.buildJVMArguments.
  unfold bind at 1. unfold bind at 1. unfold gets at 1. unfold ret at 1.
  unfold bind at 1. unfold gets at 1.
  unfold bind at 1. rewrite Hg. unfold ret.
  split; [ reflexivity | ]. cbn [params_versionId params_user params_modLoader].
  conjs; reflexivity.
Qed.

(** The checks and preparations of [launchGame], up to the simulated
    start: they succeed for a signed-in user and an installed version
    of the catalog, and only draw library sizes. *)
Lemma launchGame_prepared (w : World) (versionId : string)
      (modLoader serverAddress : option string) (user : User) (type : string)
      (version : Version) (Q : outcome bool -> World -> Prop) :
  currentUser (authManager w) = Some user ->
  authType (authManager w) = Some type ->
  versionId ∈ installedVersions (versionManager w) ->
  VersionManager.getVersionById (versions (versionManager w)) versionId = Some version ->
  (forall params,
     params_versionId params = versionId ->
     params_user params = user ->
     let w1 := with_notifications
                 (fun l => l ++ [note "info" ("Launching Minecraft " +:+ versionId +:+ "...")])
                 (VersionManager.afterLibraryDraws
                    (length VersionManager.baseLibraries) w) in
     post (GameLauncher.simulateGameLaunch params) w1
          (fun r w2 =>
             match r with
             | Returned _ =>
                 post (timestamp <- dateNow ;;
                       GameLauncher.addToLaunchHistory
                         {| launch_versionId := versionId;
                            launch_modLoader := modLoader;
                            launch_serverAddress := serverAddress;
                            launch_timestamp := timestamp;
                            launch_username := user_username user |} ;;;
                       closeAfter <- gets (fun w => closeLauncherAfterStart
                                                      (gameSettings (gameLauncher w))) ;;
                       (if closeAfter then GameLauncher.hideLauncher else ret tt) ;;;
                       showNotification "Game launched successfully!" "success" ;;;
                       ret true) w2
                      (fun r' w3 =>
                         match r' with
                         | Returned a => Q (Returned a) w3
                         | Thrown e =>
                             post (showNotification ("Launch failed: " +:+ e) "error" ;;;
                                   throw e) w3 Q
                         end)
             | Thrown e =>
                 post (showNotification ("Launch failed: " +:+ e) "error" ;;;
                       throw e) w2 Q
             end)) ->
  post (GameLauncher.launchGame versionId modLoader serverAddress) w Q.
Proof.
  intros Hu Ht Hi Hv Hrest.
  destruct (getVersionById_id _ _ _ Hv) as [Hid _].
  unfold GameLauncher.launchGame.
  apply post_tryCatch. apply post_bind.
  eapply post_run;
    [ unfold AuthManager.isAuthenticated, gets; rewrite Hu, Ht; reflexivity | ].
  cbn [negb]. apply post_bind, post_ret. apply post_bind.
  eapply post_run;
    [ unfold VersionManager.isVersionInstalled, gets;
      rewrite (bool_decide_eq_true_2 _ Hi); reflexivity | ].
  cbn [negb]. apply post_bind, post_ret. apply post_bind.
  eapply post_run;
    [ unfold AuthManager.getCurrentUser, gets; rewrite Hu; reflexivity | ].
  apply post_bind.
  eapply post_run; [ exact (getVersionDetails_run versionId version w Hv) | ].
  apply post_bind.
  destruct (prepareLaunchParameters_identity user
              (VersionManager.versionDetailsOf version
                 (VersionManager.librariesFrom (version_id version)
                    VersionManager.baseLibraries (librarySizeDraws (chance w))))
              modLoader serverAddress
              (VersionManager.afterLibraryDraws (length VersionManager.baseLibraries) w))
    as (params & Hrun & Hpid & Hpuser & _).
  eapply post_run; [ exact Hrun | ].
  apply post_bind, post_showNotification.
  apply post_bind.
  cbn [details_id VersionManager.versionDetailsOf] in Hpid. rewrite Hid in Hpid.
  pose proof (Hrest params Hpid Hpuser) as Hsim. cbv zeta in Hsim.
  refine (post_conseq _ _ _ _ Hsim _).
  intros [a|e] w2 H; exact H.
Qed.

(** A launch that starts, step by step. *)
Lemma launchGame_run (w : World) (versionId : string)
        (modLoader serverAddress : option string) (user : User) (type : string)
        (version : Version) :
  currentUser (authManager w) = Some user ->
  authType (authManager w) = Some type ->
  versionId ∈ installedVersions (versionManager w) ->
  VersionManager.getVersionById (versions (versionManager w)) versionId = Some version ->
  launch_failsAfter (shead (launches (chance w))) = None ->
  let closes := closeLauncherAfterStart (gameSettings (gameLauncher w)) in
  let entry := {| launch_versionId := versionId;
                  launch_modLoader := modLoader;
                  launch_serverAddress := serverAddress;
                  launch_timestamp := shead (stail (clock (chance w)));
                  launch_username := user_username user |} in
  post (GameLauncher.launchGame versionId modLoader serverAddress) w
    (fun result w' =>
       result = Returned true
       /\ gameProcess (gameLauncher w')
          = Some {| process_pid := launch_pidDraw (shead (launches (chance w))) + 1000;
                    process_startTime := shead (clock (chance w));
                    process_version := versionId;
                    process_user := user_username user |}
       /\ launchHistory (gameLauncher w')
          = take 50 (entry :: launchHistory (gameLauncher w))
       /\ craftlauncher_launch_history (localStorage w')
          = Some (launchHistory (gameLauncher w'))
       /\ notifications w'
          = notifications w
            ++ [note "info" ("Launching Minecraft " +:+ versionId +:+ "...")]
            ++ map (note "info") GameLauncher.launchSteps
            ++ (if closes then [note "info" "Launcher minimized"] else [])
            ++ [note "success" "Game launched successfully!"]
       /\ bodyOpacity w' = (if closes then "0.5" else bodyOpacity w)
       /\ authManager w' = authManager w
       /\ versionManager w' = versionManager w
       /\ downloadManager w' = downloadManager w).
Proof.
  intros Hu Ht Hi Hv Hlaunch closes entry.
  destruct (afterLibraryDraws_frame (length VersionManager.baseLibraries) w)
    as (Ha0 & Hvm0 & Hdm0 & Hgl0 & _ & _ & Hn0 & _ & _ & Hl0 & _ & Hc0).
  pose proof (afterLibraryDraws_bodyOpacity (length VersionManager.baseLibraries) w)
    as Hb0.
  apply (launchGame_prepared w versionId modLoader serverAddress user type version);
    try assumption.
  intros params Hpid Hpuser w1.
  set (w0 := VersionManager.afterLibraryDraws (length VersionManager.baseLibraries) w)
    in *.
  unfold GameLauncher.simulateGameLaunch.
  apply post_bind. eapply post_run; [ reflexivity | ].
  unfold w1 at 1. fields. rewrite Hl0, Hlaunch.
  apply post_bind. eapply post_run; [ apply forEachM_showNotification | ].
  apply post_bind. eapply post_run; [ reflexivity | ].
  unfold GameLauncher.setGameProcess. apply post_modify.
  apply post_bind. eapply post_run; [ reflexivity | ].
  apply post_bind. unfold GameLauncher.addToLaunchHistory.
  apply post_bind, post_modify. unfold GameLauncher.saveLaunchHistory.
  apply post_modify.
  apply post_bind, post_gets.
  unfold w1. fields. rewrite Hgl0, Hc0, Hpid, Hpuser. fold closes. fold entry.
  clearbody closes. destruct closes.
  - apply post_bind. unfold GameLauncher.hideLauncher.
    apply post_bind, post_modify. apply post_showNotification.
    apply post_bind, post_showNotification, post_ret.
    fields. rewrite Hn0, Ha0, Hvm0, Hdm0, ?Hgl0, ?unshiftBounded_take.
    conjs; try reflexivity.
    rewrite <- !app_assoc. reflexivity.
  - apply post_bind, post_ret.
    apply post_bind, post_showNotification, post_ret.
    fields. rewrite Hn0, Ha0, Hvm0, Hdm0, Hb0, ?Hgl0, ?unshiftBounded_take.
    conjs; try reflexivity.
    rewrite <- !app_assoc. reflexivity.
Qed.

(** X21. A launch that starts.  For a signed-in user, an installed
    version of the catalog and a start that does not fail, [launchGame]
    returns true; the process recorded has the pid drawn plus 1000, the
    version and the user of the call; the launch is the newest entry of
    the history, which is cut to 50 entries and saved; the user sees
    the launch message, the four steps and the success message, with
    the minimise message in between when the launcher is set to close;
    and the session and the installed versions are untouched.  Whether
    a game is already running is not looked at: the recorded process is
    replaced. *)
Theorem launchGame_starts (w : World) (versionId : string)
        (modLoader serverAddress : option string) (user : User) (type : string)
        (version : Version) :
  currentUser (authManager w) = Some user ->
  authType (authManager w) = Some type ->
  versionId ∈ installedVersions (versionManager w) ->
  VersionManager.getVersionById (versions (versionManager w)) versionId = Some version ->
  launch_failsAfter (shead (launches (chance w))) = None ->
  let closes := closeLauncherAfterStart (gameSettings (gameLauncher w)) in
  let entry := {| launch_versionId := versionId;
                  launch_modLoader := modLoader;
                  launch_serverAddress := serverAddress;
                  launch_timestamp := shead (stail (clock (chance w)));
                  launch_username := user_username user |} in
  post (GameLauncher.launchGame versionId modLoader serverAddress) w
    (fun result w' =>
       result = Returned true
       /\ gameProcess (gameLauncher w')
          = Some {| process_pid := launch_pidDraw (shead (launches (chance w))) + 1000;
                    process_startTime := shead (clock (chance w));
                    process_version := versionId;
                    process_user := user_username user |}
       /\ launchHistory (gameLauncher w')
          = take 50 (entry :: launchHistory (gameLauncher w))
       /\ craftlauncher_launch_history (localStorage w')
          = Some (launchHistory (gameLauncher w'))
       /\ notifications w'
          = notifications w
            ++ [note "info" ("Launching Minecraft " +:+ versionId +:+ "...")]
            ++ map (note "info") GameLauncher.launchSteps
            ++ (if closes then [note "info" "Launcher minimized"] else [])
            ++ [note "success" "Game launched successfully!"]
       /\ bodyOpacity w' = (if closes then "0.5" else bodyOpacity w)
       /\ authManager w' = authManager w
       /\ versionManager w' = versionManager w
       /\ downloadManager w' = downloadManager w).
Proof.
  intros Hu Ht Hi Hv Hlaunch.
  exact (launchGame_run w versionId modLoader serverAddress user type version
           Hu Ht Hi Hv Hlaunch).
Qed.

Lemma launchGame_starts_witness :
  let w := Sample.ready in
  let closes := closeLauncherAfterStart (gameSettings (gameLauncher w)) in
  let entry := {| launch_versionId := "1.20.4";
                  launch_modLoader := None;
                  launch_serverAddress := None;
                  launch_timestamp := shead (stail (clock (chance w)));
                  launch_username := user_username Sample.steve |} in
  post (GameLauncher.launchGame "1.20.4" None None) w
    (fun result w' =>
       result = Returned true
       /\ gameProcess (gameLauncher w')
          = Some {| process_pid := launch_pidDraw (shead (launches (chance w))) + 1000;
                    process_startTime := shead (clock (chance w));
                    process_version := "1.20.4";
                    process_user := user_username Sample.steve |}
       /\ launchHistory (gameLauncher w')
          = take 50 (entry :: launchHistory (gameLauncher w))
       /\ craftlauncher_launch_history (localStorage w')
          = Some (launchHistory (gameLauncher w'))
       /\ notifications w'
          = notifications w
            ++ [note "info" ("Launching Minecraft " +:+ "1.20.4" +:+ "...")]
            ++ map (note "info") GameLauncher.launchSteps
            ++ (if closes then [note "info" "Launcher minimized"] else [])
            ++ [note "success" "Game launched successfully!"]
       /\ bodyOpacity w' = (if closes then "0.5" else bodyOpacity w)
       /\ authManager w' = authManager w
       /\ versionManager w' = versionManager w
       /\ downloadManager w' = downloadManager w).
Proof.
  apply (launchGame_starts Sample.ready "1.20.4" None None Sample.steve "offline"
           Sample.version_1_20_4).
  - reflexivity.
  - reflexivity.
  - exact (proj2 (elem_of_singleton (C := gset string) "1.20.4" "1.20.4") eq_refl).
  - vm_compute. reflexivity.
  - reflexivity.
Defined.

(** X22. A launch whose start fails.  With the same preconditions but a
    start that is rejected after some of the steps were shown,
    [launchGame] throws the message of the rejection; no process is
    recorded, the history and the storage are as before, the launcher
    stays visible, and the user has seen the launch message, the steps
    shown so far and the failure message. *)
Theorem launchGame_start_fails (w : World) (versionId : string)
        (modLoader serverAddress : option string) (user : User) (type : string)
        (version : Version) (shown : nat) :
  currentUser (authManager w) = Some user ->
  authType (authManager w) = Some type ->
  versionId ∈ installedVersions (versionManager w) ->
  VersionManager.getVersionById (versions (versionManager w)) versionId = Some version ->
  launch_failsAfter (shead (launches (chance w))) = Some shown ->
  post (GameLauncher.launchGame versionId modLoader serverAddress) w
    (fun result w' =>
       result = Thrown "Failed to start game process"
       /\ gameLauncher w' = gameLauncher w
       /\ localStorage w' = localStorage w
       /\ bodyOpacity w' = bodyOpacity w
       /\ notifications w'
          = notifications w
            ++ [note "info" ("Launching Minecraft " +:+ versionId +:+ "...")]
            ++ map (note "info") (take shown GameLauncher.launchSteps)
            ++ [note "error" "Launch failed: Failed to start game process"]
       /\ launches (chance w') = stail (launches (chance w))).
Proof.
  intros Hu Ht Hi Hv Hlaunch.
  destruct (afterLibraryDraws_frame (length VersionManager.baseLibraries) w)
    as (_ & _ & _ & Hgl0 & Hls0 & _ & Hn0 & _ & _ & Hl0 & _ & _).
  pose proof (afterLibraryDraws_bodyOpacity (length VersionManager.baseLibraries) w)
    as Hb0.
  apply (launchGame_prepared w versionId modLoader serverAddress user type version);
    try assumption.
  intros params Hpid Hpuser w1.
  set (w0 := VersionManager.afterLibraryDraws (length VersionManager.baseLibraries) w)
    in *.
  unfold GameLauncher.simulateGameLaunch.
  apply post_bind. eapply post_run; [ reflexivity | ].
  unfold w1 at 1. fields. rewrite Hl0, Hlaunch.
  apply post_bind. eapply post_run; [ apply forEachM_showNotification | ].
  apply post_throw.
  apply post_bind, post_showNotification, post_throw.
  unfold w1. fields. rewrite Hn0, Hgl0, Hls0, Hb0, Hl0.
  conjs; try reflexivity.
  rewrite <- !app_assoc. reflexivity.
Qed.

Lemma launchGame_start_fails_witness :
  post (GameLauncher.launchGame "1.20.4" None None) Sample.unlucky
    (fun result w' =>
       result = Thrown "Failed to start game process"
       /\ gameLauncher w' = gameLauncher Sample.unlucky
       /\ localStorage w' = localStorage Sample.unlucky
       /\ bodyOpacity w' = bodyOpacity Sample.unlucky
       /\ notifications w'
          = notifications Sample.unlucky
            ++ [note "info" ("Launching Minecraft " +:+ "1.20.4" +:+ "...")]
            ++ map (note "info") (take 2 GameLauncher.launchSteps)
            ++ [note "error" "Launch failed: Failed to start game process"]
       /\ launches (chance w') = stail (launches (chance Sample.unlucky))).
Proof.
  apply (launchGame_start_fails Sample.unlucky "1.20.4" None None Sample.steve "offline"
           Sample.version_1_20_4 2).
  - reflexivity.
  - reflexivity.
  - exact (proj2 (elem_of_singleton (C := gset string) "1.20.4" "1.20.4") eq_refl).
  - vm_compute. reflexivity.
  - reflexivity.
Defined.

(** X23. Ending the game.  [killGame] does nothing, and shows nothing,
    when no process is recorded.  Otherwise it says so once, forgets
    the process, so that [isGameRunning] answers false, and makes the
    launcher fully visible again; the launch history keeps its
    entries. *)
Theorem killGame_ends (w : World) :
  let w' := snd (GameLauncher.killGame w) in
  fst (GameLauncher.isGameRunning w') = Returned false
  /\ launchHistory (gameLauncher w') = launchHistory (gameLauncher w)
  /\ gameSettings (gameLauncher w') = gameSettings (gameLauncher w)
  /\ localStorage w' = localStorage w
  /\ (gameProcess (gameLauncher w) = None -> w' = w)
  /\ (gameProcess (gameLauncher w) <> None ->
      bodyOpacity w' = "1"
      /\ notifications w'
         = notifications w ++ [note "info" "Game process terminated"]).
Proof.
  cbv zeta.
  destruct (gameProcess (gameLauncher w)) as [process|] eqn:Hprocess.
  - assert (Hkill :
        GameLauncher.killGame w
        = (Returned tt,
           with_bodyOpacity "1"
             (with_gameLauncher
                (fun gl => {| gameProcess := None;
                              launchHistory := launchHistory gl;
                              gameSettings := gameSettings gl |})
                (with_notifications
                   (fun l => l ++ [note "info" "Game process terminated"]) w)))).
    { unfold GameLauncher.killGame, GameLauncher.isGameRunning.
      unfold bind at 1. unfold gets at 1. rewrite Hprocess. reflexivity. }
    rewrite Hkill. cbn [snd]. unfold GameLauncher.isGameRunning, gets. fields.
    conjs; try reflexivity; [ discriminate | intros _; split; reflexivity ].
  - assert (Hkill : GameLauncher.killGame w = (Returned tt, w)).
    { unfold GameLauncher.killGame, GameLauncher.isGameRunning.
      unfold bind at 1. unfold gets at 1. rewrite Hprocess. reflexivity. }
    rewrite Hkill. cbn [snd]. unfold GameLauncher.isGameRunning, gets. cbn [fst].
    rewrite Hprocess.
    conjs; try reflexivity. intros H. contradiction H. reflexivity.
Qed.

(** ** The favourite version *)

Lemma countOf_countKey (key k : string) (versionCounts : list (string * Z)) :
  GameLauncher.countOf (GameLauncher.countKey key versionCounts) k
  = if String.eqb key k then GameLauncher.countOf versionCounts k + 1
    else GameLauncher.countOf versionCounts k.
Proof.
  induction versionCounts as [|[k0 n] rest IH].
  - cbn [GameLauncher.countKey GameLauncher.countOf].
    destruct (String.eqb key k); reflexivity.
  - cbn [GameLauncher.countKey GameLauncher.countOf].
    destruct (String.eqb k0 key) eqn:E0.
    + apply String.eqb_eq in E0. subst k0.
      cbn [GameLauncher.countOf]. destruct (String.eqb key k); reflexivity.
    + cbn [GameLauncher.countOf]. destruct (String.eqb k0 k) eqn:E1.
      * apply String.eqb_eq in E1. subst k0.
        rewrite String.eqb_sym, E0. reflexivity.
      * exact IH.
Qed.

Lemma keys_countKey (key : string) (versionCounts : list (string * Z)) :
  map fst (GameLauncher.countKey key versionCounts)
  = if existsb (String.eqb key) (map fst versionCounts)
    then map fst versionCounts
    else map fst versionCounts ++ [key].
Proof.
  induction versionCounts as [|[k0 n] rest IH]; [ reflexivity | ].
  cbn [GameLauncher.countKey map fst existsb].
  rewrite (String.eqb_sym key k0).
  destruct (String.eqb k0 key); [ reflexivity | ].
  cbn [map fst orb]. rewrite IH.
  destruct (existsb (String.eqb key) (map fst rest)); reflexivity.
Qed.

Lemma countLaunches_from (history : list LaunchData) (start : list (string * Z))
      (k : string) :
  GameLauncher.countOf
    (fold_left (fun versionCounts launch =>
                  GameLauncher.countKey (launch_versionId launch) versionCounts)
               history start) k
  = GameLauncher.countOf start k + launchCount k history
  /\ map fst
       (fold_left (fun versionCounts launch =>
                     GameLauncher.countKey (launch_versionId launch) versionCounts)
                  history start)
     = fold_left (fun seen id => if existsb (String.eqb id) seen then seen
                                 else seen ++ [id])
                 (map launch_versionId history) (map fst start).
Proof.
  revert start. induction history as [|launch history IH]; intros start.
  - unfold launchCount. cbn. split; [ lia | reflexivity ].
  - cbn [fold_left map]. destruct (IH (GameLauncher.countKey (launch_versionId launch) start))
      as [Hcount Hkeys].
    rewrite Hcount, Hkeys, countOf_countKey, keys_countKey.
    split; [ | reflexivity ].
    unfold launchCount. cbn [List.filter].
    destruct (String.eqb (launch_versionId launch) k); cbn [length]; lia.
Qed.

(** The reduction picks the last of the keys with the highest count. *)
Lemma reduce_last_maximum (count : string -> Z) (keys : list string) (first : string) :
  let favourite := fold_left (fun a b => if count a >? count b then a else b)
                             keys first in
  exists before after,
    first :: keys = before ++ favourite :: after
    /\ count first <= count favourite
    /\ (forall k, In k before -> count k <= count favourite)
    /\ (forall k, In k after -> count k < count favourite).
Proof.
  cbv zeta. revert first. induction keys as [|b keys IH]; intros first.
  - exists [], []. cbn. split; [ reflexivity | ].
    split; [ lia | split; intros k [] ].
  - cbn [fold_left]. destruct (count first >? count b) eqn:E.
    + apply Z.gtb_lt in E.
      destruct (IH first) as (before & after & Hsplit & Hfirst & Hbefore & Hafter).
      set (favourite := fold_left (fun a b => if count a >? count b then a else b)
                                  keys first) in *.
      clearbody favourite.
      destruct before as [|x before].
      * cbn [app] in Hsplit. injection Hsplit as Hfav Hkeys.
        exists [], (b :: after). subst favourite. cbn [app].
        split; [ rewrite Hkeys; reflexivity | ].
        split; [ lia | ].
        split; [ intros k [] | ].
        intros k [<- | Hk]; [ lia | exact (Hafter k Hk) ].
      * cbn [app] in Hsplit. injection Hsplit as Hx Hkeys. subst x.
        exists (first :: b :: before), after. cbn [app].
        split; [ rewrite Hkeys; reflexivity | ].
        split; [ exact Hfirst | ].
        split; [ | exact Hafter ].
        intros k [<- | [<- | Hk]]; [ exact Hfirst | lia | ].
        apply Hbefore. right. exact Hk.
    + assert (Hle : count first <= count b).
      { destruct (Z.gtb_spec (count first) (count b)); [ discriminate | lia ]. }
      destruct (IH b) as (before & after & Hsplit & Hb & Hbefore & Hafter).
      set (favourite := fold_left (fun a b => if count a >? count b then a else b)
                                  keys b) in *.
      clearbody favourite.
      exists (first :: before), after. cbn [app].
      split; [ rewrite Hsplit; reflexivity | ].
      split; [ lia | ].
      split; [ | exact Hafter ].
      intros k [<- | Hk]; [ lia | exact (Hbefore k Hk) ].
Qed.

Lemma firstSeen_members (ids seen : list string) (k : string) :
  In k (fold_left (fun seen id => if existsb (String.eqb id) seen then seen
                                  else seen ++ [id]) ids seen)
  <-> In k seen \/ In k ids.
Proof.
  revert seen. induction ids as [|id ids IH]; intros seen.
  - cbn. tauto.
  - cbn [fold_left]. rewrite IH. cbn [In].
    destruct (existsb (String.eqb id) seen) eqn:E.
    + apply existsb_exists in E. destruct E as (x & Hx & Heq).
      apply String.eqb_eq in Heq. subst x.
      split; [ tauto | ]. intros [H | [<- | H]]; tauto.
    + rewrite in_app_iff. cbn [In]. tauto.
Qed.

(** X24. The favourite version is a most launched one, and among
    several of these the one whose first entry in the history comes
    last.  With an empty history the answer is null.  Otherwise, with
    the distinct version ids taken in the order in which the history
    first shows them, every id before the favourite has at most as many
    launches and every id after it has strictly fewer; so no version of
    the history has more launches than the favourite.  As the history
    is kept newest first, a tie goes to the version whose latest launch
    is the oldest. *)
Theorem getFavoriteVersion_most_launched (w : World) :
  let history := launchHistory (gameLauncher w) in
  Forall ordinaryKey (map launch_versionId history) ->
  (history = [] -> GameLauncher.getFavoriteVersion w = (Returned None, w))
  /\ (history <> [] ->
      exists favourite before after,
        GameLauncher.getFavoriteVersion w = (Returned (Some favourite), w)
        /\ firstSeen (map launch_versionId history) = before ++ favourite :: after
        /\ (forall k, In k before ->
              launchCount k history <= launchCount favourite history)
        /\ (forall k, In k after ->
              launchCount k history < launchCount favourite history)
        /\ (forall launch, In launch history ->
              launchCount (launch_versionId launch) history
              <= launchCount favourite history)).
Proof.
  cbv zeta. intros _. unfold GameLauncher.getFavoriteVersion, gets.
  destruct (launchHistory (gameLauncher w)) as [|launch0 history0] eqn:Hhistory.
  - split; [ reflexivity | intros H; contradiction H; reflexivity ].
  - split; [ discriminate | intros _ ].
    set (history := launch0 :: history0).
    assert (Hcounts : forall k,
               GameLauncher.countOf (GameLauncher.countLaunches history) k
               = launchCount k history).
    { intros k. unfold GameLauncher.countLaunches.
      rewrite (proj1 (countLaunches_from history [] k)). cbn. lia. }
    assert (Hkeys : map fst (GameLauncher.countLaunches history)
                    = firstSeen (map launch_versionId history)).
    { unfold GameLauncher.countLaunches, firstSeen.
      exact (proj2 (countLaunches_from history [] "")). }
    destruct (map fst (GameLauncher.countLaunches history)) as [|first keys] eqn:Hlist.
    + exfalso.
      assert (Hin : In (launch_versionId launch0)
                       (firstSeen (map launch_versionId history))).
      { unfold firstSeen. apply firstSeen_members. right. left. reflexivity. }
      rewrite <- Hkeys in Hin. destruct Hin.
    + destruct (reduce_last_maximum
                  (GameLauncher.countOf (GameLauncher.countLaunches history))
                  keys first)
        as (before & after & Hsplit & _ & Hbefore & Hafter).
      eexists. exists before, after.
      split; [ reflexivity | ].
      rewrite <- Hkeys, Hsplit.
      split; [ reflexivity | ].
      split; [ intros k Hk; rewrite <- !Hcounts; exact (Hbefore k Hk) | ].
      split; [ intros k Hk; rewrite <- !Hcounts; exact (Hafter k Hk) | ].
      intros launch Hin.
      assert (Hmember : In (launch_versionId launch) (first :: keys)).
      { rewrite Hkeys. unfold firstSeen. apply firstSeen_members. right.
        apply in_map. exact Hin. }
      rewrite Hsplit in Hmember. apply in_app_iff in Hmember. rewrite <- !Hcounts.
      destruct Hmember as [Hk | [<- | Hk]];
        [ exact (Hbefore _ Hk) | lia | pose proof (Hafter _ Hk); lia ].
Qed.

Lemma ordinaryKey_dotted (key : string) :
  JS.plainKey key -> In "."%char (list_ascii_of_string key) -> ordinaryKey key.
Proof.
  intros Hplain Hdot. split; [ exact Hplain | right ].
  induction (list_ascii_of_string key) as [|c l IH]; [ destruct Hdot | ].
  cbn [forallb]. destruct Hdot as [-> | Hdot]; [ reflexivity | ].
  rewrite (IH Hdot). apply andb_false_r.
Qed.

Lemma getFavoriteVersion_most_launched_witness :
  let history := launchHistory (gameLauncher Sample.played) in
  (history = [] -> GameLauncher.getFavoriteVersion Sample.played
                   = (Returned None, Sample.played))
  /\ (history <> [] ->
      exists favourite before after,
        GameLauncher.getFavoriteVersion Sample.played
        = (Returned (Some favourite), Sample.played)
        /\ firstSeen (map launch_versionId history) = before ++ favourite :: after
        /\ (forall k, In k before ->
              launchCount k history <= launchCount favourite history)
        /\ (forall k, In k after ->
              launchCount k history < launchCount favourite history)
        /\ (forall launch, In launch history ->
              launchCount (launch_versionId launch) history
              <= launchCount favourite history)).
Proof.
  apply (getFavoriteVersion_most_launched Sample.played).
  repeat (apply Forall_cons; split;
          [ apply ordinaryKey_dotted;
            [ unfold JS.plainKey, JS.objectPrototypeKeys; simpl; intros H;
              repeat (destruct H as [H | H]; [ discriminate H | ]); exact H
            | simpl; auto 10 ]
          | ]).
  apply Forall_nil. exact I.
Defined.

Example getFavoriteVersion_tie :
  fst (GameLauncher.getFavoriteVersion Sample.played) = Returned (Some "1.21").
Proof. vm_compute. reflexivity. Qed.

(** ** Signing in and out *)

Lemma isValidUsername_chars (username : string) :
  Utils.isValidUsername username = true ->
  (3 <= String.length username <= 16)%nat
  /\ forall c, In c (list_ascii_of_string username) -> Utils.isWordChar c = true.
Proof.
  unfold Utils.isValidUsername. intros H.
  apply andb_true_iff in H. destruct H as [H Hmax].
  apply andb_true_iff in H. destruct H as [Hchars Hmin].
  apply Nat.leb_le in Hmax. apply Nat.leb_le in Hmin.
  split; [ lia | ]. intros c Hc.
  rewrite forallb_forall in Hchars. exact (Hchars c Hc).
Qed.

(** X27. Offline sign-in turns away every name that is not 3 to 16
    letters, digits or underscores, and does so before anything
    happens: the call is rejected with the message about the format,
    and the session, the stored session, the notifications and the
    stream of ids are what they were.  A name that is accepted
    therefore has no dollar sign, no space, no quote and no angle
    bracket in it. *)
Theorem authenticateOffline_rejects (username : string)
        (s : AuthManager.Session) :
  (Utils.isValidUsername username = false ->
   AuthManager.authenticateOffline username s
   = (Thrown "Invalid username. Must be 3-16 characters, alphanumeric and underscores only.",
      s))
  /\ (Utils.isValidUsername username = true ->
      (3 <= String.length username <= 16)%nat
      /\ ~ In "$"%char (list_ascii_of_string username)
      /\ ~ In " "%char (list_ascii_of_string username)
      /\ ~ In "'"%char (list_ascii_of_string username)
      /\ ~ In "<"%char (list_ascii_of_string username)).
Proof.
  split.
  - intros H. unfold AuthManager.authenticateOffline. rewrite H. cbn [negb].
    destruct s. reflexivity.
  - intros H. destruct (isValidUsername_chars username H) as [Hlen Hchars].
    split; [ exact Hlen | ].
    conjs; intros Hin; apply Hchars in Hin; discriminate Hin.
Qed.

(** X28. Offline sign-in, and the session it leaves.  For an accepted
    name the call returns a user with that name, the next id as uuid
    and the one after, prefixed with offline_, as access token; the
    user is signed in as offline, which makes the launch arguments say
    legacy, the account status Offline Mode and premium features off;
    the user, the type and the time are stored; the welcome is shown;
    and a later start of the page restores exactly this session from
    what was stored.  Installed versions, downloads, launcher state and
    the other storage keys are not touched. *)
Theorem authenticateOffline_signs_in (username : string) (s : AuthManager.Session) :
  Utils.isValidUsername username = true ->
  let w := AuthManager.session_world s in
  let user := {| user_username := username;
                 user_uuid := shead (uuids (chance w));
                 user_accessToken := "offline_" +:+ shead (stail (uuids (chance w))) |} in
  let s' := snd (AuthManager.authenticateOffline username s) in
  let w' := AuthManager.session_world s' in
  fst (AuthManager.authenticateOffline username s) = Returned user
  /\ authManager w' = {| currentUser := Some user; authType := Some "offline" |}
  /\ fst (AuthManager.isAuthenticated w') = Returned true
  /\ fst (GameLauncher.getUserType user w') = Returned "legacy"
  /\ fst (AuthManager.hasPremiumFeatures w') = Returned false
  /\ fst (AuthManager.getAccountStatus w') = Returned "Offline Mode"
  /\ AuthManager.craftlauncher_auth s'
     = Some {| AuthManager.auth_user := user; AuthManager.auth_type := "offline";
               AuthManager.auth_timestamp := shead (clock (chance w)) |}
  /\ notifications w'
     = notifications w ++ [note "success" ("Welcome, " +:+ username +:+ "!")]
  /\ fst (AuthManager.restart s') = Returned true
  /\ authManager (AuthManager.session_world (snd (AuthManager.restart s')))
     = authManager w'
  /\ versionManager w' = versionManager w
  /\ downloadManager w' = downloadManager w
  /\ gameLauncher w' = gameLauncher w
  /\ localStorage w' = localStorage w.
Proof.
  intros Hvalid. cbv zeta.
  unfold AuthManager.authenticateOffline. rewrite Hvalid. cbn [negb].
  destruct s as [w saved].
  cbn [AuthManager.session_world].
  conjs; reflexivity.
Qed.

Lemma authenticateOffline_signs_in_witness :
  let s := {| AuthManager.session_world := Sample.fresh;
              AuthManager.craftlauncher_auth := None |} in
  let w := AuthManager.session_world s in
  let user := {| user_username := "Steve_01";
                 user_uuid := shead (uuids (chance w));
                 user_accessToken := "offline_" +:+ shead (stail (uuids (chance w))) |} in
  let s' := snd (AuthManager.authenticateOffline "Steve_01" s) in
  let w' := AuthManager.session_world s' in
  fst (AuthManager.authenticateOffline "Steve_01" s) = Returned user
  /\ authManager w' = {| currentUser := Some user; authType := Some "offline" |}
  /\ fst (AuthManager.isAuthenticated w') = Returned true
  /\ fst (GameLauncher.getUserType user w') = Returned "legacy"
  /\ fst (AuthManager.hasPremiumFeatures w') = Returned false
  /\ fst (AuthManager.getAccountStatus w') = Returned "Offline Mode"
  /\ AuthManager.craftlauncher_auth s'
     = Some {| AuthManager.auth_user := user; AuthManager.auth_type := "offline";
               AuthManager.auth_timestamp := shead (clock (chance w)) |}
  /\ notifications w'
     = notifications w ++ [note "success" ("Welcome, " +:+ "Steve_01" +:+ "!")]
  /\ fst (AuthManager.restart s') = Returned true
  /\ authManager (AuthManager.session_world (snd (AuthManager.restart s')))
     = authManager w'
  /\ versionManager w' = versionManager w
  /\ downloadManager w' = downloadManager w
  /\ gameLauncher w' = gameLauncher w
  /\ localStorage w' = localStorage w.
Proof.
  apply (authenticateOffline_signs_in "Steve_01"
           {| AuthManager.session_world := Sample.fresh;
              AuthManager.craftlauncher_auth := None |}).
  vm_compute. reflexivity.
Defined.

(** X29. Signing out.  [logout] forgets the user and the type, removes
    the stored session and says goodbye by name, or to [User] when
    nobody was signed in.  Afterwards nobody is authenticated, a start
    of the page finds nothing to restore, and [launchGame] is refused
    with the message about authentication. *)
Theorem logout_ends_session (s : AuthManager.Session) (versionId : string) :
  let w := AuthManager.session_world s in
  let name := match currentUser (authManager w) with
              | Some user => user_username user
              | None => "User"
              end in
  let s' := snd (AuthManager.logout s) in
  let w' := AuthManager.session_world s' in
  authManager w' = {| currentUser := None; authType := None |}
  /\ AuthManager.craftlauncher_auth s' = None
  /\ notifications w' = notifications w ++ [note "info" ("Goodbye, " +:+ name +:+ "!")]
  /\ fst (AuthManager.isAuthenticated w') = Returned false
  /\ AuthManager.restart s' = (Returned false, s')
  /\ fst (GameLauncher.launchGame versionId None None w')
     = Thrown "User not authenticated"
  /\ versionManager w' = versionManager w
  /\ gameLauncher w' = gameLauncher w
  /\ localStorage w' = localStorage w.
Proof.
  cbv zeta. destruct s as [w saved].
  unfold AuthManager.logout, AuthManager.clearAuth, AuthManager.andThen,
    AuthManager.inWorld, AuthManager.setSavedAuth, AuthManager.setAuth,
    AuthManager.getCurrentUser, showNotification, modify, gets.
  cbn [AuthManager.session_world AuthManager.craftlauncher_auth fst snd].
  fields.
  conjs; reflexivity.
Qed.

(** X30. The kinds of account agree across the program.  The launch
    arguments say mojang exactly when [hasPremiumFeatures] holds, that
    is for the types microsoft and mojang; for a signed-in user this
    is exactly when the account status reads Microsoft Account or
    Mojang Account, and the status Offline Mode means no premium
    features; when nobody is signed in the status says so. *)
Theorem account_kinds_agree (user : User) (w : World) :
  (fst (GameLauncher.getUserType user w) = Returned "mojang"
   <-> fst (AuthManager.hasPremiumFeatures w) = Returned true)
  /\ (fst (AuthManager.isAuthenticated w) = Returned true ->
      (fst (AuthManager.hasPremiumFeatures w) = Returned true
       <-> fst (AuthManager.getAccountStatus w) = Returned "Microsoft Account"
           \/ fst (AuthManager.getAccountStatus w) = Returned "Mojang Account"))
  /\ (fst (AuthManager.getAccountStatus w) = Returned "Offline Mode" ->
      fst (AuthManager.hasPremiumFeatures w) = Returned false)
  /\ (fst (AuthManager.isAuthenticated w) = Returned false ->
      fst (AuthManager.getAccountStatus w) = Returned "Not authenticated").
Proof.
  destruct w as [[current type] vm dm gl ls pf bo ns ch dl].
  unfold GameLauncher.getUserType, AuthManager.hasPremiumFeatures,
    AuthManager.getAccountStatus, AuthManager.isAuthenticated, AuthManager.getAuthType,
    bind, gets, ret.
  cbn [fst snd authManager currentUser authType].
  destruct current as [current|]; destruct type as [type|];
    cbn [negb fst snd authManager currentUser authType].
  - assert (Hoffline : String.eqb type "offline" = true ->
                       String.eqb type "microsoft" = false
                       /\ String.eqb type "mojang" = false).
    { intros H. apply String.eqb_eq in H. subst type. split; reflexivity. }
    assert (Hmicrosoft : String.eqb type "microsoft" = true ->
                         String.eqb type "mojang" = false).
    { intros H. apply String.eqb_eq in H. subst type. reflexivity. }
    destruct (String.eqb type "offline");
      [ destruct (Hoffline eq_refl) as [-> ->] | ];
      (destruct (String.eqb type "microsoft");
       [ try rewrite (Hmicrosoft eq_refl) | destruct (String.eqb type "mojang") ]);
      clear Hoffline Hmicrosoft; cbn [orb fst snd]; kinds.
  - kinds.
  - destruct (String.eqb type "microsoft" || String.eqb type "mojang");
      cbn [fst snd]; kinds.
  - kinds.
Qed.

(** ** Downloading, then launching *)

Lemma sameLauncher_refl (w : World) : sameLauncher w w.
Proof. unfold sameLauncher. conjs; reflexivity. Qed.

Lemma sameLauncher_trans (w1 w2 w3 : World) :
  sameLauncher w1 w2 -> sameLauncher w2 w3 -> sameLauncher w1 w3.
Proof.
  unfold sameLauncher.
  intros (A1 & B1 & C1 & D1 & E1 & F1) (A2 & B2 & C2 & D2 & E2 & F2).
  conjs; congruence.
Qed.

Lemma sameLauncher_notifications (f : list Notification -> list Notification)
      (w : World) :
  sameLauncher w (with_notifications f w).
Proof. unfold sameLauncher. conjs; reflexivity. Qed.

Lemma afterLibraryDraws_sameLauncher (n : nat) (w : World) :
  sameLauncher w (VersionManager.afterLibraryDraws n w)
  /\ downloadManager (VersionManager.afterLibraryDraws n w) = downloadManager w.
Proof.
  destruct (afterLibraryDraws_frame n w)
    as (Ha & Hvm & Hdm & Hgl & _ & Hp & _ & _ & _ & Hl & _ & _).
  pose proof (afterLibraryDraws_bodyOpacity n w) as Hb.
  unfold sameLauncher. conjs; try assumption. rewrite Hvm. reflexivity.
Qed.

(** One call of [downloadFile], however it ends, leaves the launcher
    alone and its own entry out of the map. *)
Lemma downloadFile_frame (url filename : string) (w : World) :
  post (DownloadManager.downloadFile url filename) w
       (fun _ w' =>
          sameLauncher w w'
          /\ activeDownloads (downloadManager w')
             = delete (shead (uuids (chance w))) (activeDownloads (downloadManager w))).
Proof.
  unfold post, DownloadManager.downloadFile, DownloadManager.simulateDownload.
  run. destruct (transfer_fails (shead (transfers (chance w)))); simpl;
    (split; [ unfold sameLauncher; conjs; reflexivity | apply delete_insert_eq ]).
Qed.

Lemma downloadLibraries_frame (libraries : list Library) (w : World) :
  post (forEachM DownloadManager.downloadLibrary libraries) w
       (fun _ w' =>
          sameLauncher w w'
          /\ activeDownloads (downloadManager w') ⊆ activeDownloads (downloadManager w)).
Proof.
  revert w. induction libraries as [|library rest IH]; intros w.
  - apply post_ret. split; [ apply sameLauncher_refl | reflexivity ].
  - cbn [forEachM]. apply post_bind.
    unfold DownloadManager.downloadLibrary.
    destruct (library_downloads library) as [d|];
      [ destruct (downloads_artifact d) as [artifact|] | ].
    + apply post_bind.
      eapply post_conseq; [ apply downloadFile_frame | ].
      intros [download|e] w1 [Hsame Hactive].
      * apply post_ret.
        eapply post_conseq; [ apply IH | ].
        intros r w2 [Hsame2 Hactive2]. split.
        -- exact (sameLauncher_trans _ _ _ Hsame Hsame2).
        -- etransitivity; [ exact Hactive2 | ]. rewrite Hactive. apply delete_subseteq.
      * split; [ exact Hsame | rewrite Hactive; apply delete_subseteq ].
    + apply post_ret. apply IH.
    + apply post_ret. apply IH.
Qed.

(** [downloadVersion], however it ends, leaves the launcher alone and
    no download of its own active. *)
Lemma downloadVersion_frame (versionId : string) (modLoader : option string)
      (w : World) :
  post (DownloadManager.downloadVersion versionId modLoader) w
       (fun _ w' =>
          sameLauncher w w'
          /\ activeDownloads (downloadManager w') ⊆ activeDownloads (downloadManager w)).
Proof.
  unfold DownloadManager.downloadVersion. apply post_bind.
  destruct (VersionManager.getVersionById (versions (versionManager w)) versionId)
    as [version|] eqn:Hv.
  2: { eapply post_run; [ exact (getVersionDetails_unknown versionId w Hv) | ].
       split; [ apply sameLauncher_refl | reflexivity ]. }
  eapply post_run; [ exact (getVersionDetails_run versionId version w Hv) | ].
  destruct (afterLibraryDraws_sameLauncher (length VersionManager.baseLibraries) w)
    as [Hsame0 Hdm0].
  set (w0 := VersionManager.afterLibraryDraws (length VersionManager.baseLibraries) w)
    in *.
  set (details := VersionManager.versionDetailsOf version _).
  assert (Hfail : forall (e : string) (w1 : World),
             sameLauncher w w1 ->
             activeDownloads (downloadManager w1) ⊆ activeDownloads (downloadManager w) ->
             post (showNotification ("Download failed: " +:+ e) "error" ;;; throw e) w1
                  (fun (_ : outcome bool) w' =>
                     sameLauncher w w'
                     /\ activeDownloads (downloadManager w')
                        ⊆ activeDownloads (downloadManager w))).
  { intros e w1 Hsame Hactive.
    apply post_bind, post_showNotification, post_throw.
    split; [ | exact Hactive ].
    exact (sameLauncher_trans _ _ _ Hsame (sameLauncher_notifications _ w1)). }
  apply post_tryCatch.
  apply post_bind, post_showNotification.
  apply post_bind.
  eapply post_conseq; [ apply downloadFile_frame | ].
  intros r2 w2 [Hsame2 Hactive2].
  assert (Hsame2' : sameLauncher w w2).
  { refine (sameLauncher_trans _ _ _ Hsame0 _).
    exact (sameLauncher_trans _ _ _ (sameLauncher_notifications _ w0) Hsame2). }
  assert (Hactive2' : activeDownloads (downloadManager w2)
                      ⊆ activeDownloads (downloadManager w)).
  { rewrite Hactive2. projections. rewrite Hdm0. apply delete_subseteq. }
  clear Hsame2 Hactive2.
  destruct r2 as [download|e]; [ | exact (Hfail e w2 Hsame2' Hactive2') ].
  apply post_bind, post_showNotification.
  apply post_bind.
  eapply post_conseq; [ apply downloadLibraries_frame | ].
  intros r4 w4 [Hsame4 Hactive4].
  assert (Hsame4' : sameLauncher w w4).
  { refine (sameLauncher_trans _ _ _ Hsame2' _).
    exact (sameLauncher_trans _ _ _ (sameLauncher_notifications _ w2) Hsame4). }
  assert (Hactive4' : activeDownloads (downloadManager w4)
                      ⊆ activeDownloads (downloadManager w)).
  { etransitivity; [ exact Hactive4 | exact Hactive2' ]. }
  clear Hsame4 Hactive4.
  destruct r4 as [[]|e]; [ | exact (Hfail e w4 Hsame4' Hactive4') ].
  apply post_bind, post_showNotification.
  apply post_bind. unfold DownloadManager.downloadAssets. apply post_ret.
  apply post_bind.
  assert (Hloader : forall (Q : outcome unit -> World -> Prop) (w5 : World),
             (forall w6, sameLauncher w5 w6 ->
                         downloadManager w6 = downloadManager w5 ->
                         Q (Returned tt) w6) ->
             post (match VersionManager.givenLoader modLoader with
                   | Some m =>
                       showNotification ("Downloading " +:+ m +:+ "...") "info" ;;;
                       DownloadManager.downloadModLoader versionId m
                   | None => ret tt
                   end) w5 Q).
  { intros Q w5 HQ. destruct (VersionManager.givenLoader modLoader) as [m|].
    - apply post_bind, post_showNotification.
      unfold DownloadManager.downloadModLoader. apply post_ret.
      apply HQ; [ apply sameLauncher_notifications | reflexivity ].
    - apply post_ret. apply HQ; [ apply sameLauncher_refl | reflexivity ]. }
  apply Hloader. intros w6 Hsame6 Hdm6.
  apply post_bind. unfold VersionManager.markVersionInstalled.
  apply post_bind, post_modify, post_modify.
  apply post_bind, post_showNotification, post_ret.
  split.
  - refine (sameLauncher_trans _ _ _ Hsame4' _).
    refine (sameLauncher_trans _ _ _ (sameLauncher_notifications _ w4) _).
    refine (sameLauncher_trans _ _ _ Hsame6 _).
    unfold sameLauncher. projections. conjs; reflexivity.
  - projections. rewrite Hdm6. projections. exact Hactive4'.
Qed.

Lemma post_and {A} (m : M A) (w : World) (Q1 Q2 : outcome A -> World -> Prop) :
  post m w Q1 -> post m w Q2 -> post m w (fun r w' => Q1 r w' /\ Q2 r w').
Proof. unfold post. intros H1 H2. split; assumption. Qed.

Lemma firstFailure_none (n : nat) (ts : Stream Transfer) :
  (forall i, (i < n)%nat -> transfer_fails (ts i) = false) ->
  firstFailure n ts = None.
Proof.
  revert ts. induction n as [|n IH]; intros ts Hnone; [ reflexivity | ].
  cbn [firstFailure]. unfold shead. rewrite (Hnone O) by lia.
  rewrite IH; [ reflexivity | ].
  intros i Hi. unfold stail. apply Hnone. lia.
Qed.

(** X19. Downloads leave nothing behind in the table of active
    downloads, and leave the launcher alone.  [downloadFile] removes
    the entry it made, whether the transfer completes or fails, so the
    table afterwards is the one before without the id it drew; after
    [downloadVersion], however it ends, the table holds nothing that
    was not there before, and an empty table is empty again.  Neither
    touches the session, the catalog, the launcher state or the
    window. *)
Theorem downloads_leave_nothing_active (url filename versionId : string)
        (modLoader : option string) (w : World) :
  post (DownloadManager.downloadFile url filename) w
       (fun _ w' =>
          activeDownloads (downloadManager w')
          = delete (shead (uuids (chance w))) (activeDownloads (downloadManager w))
          /\ sameLauncher w w')
  /\ post (DownloadManager.downloadVersion versionId modLoader) w
          (fun _ w' =>
             activeDownloads (downloadManager w') ⊆ activeDownloads (downloadManager w)
             /\ (activeDownloads (downloadManager w) = ∅ ->
                 activeDownloads (downloadManager w') = ∅)
             /\ sameLauncher w w').
Proof.
  split.
  - eapply post_conseq; [ apply downloadFile_frame | ].
    intros r w' [Hsame Hactive]. split; assumption.
  - eapply post_conseq; [ apply downloadVersion_frame | ].
    intros r w' [Hsame Hactive]. split; [ exact Hactive | ].
    split; [ | exact Hsame ].
    intros Hempty. rewrite Hempty in Hactive.
    apply map_empty. intros k.
    destruct (activeDownloads (downloadManager w') !! k) as [d|] eqn:Hk;
      [ | reflexivity ].
    pose proof (lookup_weaken _ _ _ _ Hk Hactive) as Hk'.
    rewrite lookup_empty in Hk'. discriminate Hk'.
Qed.

(** X20. Play on a version that is not installed yet.  For a signed-in
    user, a version of the catalog and a loader, if one is given, that
    is not named like a member of [Object.prototype], when none of the
    fifteen transfers fails and the start is not rejected, downloading
    the version and then launching it succeeds without any other
    preparation: the download marks the version installed, which is what
    [launchGame] checks; the process recorded is for this version and
    this user, and the launch heads the history. *)
Theorem download_then_launch (w : World) (versionId : string)
        (modLoader serverAddress : option string) (user : User) (type : string)
        (version : Version) :
  currentUser (authManager w) = Some user ->
  authType (authManager w) = Some type ->
  VersionManager.getVersionById (versions (versionManager w)) versionId = Some version ->
  (forall m, modLoader = Some m -> JS.plainKey m) ->
  (forall i, (i < 15)%nat -> transfer_fails (transfers (chance w) i) = false) ->
  launch_failsAfter (shead (launches (chance w))) = None ->
  post (DownloadManager.downloadVersion versionId modLoader ;;;
        GameLauncher.launchGame versionId modLoader serverAddress) w
    (fun result w' =>
       result = Returned true
       /\ versionId ∈ installedVersions (versionManager w')
       /\ (exists startTime,
             gameProcess (gameLauncher w')
             = Some {| process_pid := launch_pidDraw (shead (launches (chance w))) + 1000;
                       process_startTime := startTime;
                       process_version := versionId;
                       process_user := user_username user |})
       /\ (exists timestamp,
             launchHistory (gameLauncher w')
             = take 50 ({| launch_versionId := versionId;
                           launch_modLoader := modLoader;
                           launch_serverAddress := serverAddress;
                           launch_timestamp := timestamp;
                           launch_username := user_username user |}
                          :: launchHistory (gameLauncher w)))
       /\ activeDownloads (downloadManager w') ⊆ activeDownloads (downloadManager w)).
Proof.
  intros Hu Ht Hv Hplain Htransfers Hlaunch.
  apply post_bind.
  pose proof (downloadVersion_post w versionId modLoader version Hv) as Hresult.
  cbv zeta in Hresult.
  pose proof (post_and _ _ _ _ Hresult (downloadVersion_frame versionId modLoader w))
    as Hdownload.
  refine (post_conseq _ _ _ _ Hdownload _). clear Hresult Hdownload.
  intros r w1 [Hpost [Hsame Hactive]].
  rewrite firstFailure_none in Hpost.
  2: { intros i Hi. apply Htransfers.
       assert (Hlen : length (filesOf versionId
                                (VersionManager.versionDetailsOf version
                                   (VersionManager.librariesFrom (version_id version)
                                      VersionManager.baseLibraries
                                      (librarySizeDraws (chance w))))) = 15%nat)
         by (unfold filesOf; cbn [length details_libraries VersionManager.versionDetailsOf];
             rewrite length_map, librariesFrom_artifacts; reflexivity).
       lia. }
  destruct (Hpost Hplain) as (-> & _ & Hinstalled & _).
  destruct Hsame as (Ha1 & Hvs1 & Hgl1 & Hl1 & _ & _).
  assert (Hrun := launchGame_run w1 versionId modLoader serverAddress user type version).
  cbv zeta in Hrun.
  refine (post_conseq _ _ _ _ (Hrun _ _ _ _ _) _).
  - rewrite Ha1. exact Hu.
  - rewrite Ha1. exact Ht.
  - rewrite Hinstalled. apply elem_of_union_l, elem_of_singleton. reflexivity.
  - rewrite Hvs1. exact Hv.
  - rewrite Hl1. exact Hlaunch.
  - intros result w' (-> & Hprocess & Hhistory & _ & _ & _ & _ & Hvm' & Hdm').
    split; [ reflexivity | ].
    split; [ rewrite Hvm', Hinstalled;
             apply elem_of_union_l, elem_of_singleton; reflexivity | ].
    split; [ eexists; rewrite Hprocess, Hl1; reflexivity | ].
    split; [ eexists; rewrite Hhistory, Hgl1; reflexivity | ].
    rewrite Hdm'. exact Hactive.
Qed.

Lemma download_then_launch_witness :
  let w := Sample.configured Sample.defaultSettings in
  post (DownloadManager.downloadVersion "1.20.4" (Some "fabric") ;;;
        GameLauncher.launchGame "1.20.4" (Some "fabric") None) w
    (fun result w' =>
       result = Returned true
       /\ "1.20.4" ∈ installedVersions (versionManager w')
       /\ (exists startTime,
             gameProcess (gameLauncher w')
             = Some {| process_pid := launch_pidDraw (shead (launches (chance w))) + 1000;
                       process_startTime := startTime;
                       process_version := "1.20.4";
                       process_user := user_username Sample.steve |})
       /\ (exists timestamp,
             launchHistory (gameLauncher w')
             = take 50 ({| launch_versionId := "1.20.4";
                           launch_modLoader := Some "fabric";
                           launch_serverAddress := None;
                           launch_timestamp := timestamp;
                           launch_username := user_username Sample.steve |}
                          :: launchHistory (gameLauncher w)))
       /\ activeDownloads (downloadManager w') ⊆ activeDownloads (downloadManager w)).
Proof.
  apply (download_then_launch (Sample.configured Sample.defaultSettings) "1.20.4"
           (Some "fabric") None Sample.steve "offline" Sample.version_1_20_4).
  - reflexivity.
  - reflexivity.
  - vm_compute. reflexivity.
  - intros m Hm. injection Hm as <-. unfold JS.plainKey, JS.objectPrototypeKeys.
    simpl. intros H. repeat (destruct H as [H | H]; [discriminate H |]). exact H.
  - intros i _. reflexivity.
  - reflexivity.
Defined.

(** ** Server address and player name in the game arguments *)

Lemma split_without (sep : ascii) (s : string) :
  ~ In sep (list_ascii_of_string s) -> JS.split sep s = [s].
Proof.
  induction s as [|c s IH]; intros Hnone; [ reflexivity | ].
  cbn [JS.split]. destruct (Ascii.eqb c sep) eqn:E.
  - apply Ascii.eqb_eq in E. subst c. exfalso. apply Hnone. left. reflexivity.
  - rewrite IH; [ reflexivity | ]. intros Hin. apply Hnone. right. exact Hin.
Qed.

Lemma split_at_separator (sep : ascii) (piece rest : string) :
  ~ In sep (list_ascii_of_string piece) ->
  JS.split sep (piece +:+ String sep rest) = piece :: JS.split sep rest.
Proof.
  induction piece as [|c piece IH]; intros Hnone.
  - change ("" +:+ String sep rest) with (String sep rest).
    cbn [JS.split]. rewrite Ascii.eqb_refl. reflexivity.
  - change (String c piece +:+ String sep rest)
      with (String c (piece +:+ String sep rest)).
    cbn [JS.split]. destruct (Ascii.eqb c sep) eqn:E.
    + apply Ascii.eqb_eq in E. subst c. exfalso. apply Hnone. left. reflexivity.
    + rewrite IH; [ reflexivity | ]. intros Hin. apply Hnone. right. exact Hin.
Qed.

Lemma truthy_app (a b : string) :
  JS.truthy (a +:+ b) = JS.truthy a || JS.truthy b.
Proof. destruct a; [ destruct b; reflexivity | reflexivity ]. Qed.

(** X25. How a server address becomes arguments.  The address is cut
    at its colons and only the first two pieces are used: a host alone
    gives [--server host]; host:port gives [--server host --port port];
    an empty port is dropped; and whatever follows a second colon is
    ignored without a word, so that an address with more colons, such
    as an IPv6 literal, is passed on cut short.  No address, or an empty
    one, adds nothing. *)
Theorem serverArguments_parses (host port rest : string) :
  ~ In ":"%char (list_ascii_of_string host) ->
  ~ In ":"%char (list_ascii_of_string port) ->
  host <> "" ->
  port <> "" ->
  GameLauncher.serverArguments (Some host) = ["--server"; host]
  /\ GameLauncher.serverArguments (Some (host +:+ ":" +:+ port))
     = ["--server"; host; "--port"; port]
  /\ GameLauncher.serverArguments (Some (host +:+ ":")) = ["--server"; host]
  /\ GameLauncher.serverArguments (Some (host +:+ ":" +:+ port +:+ ":" +:+ rest))
     = ["--server"; host; "--port"; port]
  /\ GameLauncher.serverArguments (Some (":" +:+ port)) = ["--server"; ""; "--port"; port]
  /\ GameLauncher.serverArguments (Some "") = []
  /\ GameLauncher.serverArguments None = [].
Proof.
  intros Hhost Hport Hhost0 Hport0.
  assert (Hth : JS.truthy host = true) by (destruct host; [ contradiction | reflexivity ]).
  assert (Htp : JS.truthy port = true) by (destruct port; [ contradiction | reflexivity ]).
  unfold GameLauncher.serverArguments.
  split; [ rewrite Hth, (split_without _ _ Hhost); reflexivity | ].
  split.
  { rewrite truthy_app, Hth. cbn [orb].
    change (":" +:+ port) with (String ":" port).
    rewrite (split_at_separator _ _ _ Hhost), (split_without _ _ Hport), Htp.
    reflexivity. }
  split.
  { rewrite truthy_app, Hth. cbn [orb].
    change (":" : string) with (String ":" "").
    rewrite (split_at_separator _ _ _ Hhost). reflexivity. }
  split.
  { rewrite truthy_app, Hth. cbn [orb].
    change (":" +:+ port +:+ ":" +:+ rest) with (String ":" (port +:+ String ":" rest)).
    rewrite (split_at_separator _ _ _ Hhost), (split_at_separator _ _ _ Hport), Htp.
    destruct (JS.split ":" rest); reflexivity. }
  split; [ | split; reflexivity ].
  change (":" +:+ port) with (String ":" port).
  cbn [JS.truthy JS.split]. rewrite Ascii.eqb_refl, (split_without _ _ Hport), Htp.
  reflexivity.
Qed.

Lemma serverArguments_parses_witness :
  GameLauncher.serverArguments (Some "play.example.net") = ["--server"; "play.example.net"]
  /\ GameLauncher.serverArguments (Some ("play.example.net" +:+ ":" +:+ "25565"))
     = ["--server"; "play.example.net"; "--port"; "25565"]
  /\ GameLauncher.serverArguments (Some ("play.example.net" +:+ ":"))
     = ["--server"; "play.example.net"]
  /\ GameLauncher.serverArguments
       (Some ("play.example.net" +:+ ":" +:+ "25565" +:+ ":" +:+ "extra"))
     = ["--server"; "play.example.net"; "--port"; "25565"]
  /\ GameLauncher.serverArguments (Some (":" +:+ "25565"))
     = ["--server"; ""; "--port"; "25565"]
  /\ GameLauncher.serverArguments (Some "") = []
  /\ GameLauncher.serverArguments None = [].
Proof.
  apply (serverArguments_parses "play.example.net" "25565" "extra").
  - simpl. intros H. repeat (destruct H as [H | H]; [ discriminate H | ]). exact H.
  - simpl. intros H. repeat (destruct H as [H | H]; [ discriminate H | ]). exact H.
  - discriminate.
  - discriminate.
Defined.

Example serverArguments_ipv6 :
  GameLauncher.serverArguments (Some "::1") = ["--server"; ""]
  /\ GameLauncher.serverArguments (Some "[2001:db8::1]:25565")
     = ["--server"; "[2001"; "--port"; "db8"].
Proof. split; vm_compute; reflexivity. Qed.

Lemma getSubstitution_plain (matched before after replacement : string) :
  ~ In "$"%char (list_ascii_of_string replacement) ->
  JS.getSubstitution matched before after replacement = replacement.
Proof.
  induction replacement as [|c r IH]; intros Hnone; [ reflexivity | ].
  assert (Hc : c <> "$"%char).
  { intros ->. apply Hnone. left. reflexivity. }
  assert (Hr : ~ In "$"%char (list_ascii_of_string r)).
  { intros Hin. apply Hnone. right. exact Hin. }
  specialize (IH Hr).
  transitivity (String c (JS.getSubstitution matched before after r));
    [ | rewrite IH; reflexivity ].
  clear -Hc.
  destruct c as [[] [] [] [] [] [] [] []];
    first [ reflexivity | contradiction Hc; reflexivity ].
Qed.

Lemma append_empty_r (s : string) : s +:+ "" = s.
Proof.
  induction s as [|c s IH]; [ reflexivity | ].
  change (String c s +:+ "") with (String c (s +:+ "")). rewrite IH. reflexivity.
Qed.

(** X26. A name that offline sign-in accepts reaches the game as it
    is.  [replaceArgumentVariables] hands the name to
    [String.prototype.replace], which reads dollar patterns in a
    replacement; a valid name has no dollar sign, so the placeholder
    for the player name becomes exactly the name, and none of the later
    replacements finds anything in it. *)
Theorem offline_username_verbatim (user : User) (versionDetails : VersionDetails)
        (gameDirectory assetsDirectory : string) (w : World) :
  Utils.isValidUsername (user_username user) = true ->
  GameLauncher.replaceArgumentVariables "${auth_player_name}" user versionDetails
                                        gameDirectory assetsDirectory w
  = (Returned (user_username user), w).
Proof.
  intros Hvalid.
  destruct (isValidUsername_chars _ Hvalid) as [_ Hchars].
  assert (Hnone : ~ In "$"%char (list_ascii_of_string (user_username user))).
  { intros Hin. apply Hchars in Hin. discriminate Hin. }
  assert (Hfirst : JS.replace "${auth_player_name}" "${auth_player_name}"
                              (user_username user)
                   = user_username user).
  { unfold JS.replace.
    assert (Hcut : JS.cutAtFirst "${auth_player_name}" "${auth_player_name}"
                   = Some ("", "")) by (vm_compute; reflexivity).
    rewrite Hcut, (getSubstitution_plain _ _ _ _ Hnone).
    change ("" +:+ user_username user +:+ "") with (user_username user +:+ "").
    apply append_empty_r. }
  unfold GameLauncher.replaceArgumentVariables, GameLauncher.getUserType,
    AuthManager.getAuthType.
  unfold bind, gets, ret. cbv zeta.
  destruct (authType (authManager w)) as [t|];
    [ destruct (String.eqb t "microsoft" || String.eqb t "mojang") | ];
    rewrite Hfirst, !(replace_dollar _ _ _ Hnone); reflexivity.
Qed.

Lemma offline_username_verbatim_witness :
  GameLauncher.replaceArgumentVariables "${auth_player_name}" Sample.steve Sample.details
    GameLauncher.getGameDirectory GameLauncher.getAssetsDirectory Sample.fresh
  = (Returned (user_username Sample.steve), Sample.fresh).
Proof.
  apply (offline_username_verbatim Sample.steve Sample.details
           GameLauncher.getGameDirectory GameLauncher.getAssetsDirectory Sample.fresh).
  vm_compute. reflexivity.
Defined.
